(** * terraform-docs: the formats-guide generator (scripts/docs/generate.go)

    A shallow embedding of the documentation generator and the
    verification of its specification.  The generator walks a cobra
    command tree, writes one markdown page per formatter command below
    [./docs/formats] and a guide page for the root below [./docs].

    The Go program is effectful: it mutates the command tree it walks
    (cobra sorts the children it enumerates and adds its default help),
    it creates and writes files, it reads the clock, and it may stop the
    process or panic.  The embedding makes
    these effects explicit: functions take and return the command, the
    page buffer and a [World] (file system, clock ticks, system-call
    trace), and report how they ended as an [outcome]. *)

From Stdlib Require Import Ascii String List Arith Lia Bool Sorted.
From stdpp Require Import base option list gmap strings.

Set Default Proof Using "Type".
Set Warnings "-clear-no-such-hyp".

(** ** Characters and text helpers *)

Definition LF : ascii := ascii_of_nat 10.
Definition TAB : ascii := ascii_of_nat 9.
Definition SLASH : ascii := ascii_of_nat 47.
Definition SPACE : ascii := ascii_of_nat 32.

(** ["\n"] and ["\t"] of the Go source. *)
Definition NL : string := String LF "".
Definition HT : string := String TAB "".

(** Go's [==] on strings. *)
Definition streq (a b : string) : bool := bool_decide (a = b).

(** ** Package [strings] of the Go standard library *)

Module strings.

(** [strings.HasPrefix(s, prefix)]. *)
Definition HasPrefix (s prefix : string) : bool := String.prefix prefix s.

(** The scan of [strings.Replace(s, old, new, -1)] for a non-empty [old]:
    occurrences are found from left to right and do not overlap.  [skip]
    counts the bytes of the occurrence just replaced that are still to be
    passed over. *)
Fixpoint replace_from (old new : string) (skip : nat) (s : string) : string :=
  match s with
  | EmptyString => EmptyString
  | String c s' =>
      match skip with
      | S k => replace_from old new k s'
      | O =>
          if HasPrefix s old
          then new +:+ replace_from old new (String.length old - 1) s'
          else String c (replace_from old new 0 s')
      end
  end.

(** For an empty [old] Go inserts [new] before every byte and at the end. *)
Fixpoint intersperse (new s : string) : string :=
  match s with
  | EmptyString => new
  | String c s' => new +:+ String c (intersperse new s')
  end.

(** [strings.Replace(s, old, new, -1)]: every occurrence is replaced. *)
Definition ReplaceAll (s old new : string) : string :=
  match old with
  | EmptyString => intersperse new s
  | _ => replace_from old new 0 s
  end.

(** [strings.Split(s, sep)] for a separator of one byte (the program
    only splits on ["\n"]).  The result is never empty: a string without
    the separator is returned as its only element. *)
Fixpoint SplitByte (s : string) (sep : ascii) : list string :=
  match s with
  | EmptyString => [EmptyString]
  | String c s' =>
      if Ascii.eqb c sep then EmptyString :: SplitByte s' sep
      else match SplitByte s' sep with
           | [] => [String c EmptyString]
           | seg :: segs => String c seg :: segs
           end
  end.

(** [strings.Join(elems, sep)]. *)
Fixpoint Join (elems : list string) (sep : string) : string :=
  match elems with
  | [] => EmptyString
  | [e] => e
  | e :: es => e +:+ sep +:+ Join es sep
  end.

(** [strings.Index(s, " ") >= 0 ? s[:i] : s], as used by cobra's [Name]. *)
Fixpoint upto (sep : ascii) (s : string) : string :=
  match s with
  | EmptyString => EmptyString
  | String c s' => if Ascii.eqb c sep then EmptyString else String c (upto sep s')
  end.

(** [strings.HasSuffix(s, suffix)]. *)
Definition HasSuffix (s suffix : string) : bool :=
  let n := String.length s in
  let m := String.length suffix in
  (m <=? n) && streq (String.substring (n - m) m s) suffix.

End strings.

(** ** Package [path/filepath] (Unix) *)

Module filepath.

(** One step of [Clean] over the path elements: [stack] holds the
    elements kept so far, innermost first. *)
Definition clean_step (rooted : bool) (stack : list string) (elem : string)
  : list string :=
  if streq elem "" || streq elem "." then stack
  else if streq elem ".." then
    match stack with
    | top :: rest => if streq top ".." then elem :: stack else rest
    | [] => if rooted then [] else [elem]
    end
  else elem :: stack.

(** [filepath.Clean(path)]. *)
Definition Clean (path : string) : string :=
  match path with
  | EmptyString => "."
  | String c _ =>
      let rooted := Ascii.eqb c SLASH in
      let kept := rev (fold_left (clean_step rooted) (strings.SplitByte path SLASH) []) in
      let body := strings.Join kept "/" in
      if rooted then "/" +:+ body
      else if streq body "" then "." else body
  end.

(** [filepath.Join(elem...)]: leading empty elements are dropped, the
    rest is joined with the separator and cleaned. *)
Fixpoint Join (elem : list string) : string :=
  match elem with
  | [] => EmptyString
  | e :: es => if streq e "" then Join es else Clean (strings.Join elem "/")
  end.

(** [filepath.Dir(path)] of a clean path: all but the last element. *)
Definition Dir (path : string) : string :=
  match rev (strings.SplitByte path SLASH) with
  | [] | [_] => "."
  | _ :: parents =>
      match strings.Join (rev parents) "/" with
      | EmptyString => "/"
      | d => d
      end
  end.

End filepath.

(** ** Errors *)

(** A Go [error], by its message. *)
Definition error := string.

Inductive result (A : Type) :=
  | Ok (a : A)
  | Err (e : error).
Arguments Ok {A} a.
Arguments Err {A} e.

(** ** The command tree (package [cobra], at its interface)

    The generator receives the tree from [cmd.NewCommand()] and only uses
    the methods below, which follow the behaviour cobra documents for
    them.  A node keeps the attributes these methods read.  Go reaches the
    parent through a pointer; here the parent's command path is passed
    down by the walker ([None] for the root), and the fact that a node is
    its parent's [helpCommand] is a flag of the node.  A node keeps its
    children as the slice [c.commands] holds them, which is the order in
    which they were added until [Commands()] sorts the slice in place, and
    its flags in the order in which they were added to their flag set. *)

(** A [pflag.Flag]. *)
Record Flag := mkFlag {
  flag_Name : string;
  flag_Shorthand : string;
  flag_Usage : string;
  flag_DefValue : string;
  flag_Hidden : bool
}.

#[warnings="-register-all"]
Inductive Command := mkCommand {
  Use : string;
  Short : string;
  Long : string;
  (** the field [Example] *)
  ExampleText : string;
  Annotations : gmap string string;
  Hidden : bool;
  Deprecated : string;
  (** [Run != nil || RunE != nil] *)
  HasRun : bool;
  DisableAutoGenTag : bool;
  (** [c.Parent().helpCommand == c] *)
  IsHelpCommand : bool;
  (** the flag set [NonInheritedFlags()] returns, in the order in which
      the flags were added *)
  LocalFlags : list Flag;
  (** the flag set [InheritedFlags()] returns (persistent flags of
      ancestors) *)
  ParentFlags : list Flag;
  (** the slice [c.commands] *)
  commands : list Command
}.

(** The induction principle for the nested tree: a property holds of a
    node when it holds of all its children. *)
Section Command_induction.
Variable P : Command → Prop.
Hypothesis step : ∀ u s l e a h d r g i lf pf cs,
  Forall P cs → P (mkCommand u s l e a h d r g i lf pf cs).

Fixpoint Command_tree_ind (c : Command) : P c :=
  match c with
  | mkCommand u s l e a h d r g i lf pf cs =>
      step u s l e a h d r g i lf pf cs
        ((fix all (cs : list Command) : Forall P cs :=
            match cs with
            | [] => Forall_nil_2 P
            | c' :: cs' => Forall_cons_2 P c' cs' (Command_tree_ind c') (all cs')
            end) cs)
  end.
End Command_induction.

(** Functional updates of the two attributes the generator changes. *)
Definition with_commands (c : Command) (cs : list Command) : Command :=
  mkCommand (Use c) (Short c) (Long c) (ExampleText c) (Annotations c) (Hidden c)
    (Deprecated c) (HasRun c) (DisableAutoGenTag c) (IsHelpCommand c)
    (LocalFlags c) (ParentFlags c) cs.

Definition with_LocalFlags (c : Command) (fs : list Flag) : Command :=
  mkCommand (Use c) (Short c) (Long c) (ExampleText c) (Annotations c) (Hidden c)
    (Deprecated c) (HasRun c) (DisableAutoGenTag c) (IsHelpCommand c)
    fs (ParentFlags c) (commands c).

(** [c.Annotations["kind"]]: a missing key reads as the empty string. *)
Definition annotation (c : Command) (key : string) : string :=
  default "" (Annotations c !! key).

(** [c.Name()]: the first word of [Use]. *)
Definition Name (c : Command) : string := strings.upto SPACE (Use c).

(** [sort.Sort] by a string key, with [<] on strings (bytewise): every
    element is put before the first later one whose key is not smaller.
    Go's [sort.Sort] does not promise to keep elements of equal key in
    their order; this sort keeps them, as Go's does on the short slices it
    sorts by insertion, and on keys that are all different every sort
    gives the same slice. *)
Fixpoint insertOn {A : Type} (key : A → string) (x : A) (l : list A) : list A :=
  match l with
  | [] => [x]
  | y :: l' => if String.leb (key x) (key y) then x :: l else y :: insertOn key x l'
  end.

Definition sortOn {A : Type} (key : A → string) (l : list A) : list A :=
  fold_right (insertOn key) [] l.

(** [sort.Sort(commandSorterByName(cs))]. *)
Definition sortByName (cs : list Command) : list Command := sortOn Name cs.

(** [c.Commands()]: the children are sorted by name in place (cobra's
    [EnableCommandSorting] is on unless a program turns it off, and the
    generator does not) and returned; [commands (Commands c)] is the slice
    the caller gets.  Cobra skips the sort when the slice is known to be
    sorted, which gives the same slice. *)
Definition Commands (c : Command) : Command :=
  with_commands c (sortByName (commands c)).

(** [c.CommandPath()]: the parent's path, a space, and the name. *)
Definition CommandPath (parent : option string) (c : Command) : string :=
  match parent with
  | Some p => p +:+ " " +:+ Name c
  | None => Name c
  end.

(** [c.Runnable()]. *)
Definition Runnable (c : Command) : bool := HasRun c.

(** [c.IsAvailableCommand()]: not deprecated, not hidden, not the help
    command of its parent, and runnable or with an available subcommand. *)
Fixpoint IsAvailableCommand (c : Command) : bool :=
  if negb (streq (Deprecated c) "") || Hidden c then false
  else if IsHelpCommand c then false
  else Runnable c || existsb IsAvailableCommand (commands c).

(** [c.IsAdditionalHelpTopicCommand()]: not runnable, deprecated or hidden,
    and every subcommand is itself an additional help topic. *)
Fixpoint IsAdditionalHelpTopicCommand (c : Command) : bool :=
  if Runnable c || negb (streq (Deprecated c) "") || Hidden c then false
  else forallb IsAdditionalHelpTopicCommand (commands c).

(** [flags.HasAvailableFlags()]: some flag is not hidden. *)
Definition HasAvailableFlags (fs : list Flag) : bool :=
  existsb (λ f, negb (flag_Hidden f)) fs.

(** The command [InitDefaultHelpCmd] creates. *)
Definition defaultHelpCommand (c : Command) : Command :=
  mkCommand "help [command]" "Help about any command"
    ("Help provides help for any command in the application." +:+ NL +:+
     "Simply type " +:+ Name c +:+ " help [path to command] for full details.")
    "" ∅ false "" true false true [] [] [].

(** [c.RemoveCommand(c.helpCommand)]: the children without the help
    command, and the help command when it was among them. *)
Fixpoint removeHelpCommand (cs : list Command) : list Command * option Command :=
  match cs with
  | [] => ([], None)
  | c :: rest =>
      if IsHelpCommand c then (rest, Some c)
      else let '(rest', h) := removeHelpCommand rest in (c :: rest', h)
  end.

(** The children after [RemoveCommand] and [AddCommand] of the help
    command of [c]: the help command (the default one when none is set)
    is the last element of the slice, until [Commands()] sorts it. *)
Definition helpLast (c : Command) (cs : list Command) : list Command :=
  let '(others, h) := removeHelpCommand cs in
  others ++ [default (defaultHelpCommand c) h].

(** [c.InitDefaultHelpCmd()]: nothing for a command without subcommands;
    otherwise the help command is removed from the children and added
    again. *)
Definition InitDefaultHelpCmd (c : Command) : Command :=
  match commands c with
  | [] => c
  | cs => with_commands c (helpLast c cs)
  end.

(** The flag [InitDefaultHelpFlag] creates. *)
Definition defaultHelpFlag (c : Command) : Flag :=
  mkFlag "help" "h"
    ("help for " +:+ (if streq (Name c) "" then "this command" else Name c))
    "false" false.

(** The command with the help flag in its flag set: the flag is added to
    the own flags unless the flag set (own and inherited flags) already has
    a flag named [help].  The flags stand in the order in which they were
    added; in which order pflag prints them is up to [FlagUsages] below. *)
Definition withHelpFlag (c : Command) : Command :=
  if existsb (λ f, streq (flag_Name f) "help") (LocalFlags c ++ ParentFlags c)
  then c
  else with_LocalFlags c (LocalFlags c ++ [defaultHelpFlag c]).

(** The flag of the command's flag set that has the shorthand [h]. *)
Definition shorthandH (c : Command) : option Flag :=
  List.find (λ f, streq (flag_Shorthand f) "h") (LocalFlags c ++ ParentFlags c).

(** The double quote. *)
Definition DQ : string := String (ascii_of_nat 34) "".

(** The message with which pflag's [AddFlag] panics when the shorthand
    [h] belongs to the flag [used] already. *)
Definition shorthandPanic (c : Command) (used : Flag) : string :=
  "unable to redefine 'h' shorthand in " +:+ DQ +:+ Name c +:+ DQ
  +:+ " flagset: it's already used for " +:+ DQ +:+ flag_Name used +:+ DQ +:+ " flag".

(** [c.InitDefaultHelpFlag()]: nothing when the flag set has a flag
    named [help]; otherwise [Flags().BoolP("help", "h", ...)] adds the
    help flag, and panics when another flag has the shorthand [h].
    [Err] carries the value of the panic. *)
Definition InitDefaultHelpFlag (c : Command) : result Command :=
  if existsb (λ f, streq (flag_Name f) "help") (LocalFlags c ++ ParentFlags c)
  then Ok c
  else match shorthandH c with
       | Some used => Err (shorthandPanic c used)
       | None => Ok (with_LocalFlags c (LocalFlags c ++ [defaultHelpFlag c]))
       end.

(** The command as [generateMarkdown] renders it, after lines 77-78. *)
Definition initialised (c : Command) : Command :=
  withHelpFlag (InitDefaultHelpCmd c).

(** ** Results, the clock and the file system *)

(** How a call ended: it returned [nil], it returned an error, it
    stopped the process through [log.Fatal] (which logs the error and
    exits with status 1 without returning to its caller), or it panicked
    (no caller recovers: the process prints the value of the panic and
    exits with status 2). *)
Inductive outcome :=
  | Nil
  | Returned (e : error)
  | Fatal (e : error)
  | Panicked (e : error).

Inductive Month :=
  | January | February | March | April | May | June
  | July | August | September | October | November | December.

(** The part of a [time.Time] the layout ["2-Jan-2006"] prints. *)
Record Time := mkTime { year : nat; month : Month; day : nat }.

(** A call on the file system that took effect, as recorded in the trace:
    a file was created or truncated, or bytes were appended to it. *)
Inductive Event :=
  | ECreate (name : string)
  | EWrite (name : string) (data : string).

(** The world the program runs in: the directories and files below the
    working directory, the free space of the device, the calls made so
    far, and how often the clock was read. *)
Record World := mkWorld {
  dirs : gset string;
  files : gmap string string;
  free : nat;
  trace : list Event;
  ticks : nat
}.

Definition digit (n : nat) : ascii := ascii_of_nat (48 + n).

Fixpoint itoa_go (fuel n : nat) (acc : string) : string :=
  match fuel with
  | O => acc
  | S fuel' =>
      let acc' := String (digit (n mod 10)) acc in
      if n / 10 =? 0 then acc' else itoa_go fuel' (n / 10) acc'
  end.

(** [strconv.Itoa] on a natural number. *)
Definition Itoa (n : nat) : string := itoa_go (S n) n "".

(** The layout element [Jan]. *)
Definition monthAbbrev (m : Month) : string :=
  match m with
  | January => "Jan" | February => "Feb" | March => "Mar" | April => "Apr"
  | May => "May" | June => "Jun" | July => "Jul" | August => "Aug"
  | September => "Sep" | October => "Oct" | November => "Nov" | December => "Dec"
  end.

(** The layout element [2006]: the year, padded with zeros to four digits. *)
Definition year4 (y : nat) : string :=
  let s := Itoa y in
  String.concat "" (repeat "0" (4 - String.length s)) +:+ s.

(** [t.Format("2-Jan-2006")]. *)
Definition Format (t : Time) : string :=
  Itoa (day t) +:+ "-" +:+ monthAbbrev (month t) +:+ "-" +:+ year4 (year t).

Module os.

(** The directories a path lies in, the nearest first. *)
Fixpoint ancestors_from (fuel : nat) (path : string) : list string :=
  match fuel with
  | O => []
  | S fuel' =>
      let d := filepath.Dir path in
      if streq d path then [] else d :: ancestors_from fuel' d
  end.

Definition ancestors (path : string) : list string :=
  ancestors_from (S (String.length path)) path.

(** [os.Create(name)]: the file is created, or truncated, which gives the
    bytes it held back to the device.  The call fails when [name] is a
    directory, and when its parent is no directory: with [ENOTDIR] when
    the path runs through a regular file, with [ENOENT] when it runs
    through nothing. *)
Definition Create (name : string) (w : World) : result World :=
  if bool_decide (name ∈ dirs w) then
    Err ("open " +:+ name +:+ ": is a directory")
  else if bool_decide (filepath.Dir name ∈ dirs w) then
    Ok (mkWorld (dirs w) (<[name := ""]> (files w))
          (free w + String.length (default "" (files w !! name)))
          (trace w ++ [ECreate name]) (ticks w))
  else if existsb (λ d, bool_decide (d ∈ dom (files w))) (ancestors name) then
    Err ("open " +:+ name +:+ ": not a directory")
  else
    Err ("open " +:+ name +:+ ": no such file or directory").

(** [f.Write(data)] on the file opened as [name]: the bytes the device
    has room for are appended; when they are not all of [data] the call
    fails. *)
Definition Write (name data : string) (w : World) : World * option error :=
  let n := String.length data in
  let written := String.substring 0 (min n (free w)) data in
  let w' := mkWorld (dirs w)
              (<[name := default "" (files w !! name) +:+ written]> (files w))
              (free w - n) (trace w ++ [EWrite name written]) (ticks w) in
  if n <=? free w then (w', None)
  else (w', Some ("write " +:+ name +:+ ": no space left on device")).

End os.

(** [time.Now()]: the clock is read and advances. *)
Definition tick (w : World) : World :=
  mkWorld (dirs w) (files w) (free w) (trace w) (S (ticks w)).

(** ** The formatter packages, at their interface

    [print.Settings], [terraform.Options], [format.Factory],
    [terraform.LoadWithOptions] and the printers belong to other packages
    of terraform-docs; [UseLine] and the flag usages are computed by cobra
    and pflag.  The generator is verified for every implementation of
    them. *)

(** Modelled from the spec: [print.Settings] is declared in package
    [print], which is not among the sources; section 6 of the specification
    gives it a color-enable flag and sort-order flags, the fields the
    generator reads or writes. *)
Record Settings := mkSettings {
  ShowColor : bool;
  SortByName : bool;
  SortByRequired : bool
}.

Record SortBy := mkSortBy { sort_Name : bool; sort_Required : bool }.

(** Modelled from the spec: [terraform.Options] is declared in package
    [terraform], which is not among the sources; section 6 of the
    specification gives it a source path, header-display flags and a sort
    specification, the fields the generator sets. *)
Record Options := mkOptions {
  Path : string;
  ShowHeader : bool;
  HeaderFromFile : string;
  OptSortBy : SortBy
}.

Class Externals := {
  (** a [print.Engine] and a [terraform.Module] *)
  Printer : Type;
  TFModule : Type;
  (** [print.NewSettings()] *)
  NewSettings : Settings;
  (** [format.Factory(name, settings)] *)
  Factory : string → Settings → result Printer;
  (** [terraform.LoadWithOptions(options)] *)
  LoadWithOptions : Options → result TFModule;
  (** [printer.Print(module, settings)] *)
  Print : Printer → TFModule → Settings → result string;
  (** [cmd.UseLine()], given the parent's command path *)
  UseLine : option string → Command → string;
  (** the text [flags.PrintDefaults()] writes for the flag set that holds
      these flags, given in the order in which they were added: pflag
      lists them by name unless the set's [SortFlags] is off *)
  FlagUsages : list Flag → string;
  (** the value of the n-th reading of [time.Now()] *)
  Now : nat → Time
}.

(** ** The generator (scripts/docs/generate.go) *)

Definition basedir : string := "/docs".
Definition formatdir : string := "/formats".

(** [fmt.Sprintf("```\n%s\n```\n\n", text)]. *)
Definition fenced (text : string) : string :=
  "```" +:+ NL +:+ text +:+ NL +:+ "```" +:+ NL +:+ NL.

(** The file name of a command's page, from its command path (line 54). *)
Definition derivedName (cname : string) : string :=
  strings.ReplaceAll (strings.ReplaceAll cname " " "-") "terraform-docs-" "".

Definition getFlags (name : string) : string :=
  if streq (strings.ReplaceAll name "terraform-docs " "") "pretty"
  then " --no-color"
  else "".

Section Generator.
Context `{Ext : Externals}.

Definition printOptions (buf : string) (cmd : Command) (name : string)
  : string * outcome :=
  let flags := LocalFlags cmd in
  let buf :=
    if HasAvailableFlags flags
    then buf +:+ ("### Options" +:+ NL +:+ NL +:+ "```" +:+ NL)
             +:+ FlagUsages flags
             +:+ ("```" +:+ NL +:+ NL)
    else buf in
  let parentFlags := ParentFlags cmd in
  let buf :=
    if HasAvailableFlags parentFlags
    then buf +:+ ("### Options inherited from parent commands" +:+ NL +:+ NL +:+ "```" +:+ NL)
             +:+ FlagUsages parentFlags
             +:+ ("```" +:+ NL +:+ NL)
    else buf in
  (buf, Nil).

(** The loop body of [printExample] (lines 185-191). *)
Definition writeSegment (buf s : string) : string :=
  if streq s "" then buf +:+ NL
  else buf +:+ ("    " +:+ s +:+ NL).

Definition printExample (buf : string) (name : string) : string * outcome :=
  let buf := buf +:+ ("### Example" +:+ NL +:+ NL) in
  let buf := buf +:+ ("Given the [`examples`](/examples/) module:" +:+ NL +:+ NL) in
  let buf := buf +:+ ("```shell" +:+ NL) in
  let buf := buf +:+ (name +:+ getFlags name +:+ " ./examples/" +:+ NL) in
  let buf := buf +:+ ("```" +:+ NL +:+ NL) in
  let buf := buf +:+ ("generates the following output:" +:+ NL +:+ NL) in
  let settings := NewSettings in
  let settings := mkSettings false (SortByName settings) (SortByRequired settings) in
  let options :=
    mkOptions "./examples" true "main.tf"
      (mkSortBy (SortByName settings) (SortByRequired settings)) in
  let name := strings.ReplaceAll name "terraform-docs " "" in
  match Factory name settings with
  | Err e => (buf, Returned e)
  | Ok printer =>
      match LoadWithOptions options with
      | Err e => (buf, Fatal e)
      | Ok tfmodule =>
          match Print printer tfmodule settings with
          | Err e => (buf, Returned e)
          | Ok output =>
              let segments := strings.SplitByte output LF in
              let buf := fold_left writeSegment segments buf in
              (buf +:+ NL, Nil)
          end
      end
  end.

(** The inner loop body of [printSeeAlso] (lines 208-218), for a
    grandchild [c] of the page's command; [cpath] is the child's path. *)
Definition seeAlsoGrandchild (cpath : string) (buf : string) (c : Command) : string :=
  if negb (IsAvailableCommand c) || IsAdditionalHelpTopicCommand c then buf
  else if streq (annotation c "kind") "" || negb (streq (annotation c "kind") "formatter")
  then buf
  else
    let cname := CommandPath (Some cpath) c in
    let link :=
      strings.ReplaceAll (strings.ReplaceAll cname " " "-" +:+ ".md") "terraform-docs-" "" in
    buf +:+ ("  * [" +:+ cname +:+ "](" +:+ basedir +:+ formatdir +:+ "/" +:+ link +:+ ")"
             +:+ HT +:+ " - " +:+ Short c +:+ NL).

(** The outer loop body of [printSeeAlso] (lines 198-219); [path] is the
    path of the page's command.  The inner loop ranges over
    [child.Commands()]. *)
Definition seeAlsoChild (path : string) (buf : string) (child : Command) : string :=
  if negb (IsAvailableCommand child) || IsAdditionalHelpTopicCommand child then buf
  else if streq (annotation child "kind") "" || negb (streq (annotation child "kind") "formatter")
  then buf
  else
    let cname := CommandPath (Some path) child in
    let link :=
      strings.ReplaceAll (strings.ReplaceAll cname " " "-" +:+ ".md") "terraform-docs-" "" in
    let buf :=
      buf +:+ ("* [" +:+ cname +:+ "](" +:+ basedir +:+ formatdir +:+ "/" +:+ link +:+ ")"
               +:+ HT +:+ " - " +:+ Short child +:+ NL) in
    fold_left (seeAlsoGrandchild cname) (commands (Commands child)) buf.

Definition printSeeAlso (buf : string) (path : string) (children : list Command)
  : string * outcome :=
  let buf := buf +:+ ("### SEE ALSO" +:+ NL +:+ NL) in
  let buf := fold_left (seeAlsoChild path) children buf in
  (buf +:+ NL, Nil).

(** What the outer loop of [printSeeAlso] does to a child: the call
    [child.Commands()] at line 208 sorts the children of a child that
    passes the two guards. *)
Definition seeAlsoVisit (child : Command) : Command :=
  if negb (IsAvailableCommand child) || IsAdditionalHelpTopicCommand child then child
  else if streq (annotation child "kind") "" || negb (streq (annotation child "kind") "formatter")
  then child
  else Commands child.

(** The buffer [generateMarkdown] fills (lines 80-119), for the command
    as the default-help initialisation left it.  Line 107 enumerates the
    children with [cmd.Commands()]. *)
Definition pageBuffer (parent : option string) (cmd : Command) (w : World)
  : string * World * outcome :=
  let buf := "" in
  let name := CommandPath parent cmd in
  let short := Short cmd in
  let long := Long cmd in
  let long := if String.length long =? 0 then short else long in
  let buf := buf +:+ ("## " +:+ name +:+ NL +:+ NL) in
  let buf := buf +:+ (short +:+ NL +:+ NL) in
  let buf := buf +:+ ("### Synopsis" +:+ NL +:+ NL) in
  let buf := buf +:+ (long +:+ NL +:+ NL) in
  let buf := if Runnable cmd then buf +:+ fenced (UseLine parent cmd) else buf in
  let buf :=
    if 0 <? String.length (ExampleText cmd)
    then buf +:+ ("### Examples" +:+ NL +:+ NL) +:+ fenced (ExampleText cmd)
    else buf in
  match printOptions buf cmd name with
  | (buf, Nil) =>
      let '(buf, o) :=
        if List.length (commands (Commands cmd)) =? 0
        then printExample buf name
        else printSeeAlso buf name (commands (Commands cmd)) in
      match o with
      | Nil =>
          if negb (DisableAutoGenTag cmd)
          then (buf +:+ ("###### Auto generated by spf13/cobra on "
                         +:+ Format (Now (ticks w)) +:+ NL), tick w, Nil)
          else (buf, w, Nil)
      | o => (buf, w, o)
      end
  | (buf, o) => (buf, w, o)
  end.

(** The command as lines 107-115 leave it: [cmd.Commands()] has sorted
    its children, and [printSeeAlso] those of the children it lists. *)
Definition rendered (cmd : Command) : Command :=
  let cmd := Commands cmd in
  if List.length (commands cmd) =? 0 then cmd
  else with_commands cmd (map seeAlsoVisit (commands cmd)).

(** [generateMarkdown(cmd, w)], where [w] is the file opened as
    [filename].  The buffer is never empty, so [buf.WriteTo] makes one
    [Write] call.  When [InitDefaultHelpFlag] panics, pflag has put the
    help flag into the flag set already. *)
Definition generateMarkdown (parent : option string) (cmd : Command)
    (filename : string) (w : World) : Command * World * outcome :=
  let cmd := InitDefaultHelpCmd cmd in
  match InitDefaultHelpFlag cmd with
  | Err v => (with_LocalFlags cmd (LocalFlags cmd ++ [defaultHelpFlag cmd]), w, Panicked v)
  | Ok cmd =>
      match pageBuffer parent cmd w with
      | (buf, w, Nil) =>
          match os.Write filename buf w with
          | (w, None) => (rendered cmd, w, Nil)
          | (w, Some e) => (rendered cmd, w, Returned e)
          end
      | (_, w, o) => (rendered cmd, w, o)
      end
  end.

(** The body of the loop of [generate] (lines 47-58) over the enumerated
    children; [call] is the recursive call [generate(c, formatdir, b)] on
    the child [c].  The children come back as the calls left them. *)
Definition generate_walk
  : list (Command * (World → Command * World * outcome)) →
    World → list Command * World * outcome :=
  fix loop steps (w : World) :=
    match steps with
    | [] => ([], w, Nil)
    | (c, call) :: rest =>
        if negb (IsAvailableCommand c) || IsAdditionalHelpTopicCommand c then
          let '(rest', w', o) := loop rest w in (c :: rest', w', o)
        else if streq (annotation c "kind") "" || negb (streq (annotation c "kind") "formatter")
        then
          let '(rest', w', o) := loop rest w in (c :: rest', w', o)
        else
          match call w with
          | (c', w', Nil) =>
              let '(rest', w'', o) := loop rest w' in (c' :: rest', w'', o)
          | (c', w', o) => (c' :: map fst rest, w', o)
          end
    end.

(** The loop of [generate] over [cmd.Commands()] (lines 47-58), for the
    slice [cs] of the children of [cmd]: [Commands()] sorts the slice by
    name, and the loop walks the sorted slice.  [gen] is the recursive
    call and [path] the path of [cmd].  Every child is paired with the
    call on it before the sort, which keeps the recursion of [generate]
    structural. *)
Definition generate_loop
    (gen : option string → Command → string → string → World → Command * World * outcome)
    (path : string) (cs : list Command) (w : World)
  : list Command * World * outcome :=
  generate_walk
    (sortOn (λ step, Name step.1)
       (map (λ c, (c, gen (Some path) c formatdir (derivedName (CommandPath (Some path) c))))
            cs))
    w.

(** The page of [cmd] itself (lines 60-73): the file is created, the
    empty string is written, the markdown is generated into it. *)
Definition generate_page (parent : option string) (cmd : Command)
    (subdir basename : string) (w : World) : Command * World * outcome :=
  let filename := filepath.Join ["." +:+ basedir; subdir; basename +:+ ".md"] in
  match os.Create filename w with
  | Err e => (cmd, w, Returned e)
  | Ok w =>
      match os.Write filename "" w with
      | (w, Some e) => (cmd, w, Returned e)
      | (w, None) => generateMarkdown parent cmd filename w
      end
  end.

(** [generate(cmd, subdir, basename)]. *)
Fixpoint generate (parent : option string) (cmd : Command)
    (subdir basename : string) (w : World) {struct cmd}
  : Command * World * outcome :=
  match generate_loop generate (CommandPath parent cmd) (commands cmd) w with
  | (cs, w, Nil) => generate_page parent (with_commands cmd cs) subdir basename w
  | (cs, w, o) => (with_commands cmd cs, w, o)
  end.

(** How the process ended: its exit status and what [log] printed (the
    Go runtime, not [log], prints the value of a panic). *)
Record Exit := mkExit { status : nat; logged : list string }.

(** [main()], for the tree [cmd.NewCommand()] returns. *)
Definition main (NewCommand : Command) (w : World) : Command * World * Exit :=
  match generate None NewCommand "" "FORMATS_GUIDE" w with
  | (cmd, w, Nil) => (cmd, w, mkExit 0 [])
  | (cmd, w, Returned e) => (cmd, w, mkExit 1 [e])
  | (cmd, w, Fatal e) => (cmd, w, mkExit 1 [e])
  | (cmd, w, Panicked v) => (cmd, w, mkExit 2 [])
  end.

(** The settings and options [printExample] builds (lines 159-169). *)
Definition exampleSettings : Settings :=
  mkSettings false (SortByName NewSettings) (SortByRequired NewSettings).

Definition exampleOptions : Options :=
  mkOptions "./examples" true "main.tf"
    (mkSortBy (SortByName exampleSettings) (SortByRequired exampleSettings)).

End Generator.

(** The heading of the Example section, the explanatory sentence and the
    shell invocation block (lines 152-157). *)
Definition exampleIntro (name : string) : string :=
  ("### Example" +:+ NL +:+ NL)
  +:+ ("Given the [`examples`](/examples/) module:" +:+ NL +:+ NL)
  +:+ ("```shell" +:+ NL)
  +:+ (name +:+ getFlags name +:+ " ./examples/" +:+ NL)
  +:+ ("```" +:+ NL +:+ NL)
  +:+ ("generates the following output:" +:+ NL +:+ NL).

(** ** The specification's vocabulary *)

(** The Command Node Filter of the specification: a node is documentable
    when it is available, is not a help topic, and its ["kind"] annotation
    is ["formatter"]. *)
Definition isDocumentable (c : Command) : bool :=
  IsAvailableCommand c
  && negb (IsAdditionalHelpTopicCommand c)
  && streq (annotation c "kind") "formatter".

(** The bytes of [s] after the first [n]. *)
Fixpoint dropS (n : nat) (s : string) : string :=
  match n, s with
  | S n', String _ s' => dropS n' s'
  | _, _ => s
  end.

(** Removing a leading [prefix], when there is one. *)
Definition stripPrefix (s prefix : string) : string :=
  if strings.HasPrefix s prefix then dropS (String.length prefix) s else s.

(** Filename derivation in the specification's words: spaces become
    hyphens, then the prefix ["terraform-docs-"] is stripped. *)
Definition derivedName_spec (cname : string) : string :=
  stripPrefix (strings.ReplaceAll cname " " "-") "terraform-docs-".

(** [strings.Contains(s, sub)]. *)
Fixpoint Contains (s sub : string) : bool :=
  strings.HasPrefix s sub
  || match s with
     | EmptyString => false
     | String _ s' => Contains s' sub
     end.

(** The names on which the program name occurs at the start only: past
    the first byte of the hyphenated name there is no ["terraform-docs-"]. *)
Definition prefixOnly (cname : string) : bool :=
  negb (Contains (dropS 1 (strings.ReplaceAll cname " " "-")) "terraform-docs-").

(** An example line as it is embedded: blank lines stay empty, others are
    indented by four spaces. *)
Definition indented (s : string) : string :=
  if streq s "" then "" else "    " +:+ s.

(** The lines of a text. *)
Definition lines (text : string) : list string := strings.SplitByte text LF.

(** The line that follows the first line equal to [marker]. *)
Fixpoint lineAfter (marker : string) (ls : list string) : option string :=
  match ls with
  | [] => None
  | l :: rest => if streq l marker then head rest else lineAfter marker rest
  end.

(** The shell invocation line of an Example section: the line below the
    opening of the shell block. *)
Definition shellLine (text : string) : option string :=
  lineAfter "```shell" (lines text).

(** The last line of a text that ends with a line break. *)
Definition trailingLine (text : string) : option string :=
  match rev (lines text) with
  | last :: l :: _ => if streq last "" then Some l else None
  | _ => None
  end.

(** The texts of a list, one after the other. *)
Fixpoint concatAll (ls : list string) : string :=
  match ls with
  | [] => EmptyString
  | l :: ls' => l +:+ concatAll ls'
  end.

(** A bullet of a SEE ALSO section: a markdown link to the page of the
    command at [cname], named by its derived file name, and the short
    description. *)
Definition seeAlsoBullet (indent cname short : string) : string :=
  indent +:+ "* [" +:+ cname +:+ "](" +:+ basedir +:+ formatdir +:+ "/"
  +:+ (derivedName cname +:+ ".md") +:+ ")" +:+ HT +:+ " - " +:+ short +:+ NL.

(** The entry of a documentable child: its bullet, then one nested bullet
    for each of its documentable children, in the order of their names. *)
Definition seeAlsoEntry (path : string) (c : Command) : string :=
  let cname := CommandPath (Some path) c in
  seeAlsoBullet "" cname (Short c)
  +:+ concatAll (map (λ g, seeAlsoBullet "  " (CommandPath (Some cname) g) (Short g))
                     (List.filter isDocumentable (sortByName (commands c)))).

(** The bullets of a SEE ALSO section of the command at [path] for the
    children [cs]: the entries of the documentable ones, in the order of
    [cs]. *)
Definition seeAlsoText (path : string) (cs : list Command) : string :=
  concatAll (map (seeAlsoEntry path) (List.filter isDocumentable cs)).

(** The attribution line for a date. *)
Definition attribution (t : Time) : string :=
  "###### Auto generated by spf13/cobra on " +:+ Format t +:+ NL.

(** The file the walker writes for [basename] below [subdir] (line 60). *)
Definition pageFile (subdir basename : string) : string :=
  filepath.Join ["." +:+ basedir; subdir; basename +:+ ".md"].

(** The files the walker creates for the subtree of [cmd], in the order
    of their creation: those of the documentable children and below them,
    the children taken in the order of their names, then the page of [cmd]
    itself.  (The files of every child are computed before the sort, which
    keeps the recursion structural.) *)
Fixpoint pageFiles (parent : option string) (cmd : Command)
    (subdir basename : string) {struct cmd} : list string :=
  let path := CommandPath parent cmd in
  concat (map snd
            (sortOn fst
               (map (λ c, (Name c,
                           if isDocumentable c
                           then pageFiles (Some path) c formatdir
                                  (derivedName (CommandPath (Some path) c))
                           else []))
                    (commands cmd))))
  ++ [pageFile subdir basename].

(** The files created below the commands [cs], children of the command
    at [path], taken in the order of [cs]. *)
Definition listFiles (path : string) (cs : list Command) : list string :=
  concat (map (λ c, if isDocumentable c
                    then pageFiles (Some path) c formatdir
                           (derivedName (CommandPath (Some path) c))
                    else [])
              cs).

(** The files created below the children [cs] of the command at [path],
    which the walker takes in the order of their names. *)
Definition childFiles (path : string) (cs : list Command) : list string :=
  listFiles path (sortByName cs).

(** All nodes of a tree with their command paths, the root first. *)
Fixpoint nodes (parent : option string) (cmd : Command) {struct cmd}
    : list (string * Command) :=
  let path := CommandPath parent cmd in
  (path, cmd) :: concat (map (nodes (Some path)) (commands cmd)).

(** The page files of the documentable nodes of a tree, as the
    specification counts them: one per documentable node, wherever the
    node stands in the tree. *)
Definition documentableFiles (root : Command) : list string :=
  map (λ pc, pageFile formatdir (derivedName pc.1))
      (List.filter (λ pc, isDocumentable pc.2) (nodes None root)).

(** The tree a completed walk leaves behind: every command the walker
    reached has the help flag and, when it has children, the help command,
    and its children stand in the order of their names; the commands the
    walker did not reach are as they were. *)
Fixpoint visited (cmd : Command) : Command :=
  Commands
    (initialised
       (with_commands cmd
          (sortByName
             (map (λ c, if isDocumentable c then visited c else c) (commands cmd))))).

(** The children a completed loop of [generate] leaves behind. *)
Definition visitedChildren (cs : list Command) : list Command :=
  map (λ c, if isDocumentable c then visited c else c) cs.

(** [helpOnly c c']: [c'] is [c] up to what cobra's [Commands()],
    [InitDefaultHelpCmd()] and [InitDefaultHelpFlag()] do.  All attributes
    are the same, but the own flags may have gained the default help flag,
    and the children, each of them changed in this way only, may stand in
    another order and may have gained the default help command. *)
#[warnings="-register-all"]
Inductive helpOnly : Command → Command → Prop :=
  | helpOnly_intro (c c' : Command) (ds : list Command) :
      Use c' = Use c →
      Short c' = Short c →
      Long c' = Long c →
      ExampleText c' = ExampleText c →
      Annotations c' = Annotations c →
      Hidden c' = Hidden c →
      Deprecated c' = Deprecated c →
      HasRun c' = HasRun c →
      DisableAutoGenTag c' = DisableAutoGenTag c →
      IsHelpCommand c' = IsHelpCommand c →
      ParentFlags c' = ParentFlags c →
      (LocalFlags c' = LocalFlags c ∨ LocalFlags c' = LocalFlags c ++ [defaultHelpFlag c]) →
      Forall2 helpOnly (commands c) ds →
      (commands c' ≡ₚ ds ∨ commands c' ≡ₚ ds ++ [defaultHelpCommand c]) →
      helpOnly c c'.

(** What a call of a trace does, without the bytes. *)
Inductive Call :=
  | Creates (name : string)
  | Writes (name : string).

Definition call (e : Event) : Call :=
  match e with ECreate n => Creates n | EWrite n _ => Writes n end.

(** The calls that produce one page (lines 61-72): the file is created,
    the empty string is written, the page is written. *)
Definition pageCalls (name : string) : list Call :=
  [Creates name; Writes name; Writes name].

(** The files created by the calls of a trace. *)
Definition created (t : list Event) : list string :=
  omap (λ e, match e with ECreate n => Some n | EWrite _ _ => None end) t.

(** The file each call of a trace works on. *)
Definition target (e : Event) : string :=
  match e with ECreate n => n | EWrite n _ => n end.

(** ** A scenario: three formatters and a stub registry *)

Module Scenario.

(** A formatter command as the [NewCommand] functions of the formatter
    packages build it ([cli.Annotations] sets the kind ["formatter"]). *)
Definition formatter (use short : string) (subs : list Command) : Command :=
  mkCommand use short "" ""
    {[ "command" := strings.upto SPACE use; "kind" := "formatter" ]}
    false "" true false false [] [] subs.

(** A command that is no formatter. *)
Definition plain (use short : string) (subs : list Command) : Command :=
  mkCommand use short "" "" {[ "kind" := "command" ]}
    false "" true false false [] [] subs.

Definition known : list string := ["json"; "pretty"; "toml"; "markdown"; "markdown table"].

#[export] Instance registry : Externals := {|
  Printer := string;
  TFModule := string;
  NewSettings := mkSettings true true false;
  Factory name _ :=
    if bool_decide (name ∈ known) then Ok name
    else Err ("formatter '" +:+ name +:+ "' not found");
  LoadWithOptions o := Ok (Path o);
  Print p m s :=
    Ok ((if ShowColor s then "colored " else "") +:+ p +:+ " of " +:+ m
        +:+ NL +:+ NL +:+ "  inputs" +:+ NL);
  UseLine parent c :=
    match parent with Some p => p +:+ " " +:+ Use c | None => Use c end;
  FlagUsages fs :=
    String.concat ""
      (map (λ f, "      --" +:+ flag_Name f +:+ "   " +:+ flag_Usage f +:+ NL)
           (sortOn flag_Name (List.filter (λ f, negb (flag_Hidden f)) fs)));
  Now _ := mkTime 2021 March 7
|}.

(** The same registry with an example module that does not load. *)
Definition brokenModule : Externals := {|
  Printer := string;
  TFModule := string;
  NewSettings := mkSettings true true false;
  Factory := @Factory registry;
  LoadWithOptions o := Err ("failed to read module " +:+ Path o);
  Print := @Print registry;
  UseLine := @UseLine registry;
  FlagUsages := @FlagUsages registry;
  Now := @Now registry
|}.

Definition json := formatter "json [PATH]" "Generate JSON of inputs and outputs" [].
Definition pretty := formatter "pretty [PATH]" "Generate colorized pretty of inputs and outputs" [].
Definition toml := formatter "toml [PATH]" "Generate TOML of inputs and outputs" [].
Definition table := formatter "table [PATH]" "Generate Markdown tables of inputs and outputs" [].
Definition markdown := formatter "markdown [PATH]" "Generate Markdown of inputs and outputs" [table].

(** A root with formatter children, one of them with a child. *)
Definition root : Command :=
  mkCommand "terraform-docs [PATH]" "A utility to generate documentation from Terraform modules"
    "" "" ∅ false "" true false false [] [] [json; markdown; pretty].

(** A root whose formatter [toml] stands below a command that is no
    formatter. *)
Definition nested : Command :=
  mkCommand "terraform-docs [PATH]" "A utility to generate documentation from Terraform modules"
    "" "" ∅ false "" true false false [] [] [plain "extra" "More commands" [toml]].

(** A root with one formatter. *)
Definition single (c : Command) : Command :=
  mkCommand "terraform-docs [PATH]" "A utility to generate documentation from Terraform modules"
    "" "" ∅ false "" true false false [] [] [c].

(** A working directory with the two output directories, and one
    without the directory of the formatter pages. *)
Definition prepared : World :=
  mkWorld {[ "."; "docs"; "docs/formats" ]} ∅ 4096 [] 0.
Definition unprepared : World :=
  mkWorld {[ "."; "docs" ]} ∅ 4096 [] 0.

End Scenario.

(** ** Auxiliary notions for the proofs *)

(** A byte that does not occur in a text. *)
Fixpoint absent (ch : ascii) (s : string) : bool :=
  match s with
  | EmptyString => true
  | String c s' => negb (Ascii.eqb c ch) && absent ch s'
  end.

(** A text from its lines, each ended by a line break. *)
Fixpoint unlines (ls : list string) : string :=
  match ls with
  | [] => EmptyString
  | l :: ls' => l +:+ NL +:+ unlines ls'
  end.

(** The loop of [generate] over an enumerated slice [cs]: [generate_loop]
    is this loop over the sorted slice. *)
Definition generate_list `{Ext : Externals} (path : string)
  : list Command → World → list Command * World * outcome :=
  fix loop (cs : list Command) (w : World) :=
    match cs with
    | [] => ([], w, Nil)
    | c :: rest =>
        if isDocumentable c then
          match generate (Some path) c formatdir (derivedName (CommandPath (Some path) c)) w with
          | (c', w', Nil) =>
              let '(rest', w'', o) := loop rest w' in (c' :: rest', w'', o)
          | (c', w', o) => (c' :: rest, w', o)
          end
        else let '(rest', w', o) := loop rest w in (c :: rest', w', o)
    end.

(** What a call of [generate] on [c] guarantees, whatever its arguments:
    no directory appears, the command changes up to default help only, the
    trace grows, the new files are those the new calls create, they are
    created in the order of the pages of the subtree, and a call that
    returns [nil] leaves the visited command and makes exactly the calls
    for these pages. *)
Definition walk_spec `{Ext : Externals} (c : Command) : Prop :=
  ∀ parent subdir basename w,
    dirs (generate parent c subdir basename w).1.2 = dirs w
    ∧ helpOnly c (generate parent c subdir basename w).1.1
    ∧ ∃ evs,
        trace (generate parent c subdir basename w).1.2 = trace w ++ evs
        ∧ dom (files (generate parent c subdir basename w).1.2)
          = dom (files w) ∪ list_to_set (created evs)
        ∧ created evs `prefix_of` pageFiles parent c subdir basename
        ∧ ((generate parent c subdir basename w).2 = Nil →
           (generate parent c subdir basename w).1.1 = visited c
           ∧ map call evs = flat_map pageCalls (pageFiles parent c subdir basename)).

(** The same for the loop over the enumerated children [cs] of the
    command at [path]. *)
Definition loop_spec `{Ext : Externals} (path : string) (cs : list Command) : Prop :=
  ∀ w,
    dirs (generate_list path cs w).1.2 = dirs w
    ∧ Forall2 helpOnly cs (generate_list path cs w).1.1
    ∧ ∃ evs,
        trace (generate_list path cs w).1.2 = trace w ++ evs
        ∧ dom (files (generate_list path cs w).1.2)
          = dom (files w) ∪ list_to_set (created evs)
        ∧ created evs `prefix_of` listFiles path cs
        ∧ ((generate_list path cs w).2 = Nil →
           (generate_list path cs w).1.1 = visitedChildren cs
           ∧ map call evs = flat_map pageCalls (listFiles path cs)).

(** ** The formatter command [toml] (package [toml], [NewCommand])

    [cli.Annotations], [cli.PreRunEFunc] and [cli.RunEFunc] belong to
    package [cli], which is not among the sources: the annotations are
    taken as a parameter, and the two functions only matter in that they
    make the command runnable.  [config] reaches nothing the generator
    reads.  A new command has no flags and no parent. *)

Module toml.

Definition NewCommand (annotations : gmap string string) : Command :=
  mkCommand "toml [PATH]" "Generate TOML of inputs and outputs" "" ""
    annotations false "" true false false [] [] [].

End toml.

(** [parent.AddCommand(c)], as far as the child is concerned: it inherits
    the persistent flags [pfs] of its ancestors. *)
Definition inherit (pfs : list Flag) (c : Command) : Command :=
  mkCommand (Use c) (Short c) (Long c) (ExampleText c) (Annotations c) (Hidden c)
    (Deprecated c) (HasRun c) (DisableAutoGenTag c) (IsHelpCommand c)
    (LocalFlags c) pfs (commands c).

(** ** The parts of a page *)

(** The title, the short description and the synopsis (lines 89-92). *)
Definition pageHead (parent : option string) (cmd : Command) : string :=
  ("## " +:+ CommandPath parent cmd +:+ NL +:+ NL)
  +:+ (Short cmd +:+ NL +:+ NL)
  +:+ ("### Synopsis" +:+ NL +:+ NL)
  +:+ ((if String.length (Long cmd) =? 0 then Short cmd else Long cmd) +:+ NL +:+ NL).

(** An options section with its title (lines 128-130 and 136-138). *)
Definition optionsSection `{Ext : Externals} (title : string) (flags : list Flag) : string :=
  (title +:+ NL +:+ NL +:+ "```" +:+ NL) +:+ FlagUsages flags +:+ ("```" +:+ NL +:+ NL).

(** A tree in which no command has two help commands among its children,
    as in cobra, where a command has one [helpCommand]. *)
Fixpoint oneHelp (c : Command) : bool :=
  (List.length (List.filter IsHelpCommand (commands c)) <=? 1)
  && forallb oneHelp (commands c).

(** A formatter whose only flag is a hidden help flag. *)
Definition quiet : Command :=
  mkCommand "json [PATH]" "Generate JSON of inputs and outputs" "" ""
    {[ "command" := "json"; "kind" := "formatter" ]}
    false "" true false false [mkFlag "help" "h" "help for json" "false" true] [] [].

(** A call of [generate] on [c] leaves the files that are not among its
    pages as they are. *)
Definition frame_spec `{Ext : Externals} (c : Command) : Prop :=
  ∀ parent subdir basename w f,
    f ∉ pageFiles parent c subdir basename →
    files (generate parent c subdir basename w).1.2 !! f = files w !! f.



(** A root whose formatters were added out of the order of their names. *)
Definition unsorted : Command :=
  mkCommand "terraform-docs [PATH]" "A utility to generate documentation from Terraform modules"
    "" "" ∅ false "" true false false [] [] [Scenario.pretty; Scenario.json].

(** A formatter with a flag that has the shorthand [h], and a root that
    has such a flag and one formatter. *)
Definition hosted : Command :=
  mkCommand "json [PATH]" "Generate JSON of inputs and outputs" "" ""
    {[ "command" := "json"; "kind" := "formatter" ]}
    false "" true false false [mkFlag "host" "h" "host name" "" false] [] [].


(** Two working directories on a device with room for 410 bytes: an
    empty one, and one that holds an old page of [json]. *)
Definition crowded : World :=
  mkWorld {[ "."; "docs"; "docs/formats" ]} ∅ 410 [] 0.

Definition crowdedStale : World :=
  mkWorld {[ "."; "docs"; "docs/formats" ]}
    {[ "docs/formats/json.md" := "## terraform-docs json" ]} 410 [] 0.



(** A working directory in which [docs/formats] is a regular file. *)
Definition blocked : World :=
  mkWorld {[ "."; "docs" ]} {[ "docs/formats" := "formats" ]} 4096 [] 0.

(** Below [c], every page file is the page of a documentable node. *)
Definition below_spec (c : Command) : Prop :=
  ∀ parent f,
    In f (childFiles (CommandPath parent c) (commands c)) →
    ∃ pc, In pc (concat (map (nodes (Some (CommandPath parent c))) (commands c)))
          ∧ isDocumentable pc.2 = true
          ∧ f = pageFile formatdir (derivedName pc.1).

(** The page of the formatter [toml] below the root [terraform-docs], for
    the persistent flags [pfs] of the root, the printed example [output]
    and the [date] of the run. *)
Definition tomlPage `{Ext : Externals} (pfs : list Flag) (cmd : Command)
    (output : string) (date : Time) : string :=
  ("## terraform-docs toml" +:+ NL +:+ NL)
  +:+ ("Generate TOML of inputs and outputs" +:+ NL +:+ NL)
  +:+ ("### Synopsis" +:+ NL +:+ NL)
  +:+ ("Generate TOML of inputs and outputs" +:+ NL +:+ NL)
  +:+ fenced (UseLine (Some "terraform-docs") cmd)
  +:+ (if existsb (λ f, streq (flag_Name f) "help") pfs then ""
       else ("### Options" +:+ NL +:+ NL +:+ "```" +:+ NL)
            +:+ FlagUsages [mkFlag "help" "h" "help for toml" "false" false]
            +:+ ("```" +:+ NL +:+ NL))
  +:+ (if HasAvailableFlags pfs
       then ("### Options inherited from parent commands" +:+ NL +:+ NL +:+ "```" +:+ NL)
            +:+ FlagUsages pfs +:+ ("```" +:+ NL +:+ NL)
       else "")
  +:+ ("### Example" +:+ NL +:+ NL)
  +:+ ("Given the [`examples`](/examples/) module:" +:+ NL +:+ NL)
  +:+ ("```shell" +:+ NL)
  +:+ ("terraform-docs toml ./examples/" +:+ NL)
  +:+ ("```" +:+ NL +:+ NL)
  +:+ ("generates the following output:" +:+ NL +:+ NL)
  +:+ unlines (map indented (lines output)) +:+ NL
  +:+ ("###### Auto generated by spf13/cobra on " +:+ Format date +:+ NL).

(** ** Two runs side by side *)





(** * Verification *)

(** ** The library models on examples *)

Example Replace_hyphen :
  strings.ReplaceAll "terraform-docs markdown table" " " "-" = "terraform-docs-markdown-table".
Proof. reflexivity. Qed.

Example Join_root :
  filepath.Join ["./docs"; ""; "FORMATS_GUIDE.md"] = "docs/FORMATS_GUIDE.md".
Proof. reflexivity. Qed.

Example Join_formats :
  filepath.Join ["./docs"; "/formats"; "json.md"] = "docs/formats/json.md".
Proof. reflexivity. Qed.

Example Join_dotdot :
  filepath.Join ["./docs"; "/formats"; "../../x.md"] = "x.md".
Proof. reflexivity. Qed.

Example Dir_formats : filepath.Dir "docs/formats/json.md" = "docs/formats".
Proof. reflexivity. Qed.

Example Split_lines :
  strings.SplitByte ("a" +:+ NL +:+ NL +:+ "b" +:+ NL) LF = ["a"; ""; "b"; ""].
Proof. reflexivity. Qed.

(** ** Texts *)

Lemma sapp_cons c s t : String c s +:+ t = String c (s +:+ t).
Proof. reflexivity. Qed.

Lemma sapp_nil_l t : "" +:+ t = t.
Proof. reflexivity. Qed.

Lemma sapp_nil_r s : s +:+ "" = s.
Proof. induction s as [|c s IH]; [done|]. by rewrite sapp_cons, IH. Qed.

Lemma sapp_assoc s t u : (s +:+ t) +:+ u = s +:+ (t +:+ u).
Proof. induction s as [|c s IH]; [done|]. by rewrite !sapp_cons, IH. Qed.

Lemma slength_app s t : String.length (s +:+ t) = String.length s + String.length t.
Proof. induction s as [|c s IH]; [done|]. rewrite sapp_cons. simpl. by rewrite IH. Qed.

Lemma streq_true a b : streq a b = true ↔ a = b.
Proof. unfold streq. by rewrite bool_decide_eq_true. Qed.

Lemma streq_false a b : streq a b = false ↔ a ≠ b.
Proof. unfold streq. by rewrite bool_decide_eq_false. Qed.

Lemma streq_refl a : streq a a = true.
Proof. by apply streq_true. Qed.

Lemma str_prefix_nil s : String.prefix "" s = true.
Proof. by destruct s. Qed.

Lemma str_prefix_cons a p c s :
  String.prefix (String a p) (String c s)
  = (if ascii_dec a c then String.prefix p s else false).
Proof. reflexivity. Qed.

Lemma str_prefix_app p t : String.prefix p (p +:+ t) = true.
Proof.
  induction p as [|a p IH]; [apply str_prefix_nil|].
  rewrite sapp_cons, str_prefix_cons. by destruct (ascii_dec a a).
Qed.

Lemma str_prefix_split p s :
  String.prefix p s = true → s = p +:+ dropS (String.length p) s.
Proof.
  revert s. induction p as [|a p IH]; intros s Hp; [done|].
  destruct s as [|c s]; [done|].
  rewrite str_prefix_cons in Hp. destruct (ascii_dec a c) as [->|]; [|done].
  rewrite sapp_cons. simpl. f_equal. by apply IH.
Qed.

Lemma str_prefix_length p s :
  String.prefix p s = true → String.length p ≤ String.length s.
Proof. intros Hp. rewrite (str_prefix_split p s Hp), slength_app. lia. Qed.

(** A pattern without the byte [ch] cannot reach into a suffix that
    starts with [ch]. *)
Lemma str_prefix_app_absent ch p s t :
  absent ch p = true →
  String.prefix p (s +:+ String ch t) = String.prefix p s.
Proof.
  revert p. induction s as [|c s IH]; intros p Hp.
  - rewrite sapp_nil_l. destruct p as [|a p]; [done|].
    rewrite str_prefix_cons. simpl in Hp. apply andb_true_iff in Hp as [Ha _].
    destruct (ascii_dec a ch) as [->|]; [|done].
    by rewrite Ascii.eqb_refl in Ha.
  - destruct p as [|a p]; [done|].
    rewrite sapp_cons, !str_prefix_cons. simpl in Hp. apply andb_true_iff in Hp as [_ Hp].
    destruct (ascii_dec a c); [by apply IH|done].
Qed.

(** *** [strings.Replace] *)

Section Replace.
Variables old new : string.

Lemma replace_from_cons_0 c s :
  strings.replace_from old new 0 (String c s)
  = if strings.HasPrefix (String c s) old
    then new +:+ strings.replace_from old new (String.length old - 1) s
    else String c (strings.replace_from old new 0 s).
Proof. reflexivity. Qed.

Lemma replace_from_skip k s :
  strings.replace_from old new k s = strings.replace_from old new 0 (dropS k s).
Proof.
  revert k. induction s as [|c s IH]; intros [|k]; try done.
  simpl dropS. rewrite <- IH. reflexivity.
Qed.

Lemma Contains_cons c s :
  Contains (String c s) old = strings.HasPrefix (String c s) old || Contains s old.
Proof. reflexivity. Qed.

Lemma replace_from_absent s :
  Contains s old = false → strings.replace_from old new 0 s = s.
Proof.
  induction s as [|c s IH]; intros Hc; [done|].
  rewrite Contains_cons in Hc. apply orb_false_iff in Hc as [Hp Hc].
  rewrite replace_from_cons_0, Hp. by rewrite IH.
Qed.

Lemma Contains_dropS k s :
  Contains s old = false → Contains (dropS k s) old = false.
Proof.
  revert s. induction k as [|k IH]; intros s Hc; [by destruct s|].
  destruct s as [|c s]; [done|].
  simpl. apply IH. rewrite Contains_cons in Hc. by apply orb_false_iff in Hc as [_ ?].
Qed.

(** Replacing commutes with appending a suffix the pattern can neither
    reach into nor occur in. *)
Lemma replace_from_app_suffix ch t k s :
  absent ch old = true →
  Contains (String ch t) old = false →
  k ≤ String.length s →
  strings.replace_from old new k (s +:+ String ch t)
  = strings.replace_from old new k s +:+ String ch t.
Proof.
  intros Hch Hsuf. revert k. induction s as [|c s IH]; intros k Hk.
  - simpl in Hk. assert (k = 0) as -> by lia.
    rewrite sapp_nil_l. by rewrite replace_from_absent.
  - destruct k as [|k].
    + rewrite sapp_cons, !replace_from_cons_0.
      unfold strings.HasPrefix. rewrite <- sapp_cons, str_prefix_app_absent by done.
      destruct (String.prefix old (String c s)) eqn:Hp.
      * rewrite IH, sapp_assoc; [done|].
        apply str_prefix_length in Hp. simpl in Hp. lia.
      * rewrite IH by lia. done.
    + rewrite sapp_cons. simpl. apply IH. simpl in Hk. lia.
Qed.
End Replace.

(** *** [strings.Split] *)

Lemma SplitByte_cons c s sep :
  strings.SplitByte (String c s) sep
  = if Ascii.eqb c sep then "" :: strings.SplitByte s sep
    else match strings.SplitByte s sep with
         | [] => [String c ""]
         | seg :: segs => String c seg :: segs
         end.
Proof. reflexivity. Qed.

Lemma SplitByte_nonempty s sep : strings.SplitByte s sep ≠ [].
Proof.
  induction s as [|c s IH]; [done|].
  rewrite SplitByte_cons. destruct (Ascii.eqb c sep); [done|].
  by destruct (strings.SplitByte s sep).
Qed.

(** No segment contains the separator. *)
Lemma SplitByte_absent s sep :
  Forall (λ seg, absent sep seg = true) (strings.SplitByte s sep).
Proof.
  induction s as [|c s IH]; [by repeat constructor|].
  rewrite SplitByte_cons. destruct (Ascii.eqb c sep) eqn:Hc.
  - by constructor.
  - destruct (strings.SplitByte s sep) as [|seg segs].
    + repeat constructor. simpl. by rewrite Hc.
    + inversion IH; subst. constructor; [|done]. simpl. by rewrite Hc.
Qed.

(** A line and its line break split off as the first segment. *)
Lemma SplitByte_line l rest :
  absent LF l = true →
  strings.SplitByte (l +:+ NL +:+ rest) LF = l :: strings.SplitByte rest LF.
Proof.
  induction l as [|c l IH]; intros Hl.
  - reflexivity.
  - simpl in Hl. apply andb_true_iff in Hl as [Hc Hl].
    rewrite sapp_cons, SplitByte_cons.
    apply negb_true_iff in Hc. rewrite Hc. by rewrite IH.
Qed.

Lemma lines_unlines ls :
  Forall (λ l, absent LF l = true) ls → lines (unlines ls) = ls ++ [""].
Proof.
  unfold lines. induction 1 as [|l ls Hl _ IH]; [done|].
  simpl unlines. rewrite SplitByte_line by done. by rewrite IH.
Qed.

Lemma absent_app ch s t : absent ch (s +:+ t) = absent ch s && absent ch t.
Proof.
  induction s as [|c s IH]; [done|].
  rewrite sapp_cons. simpl. by rewrite IH, andb_assoc.
Qed.

Lemma absent_indented s : absent LF s = true → absent LF (indented s) = true.
Proof.
  intros Hs. unfold indented. destruct (streq s ""); [done|].
  by rewrite absent_app, Hs.
Qed.

(** ** Filename derivation *)

Lemma derivedName_unfold cname :
  derivedName cname
  = strings.replace_from "terraform-docs-" "" 0 (strings.ReplaceAll cname " " "-").
Proof. reflexivity. Qed.

Lemma derivedName_prefixOnly cname :
  prefixOnly cname = true → derivedName cname = derivedName_spec cname.
Proof.
  unfold prefixOnly, derivedName_spec. rewrite derivedName_unfold.
  generalize (strings.ReplaceAll cname " " "-"). intros h Hh.
  apply negb_true_iff in Hh. unfold stripPrefix.
  destruct h as [|c h]; [done|]. simpl dropS in Hh.
  rewrite replace_from_cons_0. destruct (strings.HasPrefix (String c h) _) eqn:Hp.
  - rewrite sapp_nil_l, replace_from_skip.
    rewrite replace_from_absent by by apply Contains_dropS. done.
  - by rewrite replace_from_absent.
Qed.

(** C5, as amended: the derivation replaces spaces by hyphens and then
    removes every occurrence of ["terraform-docs-"].  On the names where
    the program name occurs at the start only, this is the stripping of the
    prefix, so two such names whose stripped forms differ get different
    file names; ["terraform-docs markdown table"] gives ["markdown-table"]
    and ["terraform-docs json"] gives ["json"]. *)
Theorem derivedName_strips_prefix (n1 n2 : string) :
  prefixOnly n1 = true →
  prefixOnly n2 = true →
  derivedName n1 = derivedName_spec n1
  ∧ (derivedName_spec n1 ≠ derivedName_spec n2 → derivedName n1 ≠ derivedName n2)
  ∧ derivedName "terraform-docs markdown table" = "markdown-table"
  ∧ derivedName "terraform-docs json" = "json".
Proof.
  intros H1 H2. split; [by apply derivedName_prefixOnly|].
  split; [|by split; vm_compute].
  by rewrite !derivedName_prefixOnly.
Qed.

Lemma derivedName_strips_prefix_witness :
  derivedName "terraform-docs markdown table" = derivedName_spec "terraform-docs markdown table"
  ∧ (derivedName_spec "terraform-docs markdown table" ≠ derivedName_spec "terraform-docs json" →
     derivedName "terraform-docs markdown table" ≠ derivedName "terraform-docs json")
  ∧ derivedName "terraform-docs markdown table" = "markdown-table"
  ∧ derivedName "terraform-docs json" = "json".
Proof.
  apply (derivedName_strips_prefix "terraform-docs markdown table" "terraform-docs json");
    vm_compute; reflexivity.
Defined.

(** C5, as stated, fails: a command named [terraform-docs-next] below the
    root loses its whole prefix-like part, not just the leading program
    name, and then shares its file name with the command [next], although
    the two names differ after prefix stripping. *)
Lemma derivedName_not_prefix_stripping :
  derivedName "terraform-docs terraform-docs-next" = "next"
  ∧ derivedName_spec "terraform-docs terraform-docs-next" = "terraform-docs-next"
  ∧ derivedName_spec "terraform-docs terraform-docs-next" ≠ derivedName_spec "terraform-docs next"
  ∧ derivedName "terraform-docs terraform-docs-next" = derivedName "terraform-docs next".
Proof. repeat split; vm_compute; congruence. Qed.

(** ** Sorting by name *)

Lemma leb_trans (a b c : string) :
  String.leb a b = true → String.leb b c = true → String.leb a c = true.
Proof.
  unfold String.leb. revert b c.
  induction a as [|x a IH]; intros [|y b] [|z c]; simpl; try done.
  unfold Ascii.compare.
  destruct (N.compare_spec (N_of_ascii x) (N_of_ascii y)),
    (N.compare_spec (N_of_ascii y) (N_of_ascii z)),
    (N.compare_spec (N_of_ascii x) (N_of_ascii z));
    try done; try lia.
  apply IH.
Qed.

Section Sorting.
Context {A : Type} (key : A → string).

(** [x] stands before [y] in a sorted slice. *)
Let before (x y : A) : Prop := String.leb (key x) (key y) = true.

Lemma insertOn_perm x l : insertOn key x l ≡ₚ x :: l.
Proof.
  induction l as [|y l IH]; [done|]. simpl.
  destruct (String.leb _ _); [done|]. rewrite IH. apply Permutation_swap.
Qed.

Lemma sortOn_perm l : sortOn key l ≡ₚ l.
Proof.
  induction l as [|x l IH]; [done|]. simpl. by rewrite insertOn_perm, IH.
Qed.

Lemma sortOn_length l : List.length (sortOn key l) = List.length l.
Proof. apply Permutation_length, sortOn_perm. Qed.

Lemma sortOn_elem x l : x ∈ sortOn key l ↔ x ∈ l.
Proof. by rewrite sortOn_perm. Qed.

Lemma sortOn_Forall (P : A → Prop) l : Forall P l → Forall P (sortOn key l).
Proof. by rewrite sortOn_perm. Qed.

Lemma insertOn_first x l : Forall (before x) l → insertOn key x l = x :: l.
Proof.
  destruct 1 as [|y l Hy _]; [done|]. simpl. unfold before in Hy. by rewrite Hy.
Qed.

Lemma insertOn_sorted x l :
  StronglySorted before l → StronglySorted before (insertOn key x l).
Proof.
  induction 1 as [|y l Hl IH Hy]; simpl; [repeat constructor|].
  destruct (String.leb (key x) (key y)) eqn:Hxy.
  - constructor; [by constructor|]. constructor; [done|].
    eapply Forall_impl; [exact Hy|]. intros z Hz. by eapply leb_trans.
  - constructor; [done|]. rewrite insertOn_perm. constructor; [|done].
    unfold before. destruct (String.leb_total (key x) (key y)); congruence.
Qed.

Lemma sortOn_sorted l : StronglySorted before (sortOn key l).
Proof.
  induction l as [|x l IH]; [constructor|]. simpl. by apply insertOn_sorted.
Qed.

(** Sorting a sorted slice changes nothing. *)
Lemma sortOn_id l : StronglySorted before l → sortOn key l = l.
Proof.
  induction 1 as [|x l Hl IH Hx]; [done|]. simpl. rewrite IH. by apply insertOn_first.
Qed.

Lemma sortOn_idem l : sortOn key (sortOn key l) = sortOn key l.
Proof. apply sortOn_id, sortOn_sorted. Qed.

(** The sort keeps apart what a filter selects: it is stable. *)
Lemma insertOn_filter (P : A → bool) x l :
  StronglySorted before l →
  List.filter P (insertOn key x l)
  = if P x then insertOn key x (List.filter P l) else List.filter P l.
Proof.
  induction 1 as [|y l Hl IH Hy]; simpl; [by destruct (P x)|].
  destruct (String.leb (key x) (key y)) eqn:Hxy; simpl.
  - destruct (P x) eqn:Hx; [|done]. destruct (P y) eqn:Hpy; simpl.
    + by rewrite Hxy.
    + symmetry. apply insertOn_first. apply Forall_forall.
      intros z Hz. apply list_elem_of_In, filter_In in Hz as [Hz _].
      apply list_elem_of_In in Hz. rewrite Forall_forall in Hy. eapply leb_trans; [exact Hxy|]. by apply Hy.
  - rewrite IH. destruct (P y), (P x); simpl; try done. by rewrite Hxy.
Qed.

Lemma sortOn_filter (P : A → bool) l :
  List.filter P (sortOn key l) = sortOn key (List.filter P l).
Proof.
  induction l as [|x l IH]; [done|]. simpl.
  rewrite insertOn_filter by apply sortOn_sorted. rewrite IH.
  by destruct (P x).
Qed.

End Sorting.

(** A map that keeps the keys goes through the sort. *)
Lemma sortOn_map {A B : Type} (key : A → string) (key' : B → string) (g : A → B) l :
  (∀ x, key' (g x) = key x) →
  map g (sortOn key l) = sortOn key' (map g l).
Proof.
  intros Hg. induction l as [|x l IH]; [done|]. simpl. rewrite <- IH.
  generalize (sortOn key l). intros s. induction s as [|y s IHs]; [done|].
  simpl. rewrite !Hg. destruct (String.leb _ _); simpl; [done|]. by rewrite IHs.
Qed.

Lemma sortByName_idem cs : sortByName (sortByName cs) = sortByName cs.
Proof. apply sortOn_idem. Qed.

Lemma sortByName_sorted cs :
  StronglySorted (λ x y, String.leb (Name x) (Name y) = true) (sortByName cs).
Proof. apply sortOn_sorted. Qed.

(** ** The page renderer *)

Section Renderer.
Context `{Ext : Externals}.

Lemma writeSegment_indented buf s :
  writeSegment buf s = buf +:+ (indented s +:+ NL).
Proof.
  unfold writeSegment, indented. destruct (streq s ""); [done|].
  by rewrite !sapp_assoc.
Qed.

Lemma fold_writeSegment segs buf :
  fold_left writeSegment segs buf = buf +:+ unlines (map indented segs).
Proof.
  revert buf. induction segs as [|s segs IH]; intros buf.
  - by rewrite sapp_nil_r.
  - simpl. rewrite IH, writeSegment_indented. by rewrite !sapp_assoc.
Qed.

Lemma printOptions_Nil buf cmd name :
  ∃ opts, printOptions buf cmd name = (buf +:+ opts, Nil).
Proof.
  unfold printOptions.
  destruct (HasAvailableFlags (LocalFlags cmd)), (HasAvailableFlags (ParentFlags cmd));
    eexists; rewrite ?sapp_assoc; try reflexivity.
  by rewrite sapp_nil_r.
Qed.

(** What [printExample] appends when the formatter is found, the example
    module loads and the formatter prints it. *)
Lemma printExample_Ok buf name printer tfmodule output :
  Factory (strings.ReplaceAll name "terraform-docs " "") exampleSettings = Ok printer →
  LoadWithOptions exampleOptions = Ok tfmodule →
  Print printer tfmodule exampleSettings = Ok output →
  printExample buf name
  = (buf +:+ exampleIntro name +:+ unlines (map indented (lines output)) +:+ NL, Nil).
Proof.
  intros HF HL HP. unfold printExample.
  change (mkSettings false _ _) with exampleSettings.
  change (mkOptions _ _ _ _) with exampleOptions.
  rewrite HF, HL, HP, fold_writeSegment.
  unfold exampleIntro, lines. by rewrite !sapp_assoc.
Qed.

(** [printExample] fails exactly as its collaborators do: a formatter that
    is not found or does not print is a returned error, a module that does
    not load stops the process. *)
Lemma printExample_outcome buf name :
  (printExample buf name).2
  = match Factory (strings.ReplaceAll name "terraform-docs " "") exampleSettings with
    | Err e => Returned e
    | Ok printer =>
        match LoadWithOptions exampleOptions with
        | Err e => Fatal e
        | Ok tfmodule =>
            match Print printer tfmodule exampleSettings with
            | Err e => Returned e
            | Ok _ => Nil
            end
        end
    end.
Proof.
  unfold printExample.
  change (mkSettings false _ _) with exampleSettings.
  change (mkOptions _ _ _ _) with exampleOptions.
  destruct (Factory _ _) as [printer|e]; [|done].
  destruct (LoadWithOptions _) as [tfmodule|e]; [|done].
  by destruct (Print _ _ _).
Qed.

(** The buffer of a page: a front part, the terminal section, and the
    attribution line unless it is disabled; the clock is read for the
    attribution only. *)
Lemma pageBuffer_shape parent cmd w :
  ∃ front,
    let name := CommandPath parent cmd in
    let section :=
      if List.length (commands cmd) =? 0
      then printExample front name
      else printSeeAlso front name (sortByName (commands cmd)) in
    pageBuffer parent cmd w
    = match section.2 with
      | Nil =>
          if negb (DisableAutoGenTag cmd)
          then (section.1 +:+ ("###### Auto generated by spf13/cobra on "
                               +:+ Format (Now (ticks w)) +:+ NL), tick w, Nil)
          else (section.1, w, Nil)
      | o => (section.1, w, o)
      end.
Proof.
  unfold pageBuffer.
  match goal with |- context [printOptions ?b cmd ?n] =>
    destruct (printOptions_Nil b cmd n) as [opts ->]; exists (b +:+ opts) end.
  cbv zeta. unfold Commands. cbn [commands with_commands].
  unfold sortByName at 1. rewrite sortOn_length. fold (sortByName (commands cmd)).
  destruct (if List.length (commands cmd) =? 0 then _ else _) as [buf o].
  by destruct o.
Qed.

Lemma substring_all s n :
  String.length s ≤ n → String.substring 0 (min (String.length s) n) s = s.
Proof.
  intros Hn. rewrite Nat.min_l by done.
  induction s as [|c s IH]; [done|]. simpl. f_equal. apply IH. simpl in Hn. lia.
Qed.

Lemma Write_None name data w w' :
  os.Write name data w = (w', None) →
  w' = mkWorld (dirs w) (<[name := default "" (files w !! name) +:+ data]> (files w))
         (free w - String.length data) (trace w ++ [EWrite name data]) (ticks w).
Proof.
  unfold os.Write. destruct (String.length data <=? free w) eqn:Hn; [|done].
  apply Nat.leb_le in Hn. rewrite substring_all by done. by intros [= <-].
Qed.

Lemma Write_empty name w :
  os.Write name "" w
  = (mkWorld (dirs w) (<[name := default "" (files w !! name) +:+ ""]> (files w))
       (free w - 0) (trace w ++ [EWrite name ""]) (ticks w), None).
Proof. reflexivity. Qed.

Lemma Write_frame name data w :
  dirs (os.Write name data w).1 = dirs w
  ∧ ticks (os.Write name data w).1 = ticks w
  ∧ dom (files (os.Write name data w).1) = {[name]} ∪ dom (files w)
  ∧ ∃ written, trace (os.Write name data w).1 = trace w ++ [EWrite name written].
Proof.
  unfold os.Write. destruct (String.length data <=? free w); simpl;
    rewrite dom_insert_L; eauto.
Qed.

(** The default-help initialisation keeps what the renderer reads besides
    the own flags and the children. *)
Lemma InitDefaultHelpCmd_leaf c : commands c = [] → InitDefaultHelpCmd c = c.
Proof. unfold InitDefaultHelpCmd. by intros ->. Qed.

Lemma InitDefaultHelpCmd_attrs c :
  Use (InitDefaultHelpCmd c) = Use c
  ∧ Short (InitDefaultHelpCmd c) = Short c
  ∧ DisableAutoGenTag (InitDefaultHelpCmd c) = DisableAutoGenTag c
  ∧ LocalFlags (InitDefaultHelpCmd c) = LocalFlags c
  ∧ ParentFlags (InitDefaultHelpCmd c) = ParentFlags c.
Proof.
  unfold InitDefaultHelpCmd. by destruct (commands c).
Qed.

Lemma withHelpFlag_attrs c :
  Use (withHelpFlag c) = Use c
  ∧ Short (withHelpFlag c) = Short c
  ∧ DisableAutoGenTag (withHelpFlag c) = DisableAutoGenTag c
  ∧ commands (withHelpFlag c) = commands c
  ∧ ParentFlags (withHelpFlag c) = ParentFlags c.
Proof. unfold withHelpFlag. by destruct (existsb _ _). Qed.

Lemma initialised_attrs c :
  Use (initialised c) = Use c
  ∧ Short (initialised c) = Short c
  ∧ DisableAutoGenTag (initialised c) = DisableAutoGenTag c
  ∧ commands (initialised c) = commands (InitDefaultHelpCmd c)
  ∧ ParentFlags (initialised c) = ParentFlags c.
Proof.
  unfold initialised.
  destruct (withHelpFlag_attrs (InitDefaultHelpCmd c)) as (-> & -> & -> & -> & ->).
  by destruct (InitDefaultHelpCmd_attrs c) as (-> & -> & -> & _ & ->).
Qed.

Lemma CommandPath_initialised parent c :
  CommandPath parent (initialised c) = CommandPath parent c.
Proof.
  unfold CommandPath, Name. by destruct (initialised_attrs c) as (-> & _).
Qed.

Lemma pageBuffer_world parent cmd w :
  (pageBuffer parent cmd w).1.2 = w ∨ (pageBuffer parent cmd w).1.2 = tick w.
Proof.
  destruct (pageBuffer_shape parent cmd w) as [front ->]. cbv zeta.
  destruct (if List.length (commands cmd) =? 0 then _ else _) as [buf o].
  simpl. destruct o; simpl; auto. destruct (negb _); simpl; auto.
Qed.

(** [InitDefaultHelpFlag] returns the command with the help flag, or
    panics. *)
Lemma InitDefaultHelpFlag_cases c :
  InitDefaultHelpFlag c = Ok (withHelpFlag c)
  ∨ ∃ used,
      shorthandH c = Some used
      ∧ existsb (λ f, streq (flag_Name f) "help") (LocalFlags c ++ ParentFlags c) = false
      ∧ InitDefaultHelpFlag c = Err (shorthandPanic c used).
Proof.
  unfold InitDefaultHelpFlag, withHelpFlag.
  destruct (existsb _ _); [by left|].
  destruct (shorthandH c) as [used|]; [right; by exists used|by left].
Qed.

Lemma InitDefaultHelpFlag_Ok c c' :
  InitDefaultHelpFlag c = Ok c' → c' = withHelpFlag c.
Proof.
  destruct (InitDefaultHelpFlag_cases c) as [-> | (used & _ & _ & ->)]; [|done].
  by intros [= <-].
Qed.


(** [generateMarkdown] on a command whose initialisation returns. *)
Lemma generateMarkdown_eq parent cmd filename w :
  InitDefaultHelpFlag (InitDefaultHelpCmd cmd) = Ok (initialised cmd) →
  generateMarkdown parent cmd filename w
  = match pageBuffer parent (initialised cmd) w with
    | (buf, w, Nil) =>
        match os.Write filename buf w with
        | (w, None) => (rendered (initialised cmd), w, Nil)
        | (w, Some e) => (rendered (initialised cmd), w, Returned e)
        end
    | (_, w, o) => (rendered (initialised cmd), w, o)
    end.
Proof. intros Hok. unfold generateMarkdown. by rewrite Hok. Qed.

(** A call of [generateMarkdown] that returns has not panicked. *)
Lemma generateMarkdown_no_panic parent cmd filename w :
  (∀ v, (generateMarkdown parent cmd filename w).2 ≠ Panicked v) →
  InitDefaultHelpFlag (InitDefaultHelpCmd cmd) = Ok (initialised cmd).
Proof.
  intros Hnp. unfold initialised.
  destruct (InitDefaultHelpFlag_cases (InitDefaultHelpCmd cmd))
    as [Hok | (used & _ & _ & Herr)]; [done|].
  exfalso. apply (Hnp (shorthandPanic (InitDefaultHelpCmd cmd) used)).
  unfold generateMarkdown. by rewrite Herr.
Qed.

Lemma generateMarkdown_Nil_eq parent cmd filename w :
  (generateMarkdown parent cmd filename w).2 = Nil →
  InitDefaultHelpFlag (InitDefaultHelpCmd cmd) = Ok (initialised cmd).
Proof.
  intros Hnil. apply (generateMarkdown_no_panic parent cmd filename w).
  intros v. by rewrite Hnil.
Qed.

(** A page that [generateMarkdown] reports as written is in the file: the
    buffer went out in one call and was appended completely. *)
Lemma generateMarkdown_written parent cmd filename w :
  (generateMarkdown parent cmd filename w).2 = Nil →
  ∃ page w1,
    pageBuffer parent (initialised cmd) w = (page, w1, Nil)
    ∧ (generateMarkdown parent cmd filename w).1.1 = rendered (initialised cmd)
    ∧ trace (generateMarkdown parent cmd filename w).1.2 = trace w ++ [EWrite filename page]
    ∧ files (generateMarkdown parent cmd filename w).1.2
      = <[filename := default "" (files w !! filename) +:+ page]> (files w).
Proof.
  intros Hnil. pose proof (generateMarkdown_Nil_eq _ _ _ _ Hnil) as Hok.
  revert Hnil. rewrite generateMarkdown_eq by done.
  pose proof (pageBuffer_world parent (initialised cmd) w) as Hw.
  destruct (pageBuffer parent (initialised cmd) w) as [[page w1] o].
  destruct o; [|done..].
  destruct (os.Write filename page w1) as [w2 [e|]] eqn:HW; [done|].
  intros _. exists page, w1. apply Write_None in HW. subst w2. simpl in *.
  by destruct Hw as [-> | ->].
Qed.

End Renderer.

(** ** The Example Embedder *)

Lemma exampleIntro_heading name :
  strings.HasPrefix (exampleIntro name) ("### Example" +:+ NL +:+ NL) = true.
Proof.
  unfold strings.HasPrefix, exampleIntro. apply str_prefix_app.
Qed.

(** The page of a leaf command whose example is rendered: the Example
    section stands between a front part and the attribution. *)
Lemma leaf_page `{Ext : Externals}
    (parent : option string) (cmd : Command) (filename : string) (w : World)
    (printer : Printer) (tfmodule : TFModule) (output : string) :
  commands cmd = [] →
  Factory (strings.ReplaceAll (CommandPath parent cmd) "terraform-docs " "")
    exampleSettings = Ok printer →
  LoadWithOptions exampleOptions = Ok tfmodule →
  Print printer tfmodule exampleSettings = Ok output →
  (generateMarkdown parent cmd filename w).2 = Nil →
  ∃ front back,
    trace (generateMarkdown parent cmd filename w).1.2
    = trace w ++ [EWrite filename
                    (front +:+ exampleIntro (CommandPath parent cmd)
                     +:+ unlines (map indented (lines output)) +:+ NL +:+ back)].
Proof.
  intros Hleaf HF HL HP Hnil.
  destruct (generateMarkdown_written _ _ _ _ Hnil) as (page & w1 & Hpage & _ & Htrace & _).
  destruct (pageBuffer_shape parent (initialised cmd) w) as [front Hshape].
  cbv zeta in Hshape. rewrite Hpage in Hshape.
  destruct (initialised_attrs cmd) as (_ & _ & _ & Hcs & _).
  rewrite InitDefaultHelpCmd_leaf in Hcs by done. rewrite Hcs, Hleaf in Hshape.
  simpl in Hshape. rewrite CommandPath_initialised in Hshape.
  rewrite (printExample_Ok _ _ printer tfmodule output) in Hshape by done.
  simpl in Hshape. exists front.
  destruct (negb _); injection Hshape as -> _.
  - eexists. by rewrite Htrace, !sapp_assoc.
  - exists "". by rewrite Htrace, ?sapp_assoc, sapp_nil_r.
Qed.

(** C6: on the page of a leaf command the Example section holds the
    formatter's text line by line: what [strings.Split] makes of the text
    comes back with every non-empty line behind four spaces and every
    empty line empty, below the heading [### Example]. *)
Theorem example_lines_indented `{Ext : Externals}
    (parent : option string) (cmd : Command) (filename : string) (w : World)
    (printer : Printer) (tfmodule : TFModule) (output : string) :
  commands cmd = [] →
  Factory (strings.ReplaceAll (CommandPath parent cmd) "terraform-docs " "")
    exampleSettings = Ok printer →
  LoadWithOptions exampleOptions = Ok tfmodule →
  Print printer tfmodule exampleSettings = Ok output →
  (generateMarkdown parent cmd filename w).2 = Nil →
  ∃ front body back,
    trace (generateMarkdown parent cmd filename w).1.2
    = trace w ++ [EWrite filename
                    (front +:+ exampleIntro (CommandPath parent cmd) +:+ body +:+ NL +:+ back)]
    ∧ strings.HasPrefix (exampleIntro (CommandPath parent cmd))
        ("### Example" +:+ NL +:+ NL) = true
    ∧ lines body = map indented (lines output) ++ [""].
Proof.
  intros Hleaf HF HL HP Hnil.
  destruct (leaf_page parent cmd filename w printer tfmodule output)
    as (front & back & Htrace); try done.
  exists front, (unlines (map indented (lines output))), back.
  split; [done|]. split; [apply exampleIntro_heading|].
  apply lines_unlines, Forall_map.
  eapply Forall_impl; [apply SplitByte_absent|]. intros s. apply absent_indented.
Qed.

Lemma example_lines_indented_witness :
  ∃ front body back,
    trace (generateMarkdown (Ext := Scenario.registry) (Some "terraform-docs")
             Scenario.json "docs/formats/json.md" Scenario.prepared).1.2
    = trace Scenario.prepared
      ++ [EWrite "docs/formats/json.md"
            (front +:+ exampleIntro (CommandPath (Some "terraform-docs") Scenario.json)
             +:+ body +:+ NL +:+ back)]
    ∧ strings.HasPrefix (exampleIntro (CommandPath (Some "terraform-docs") Scenario.json))
        ("### Example" +:+ NL +:+ NL) = true
    ∧ lines body
      = map indented (lines ("json of ./examples" +:+ NL +:+ NL +:+ "  inputs" +:+ NL)) ++ [""].
Proof.
  apply (example_lines_indented (Ext := Scenario.registry)
           (Some "terraform-docs") Scenario.json
           "docs/formats/json.md" Scenario.prepared "json" "./examples");
    vm_compute; reflexivity.
Defined.

(** ** The tree walker *)

Lemma created_app t1 t2 : created (t1 ++ t2) = created t1 ++ created t2.
Proof. unfold created. apply omap_app. Qed.

(** The files a trace creates can be read off its calls. *)
Lemma created_calls t :
  created t = omap (λ c, match c with Creates n => Some n | Writes _ => None end) (map call t).
Proof.
  induction t as [|e t IH]; [done|].
  destruct e; unfold created in *; simpl; [f_equal|]; exact IH.
Qed.

Lemma created_pageCalls fs :
  omap (λ c, match c with Creates n => Some n | Writes _ => None end)
    (flat_map pageCalls fs) = fs.
Proof. induction fs as [|f fs IH]; [done|]. simpl. f_equal. exact IH. Qed.

Lemma Create_Ok name w w' :
  os.Create name w = Ok w' →
  w' = mkWorld (dirs w) (<[name := ""]> (files w))
         (free w + String.length (default "" (files w !! name)))
         (trace w ++ [ECreate name]) (ticks w)
  ∧ (name ∉ dirs w) ∧ (filepath.Dir name ∈ dirs w).
Proof.
  unfold os.Create. case_bool_decide; [done|]. case_bool_decide.
  - by intros [= <-].
  - by destruct (existsb _ _).
Qed.

Lemma helpOnly_refl c : helpOnly c c.
Proof.
  induction c as [u s l e a h d r g i lf pf cs IH] using Command_tree_ind.
  apply (helpOnly_intro _ _ cs); auto.
  simpl. induction IH; constructor; auto.
Qed.

Lemma Forall2_helpOnly_refl cs : Forall2 helpOnly cs cs.
Proof. induction cs; constructor; auto using helpOnly_refl. Qed.

(** The help command goes to the end of the slice, or is added there. *)
Lemma helpLast_perm c cs :
  helpLast c cs ≡ₚ cs ∨ helpLast c cs ≡ₚ cs ++ [defaultHelpCommand c].
Proof.
  unfold helpLast.
  assert (∀ l, match removeHelpCommand l with
               | (others, Some h) => l ≡ₚ others ++ [h]
               | (others, None) => l = others
               end) as Hrm.
  { induction l as [|x l IH]; [done|]. simpl.
    destruct (IsHelpCommand x).
    - apply Permutation_cons_append.
    - destruct (removeHelpCommand l) as [others [h|]]; simpl.
      + by rewrite IH.
      + by rewrite IH. }
  specialize (Hrm cs). destruct (removeHelpCommand cs) as [others [h|]]; simpl.
  - by left.
  - right. by rewrite Hrm.
Qed.

(** Sorting the children of a command is a change of this kind. *)
Lemma helpOnly_Commands c c' : helpOnly c c' → helpOnly c (Commands c').
Proof.
  intros [c0 c0' ds ? ? ? ? ? ? ? ? ? ? ? Hf Hds Hcs].
  apply (helpOnly_intro _ _ ds); try done.
  unfold Commands. cbn [commands with_commands]. unfold sortByName.
  by rewrite sortOn_perm.
Qed.

Lemma helpOnly_seeAlsoVisit c c' : helpOnly c c' → helpOnly c (seeAlsoVisit c').
Proof.
  intros Hc. unfold seeAlsoVisit.
  destruct (_ || _); [done|]. destruct (_ || _); [done|]. by apply helpOnly_Commands.
Qed.

Lemma Forall2_helpOnly_visit cs ds :
  Forall2 helpOnly cs ds → Forall2 helpOnly cs (map seeAlsoVisit ds).
Proof.
  induction 1; constructor; auto using helpOnly_seeAlsoVisit.
Qed.

Lemma seeAlsoVisit_help c : seeAlsoVisit (defaultHelpCommand c) = defaultHelpCommand c.
Proof. reflexivity. Qed.

(** The children a call leaves are those it found, up to their order. *)
Lemma helpOnly_walk c cs1 ds :
  Forall2 helpOnly (commands c) ds → cs1 ≡ₚ ds → helpOnly c (with_commands c cs1).
Proof. intros Hds Hp. apply (helpOnly_intro _ _ ds); auto. Qed.

Lemma helpOnly_initialised c cs1 ds :
  Forall2 helpOnly (commands c) ds → cs1 ≡ₚ ds →
  helpOnly c (initialised (with_commands c cs1)).
Proof.
  intros Hds Hp. unfold initialised, withHelpFlag, InitDefaultHelpCmd.
  pose proof (helpLast_perm (with_commands c cs1) cs1) as Hh.
  change (defaultHelpCommand (with_commands c cs1)) with (defaultHelpCommand c) in Hh.
  destruct cs1 as [|d cs1]; cbn [commands with_commands]; cbv iota;
    match goal with |- context [existsb ?f ?l] => destruct (existsb f l) end;
    apply (helpOnly_intro _ _ ds); cbn; auto;
    destruct Hh as [Hh | Hh]; rewrite Hh, Hp; auto.
Qed.

Lemma helpOnly_panic c cs1 ds :
  Forall2 helpOnly (commands c) ds → cs1 ≡ₚ ds →
  helpOnly c
    (with_LocalFlags (InitDefaultHelpCmd (with_commands c cs1))
       (LocalFlags (InitDefaultHelpCmd (with_commands c cs1))
        ++ [defaultHelpFlag (InitDefaultHelpCmd (with_commands c cs1))])).
Proof.
  intros Hds Hp. unfold InitDefaultHelpCmd.
  pose proof (helpLast_perm (with_commands c cs1) cs1) as Hh.
  change (defaultHelpCommand (with_commands c cs1)) with (defaultHelpCommand c) in Hh.
  destruct cs1 as [|d cs1]; cbn [commands with_commands]; cbv iota;
    apply (helpOnly_intro _ _ ds); cbn; auto;
    destruct Hh as [Hh | Hh]; rewrite Hh, Hp; auto.
Qed.

Lemma helpOnly_rendered c c' : helpOnly c c' → helpOnly c (rendered c').
Proof.
  intros Hc. unfold rendered. cbv zeta.
  destruct (_ =? 0); [by apply helpOnly_Commands|].
  apply helpOnly_Commands in Hc.
  destruct Hc as [c0 c0' ds ? ? ? ? ? ? ? ? ? ? ? Hf Hds Hcs].
  apply (helpOnly_intro _ _ (map seeAlsoVisit ds)); try done.
  - by apply Forall2_helpOnly_visit.
  - cbn [commands with_commands].
    destruct Hcs as [-> | ->]; [by left|right].
    by rewrite map_app.
Qed.

Lemma helpOnly_page c cs1 ds :
  Forall2 helpOnly (commands c) ds → cs1 ≡ₚ ds →
  helpOnly c (rendered (initialised (with_commands c cs1))).
Proof. intros Hds Hp. by eapply helpOnly_rendered, helpOnly_initialised. Qed.

Section Walker.
Context `{Ext : Externals}.

(** The two guards of the loops select the documentable commands. *)
Lemma guard_documentable {A : Type} (c : Command) (skip go : A) :
  (if negb (IsAvailableCommand c) || IsAdditionalHelpTopicCommand c then skip
   else if streq (annotation c "kind") "" || negb (streq (annotation c "kind") "formatter")
        then skip else go)
  = if isDocumentable c then go else skip.
Proof.
  unfold isDocumentable.
  destruct (IsAvailableCommand c), (IsAdditionalHelpTopicCommand c); simpl; try done.
  destruct (streq (annotation c "kind") "formatter") eqn:Hk; simpl.
  - apply streq_true in Hk. by rewrite Hk.
  - by rewrite orb_true_r.
Qed.

Lemma generate_list_cons path c rest w :
  generate_list path (c :: rest) w
  = if isDocumentable c then
      match generate (Some path) c formatdir (derivedName (CommandPath (Some path) c)) w with
      | (c', w', Nil) =>
          let '(rest', w'', o) := generate_list path rest w' in (c' :: rest', w'', o)
      | (c', w', o) => (c' :: rest, w', o)
      end
    else let '(rest', w', o) := generate_list path rest w in (c :: rest', w', o).
Proof. reflexivity. Qed.

(** The loop of [generate] walks the children in the order of their
    names. *)
Lemma generate_loop_sorted path cs w :
  generate_loop generate path cs w = generate_list path (sortByName cs) w.
Proof.
  unfold generate_loop, sortByName.
  rewrite <- (sortOn_map Name (λ step : Command * (World → Command * World * outcome),
                                Name step.1)) by done.
  generalize (sortOn Name cs). clear cs. intros cs. revert w.
  induction cs as [|c rest IH]; intros w; [done|].
  rewrite generate_list_cons, <- guard_documentable. cbn [map generate_walk].
  destruct (negb (IsAvailableCommand c) || IsAdditionalHelpTopicCommand c);
    [by rewrite IH|].
  destruct (streq (annotation c "kind") "" || negb (streq (annotation c "kind") "formatter"));
    [by rewrite IH|].
  destruct (generate _ _ _ _ _) as [[c' w'] o].
  destruct o; [by rewrite IH|..]; by rewrite map_map, map_id.
Qed.

Lemma generate_eq parent cmd subdir basename w :
  generate parent cmd subdir basename w
  = match generate_loop generate (CommandPath parent cmd) (commands cmd) w with
    | (cs, w, Nil) => generate_page parent (with_commands cmd cs) subdir basename w
    | (cs, w, o) => (with_commands cmd cs, w, o)
    end.
Proof. by destruct cmd. Qed.

(** [generateMarkdown] returns the command as it rendered it (or as the
    panic left it), touches only the file it is given, and creates
    nothing. *)
Lemma generateMarkdown_frame parent cmd f w :
  ((generateMarkdown parent cmd f w).1.1 = rendered (initialised cmd)
   ∨ (generateMarkdown parent cmd f w).1.1
     = with_LocalFlags (InitDefaultHelpCmd cmd)
         (LocalFlags (InitDefaultHelpCmd cmd) ++ [defaultHelpFlag (InitDefaultHelpCmd cmd)]))
  ∧ dirs (generateMarkdown parent cmd f w).1.2 = dirs w
  ∧ ∃ own,
      trace (generateMarkdown parent cmd f w).1.2 = trace w ++ own
      ∧ Forall (λ e, target e = f) own
      ∧ created own = []
      ∧ dom (files w) ⊆ dom (files (generateMarkdown parent cmd f w).1.2)
      ∧ dom (files (generateMarkdown parent cmd f w).1.2) ⊆ {[f]} ∪ dom (files w)
      ∧ ((generateMarkdown parent cmd f w).2 = Nil → map call own = [Writes f]).
Proof.
  destruct (InitDefaultHelpFlag_cases (InitDefaultHelpCmd cmd))
    as [Hok | (used & _ & _ & Herr)].
  2:{ unfold generateMarkdown. rewrite Herr. cbn [fst snd].
      split; [by right|]. split; [done|]. exists []. rewrite app_nil_r.
      repeat split; auto; set_solver. }
  fold (initialised cmd) in Hok. rewrite generateMarkdown_eq by done.
  pose proof (pageBuffer_world parent (initialised cmd) w) as Hw.
  destruct (pageBuffer parent (initialised cmd) w) as [[page w1] o]. simpl in Hw.
  assert (Hsame : dirs w1 = dirs w ∧ trace w1 = trace w ∧ files w1 = files w)
    by (by destruct Hw as [-> | ->]).
  destruct Hsame as (Hd & Ht & Hf).
  destruct o; simpl.
  - pose proof (Write_frame f page w1) as (Hd' & _ & Hdom & written & Htr).
    destruct (os.Write f page w1) as [w2 [e|]]; simpl in *;
      (split; [by left|]; split; [congruence|]);
      exists [EWrite f written]; rewrite Htr, Ht, Hdom, Hf;
      repeat split; auto; set_solver.
  - split; [by left|]. split; [done|]. exists []. rewrite app_nil_r, Ht, Hf.
    repeat split; auto; set_solver.
  - split; [by left|]. split; [done|]. exists []. rewrite app_nil_r, Ht, Hf.
    repeat split; auto; set_solver.
  - split; [by left|]. split; [done|]. exists []. rewrite app_nil_r, Ht, Hf.
    repeat split; auto; set_solver.
Qed.

(** The page of a command: the command comes back initialised once the
    markdown is generated, only its own file is touched, and a page that
    is reported as written took the three calls on that file. *)
Lemma generate_page_spec parent cmd subdir basename w :
  dirs (generate_page parent cmd subdir basename w).1.2 = dirs w
  ∧ ((generate_page parent cmd subdir basename w).1.1 = cmd
     ∨ (generate_page parent cmd subdir basename w).1.1 = rendered (initialised cmd)
     ∨ (generate_page parent cmd subdir basename w).1.1
       = with_LocalFlags (InitDefaultHelpCmd cmd)
           (LocalFlags (InitDefaultHelpCmd cmd)
            ++ [defaultHelpFlag (InitDefaultHelpCmd cmd)]))
  ∧ ∃ own,
      trace (generate_page parent cmd subdir basename w).1.2 = trace w ++ own
      ∧ Forall (λ e, target e = pageFile subdir basename) own
      ∧ dom (files (generate_page parent cmd subdir basename w).1.2)
        = dom (files w) ∪ list_to_set (created own)
      ∧ created own `prefix_of` [pageFile subdir basename]
      ∧ ((generate_page parent cmd subdir basename w).2 = Nil →
         (generate_page parent cmd subdir basename w).1.1 = rendered (initialised cmd)
         ∧ map call own = pageCalls (pageFile subdir basename)).
Proof.
  unfold generate_page. fold (pageFile subdir basename).
  set (f := pageFile subdir basename).
  destruct (os.Create f w) as [w1|e] eqn:HC.
  2:{ simpl. split; [done|]. split; [by left|]. exists [].
      rewrite app_nil_r. split; [done|]. split; [done|].
      split; [unfold created; simpl; set_solver|].
      split; [apply prefix_nil|done]. }
  apply Create_Ok in HC as (-> & _ & _).
  rewrite Write_empty. cbv iota beta.
  match goal with |- context [generateMarkdown parent cmd f ?w] => set (w2 := w) end.
  assert (Hw2 : dirs w2 = dirs w
                ∧ trace w2 = trace w ++ [ECreate f; EWrite f ""]
                ∧ dom (files w2) = {[f]} ∪ dom (files w)).
  { subst w2. simpl. rewrite <- app_assoc, !dom_insert_L. split; [done|].
    split; [done|]. set_solver. }
  destruct Hw2 as (Hd & Ht & Hdom). clearbody w2.
  destruct (generateMarkdown_frame parent cmd f w2)
    as (Hc & Hd2 & own & Ht2 & Hown & Hcr & Hsub1 & Hsub2 & Hcalls).
  split; [by rewrite Hd2|]. split; [by right|].
  exists ([ECreate f; EWrite f ""] ++ own).
  rewrite Ht2, Ht, <- app_assoc.
  split; [done|]. split; [by repeat constructor|].
  assert (Hcreated : created ([ECreate f; EWrite f ""] ++ own) = [f]).
  { by rewrite created_app, Hcr. }
  rewrite Hcreated. split; [|split; [done|]].
  - rewrite Hdom in Hsub1, Hsub2. set_solver.
  - intros Hnil. split; [|simpl; by rewrite (Hcalls Hnil)].
    by destruct (generateMarkdown_written _ _ _ _ Hnil) as (page & w3 & _ & -> & _).
Qed.

Lemma with_commands_same c : with_commands c (commands c) = c.
Proof. by destruct c. Qed.

Lemma pageFiles_eq parent cmd subdir basename :
  pageFiles parent cmd subdir basename
  = childFiles (CommandPath parent cmd) (commands cmd) ++ [pageFile subdir basename].
Proof.
  destruct cmd as [u s l e a h d r g i lf pf cs]. cbn [pageFiles commands].
  f_equal. unfold childFiles, listFiles, sortByName.
  rewrite <- (sortOn_map Name fst) by done. by rewrite map_map.
Qed.

Lemma visited_unfold c :
  visited c
  = Commands
      (initialised
         (with_commands c
            (sortByName (map (λ c, if isDocumentable c then visited c else c)
                           (commands c))))).
Proof. by destruct c. Qed.

(** The walk keeps the names. *)
Lemma Use_visited c : Use (visited c) = Use c.
Proof.
  rewrite visited_unfold. unfold Commands. cbn [Use with_commands].
  match goal with |- Use (initialised ?x) = _ =>
    by destruct (initialised_attrs x) as (-> & _) end.
Qed.

Lemma Name_visit c : Name (if isDocumentable c then visited c else c) = Name c.
Proof. unfold Name. destruct (isDocumentable c); [by rewrite Use_visited|done]. Qed.

Lemma visited_eq cmd :
  visited cmd
  = Commands (initialised (with_commands cmd (visitedChildren (sortByName (commands cmd))))).
Proof.
  rewrite visited_unfold. unfold visitedChildren, sortByName.
  by rewrite <- (sortOn_map Name Name) by apply Name_visit.
Qed.

(** The children of a command the walker has visited are sorted: to
    enumerate them again changes nothing. *)
Lemma Commands_idem c : Commands (Commands c) = Commands c.
Proof.
  unfold Commands. cbn [commands with_commands Use Short Long ExampleText Annotations
    Hidden Deprecated HasRun DisableAutoGenTag IsHelpCommand LocalFlags ParentFlags].
  unfold sortByName. by rewrite sortOn_idem.
Qed.

Lemma Commands_visited c : Commands (visited c) = visited c.
Proof. rewrite visited_eq. apply Commands_idem. Qed.

Lemma seeAlsoVisit_eq c : seeAlsoVisit c = if isDocumentable c then Commands c else c.
Proof. unfold seeAlsoVisit. apply guard_documentable. Qed.

Lemma seeAlsoVisit_visit c :
  seeAlsoVisit (if isDocumentable c then visited c else c)
  = if isDocumentable c then visited c else c.
Proof.
  destruct (isDocumentable c) eqn:Hdoc; rewrite seeAlsoVisit_eq.
  - rewrite Commands_visited. by destruct (isDocumentable (visited c)).
  - by rewrite Hdoc.
Qed.

Lemma helpLast_elem_of c cs x :
  x ∈ helpLast c cs → x ∈ cs ∨ x = defaultHelpCommand c.
Proof.
  destruct (helpLast_perm c cs) as [-> | ->]; [by left|].
  intros [Hx | Hx%list_elem_of_singleton]%elem_of_app; auto.
Qed.

(** What [generateMarkdown] leaves of a command whose children the loop
    has visited is the visited command. *)
Lemma visited_rendered c :
  rendered (initialised (with_commands c (visitedChildren (sortByName (commands c)))))
  = visited c.
Proof.
  rewrite visited_eq.
  set (x := initialised (with_commands c (visitedChildren (sortByName (commands c))))).
  unfold rendered. cbv zeta. destruct (_ =? 0); [done|].
  transitivity (with_commands (Commands x) (commands (Commands x)));
    [|apply with_commands_same].
  f_equal. transitivity (map id (commands (Commands x))); [|apply map_id].
  apply map_ext_in. intros d Hd%list_elem_of_In. unfold id.
  unfold Commands in Hd. cbn [commands with_commands] in Hd.
  unfold sortByName in Hd. apply sortOn_elem in Hd.
  assert (d ∈ visitedChildren (sortByName (commands c))
          ∨ d = defaultHelpCommand c) as Hcases.
  { unfold x in Hd. destruct (initialised_attrs
      (with_commands c (visitedChildren (sortByName (commands c)))))
      as (_ & _ & _ & Hcs & _).
    rewrite Hcs in Hd. unfold InitDefaultHelpCmd in Hd.
    cbn [commands with_commands] in Hd.
    destruct (visitedChildren (sortByName (commands c))) as [|v vs] eqn:Hv.
    - by apply elem_of_nil in Hd.
    - cbn [commands with_commands] in Hd.
      by apply helpLast_elem_of in Hd. }
  destruct Hcases as [Hin | ->]; [|reflexivity].
  unfold visitedChildren in Hin. apply list_elem_of_fmap in Hin as (c0 & -> & _).
  apply seeAlsoVisit_visit.
Qed.

Lemma loop_spec_walk path cs : Forall walk_spec cs → loop_spec path cs.
Proof.
  induction 1 as [|c rest Hc _ IH]; intros w.
  { simpl. split; [done|]. split; [constructor|]. exists [].
    rewrite app_nil_r. split; [done|].
    split; [unfold created; simpl; set_solver|]. split; [apply prefix_nil|done]. }
  rewrite generate_list_cons. unfold visitedChildren, listFiles. simpl map.
  simpl concat. fold (listFiles path rest).
  destruct (isDocumentable c) eqn:Hdoc.
  - destruct (Hc (Some path) formatdir (derivedName (CommandPath (Some path) c)) w)
      as (Hd & Hh & evs & Ht & Hdom & Hpre & Hnil).
    destruct (generate (Some path) c formatdir _ w) as [[c' w'] o]. simpl in *.
    destruct o.
    + destruct (IH w') as (Hd' & Hh' & evs' & Ht' & Hdom' & Hpre' & Hnil').
      destruct (generate_list path rest w') as [[rest' w''] o']. simpl in *.
      split; [congruence|]. split; [by constructor|].
      exists (evs ++ evs').
      destruct (Hnil eq_refl) as [-> Hc1].
      assert (created evs = pageFiles (Some path) c formatdir
                              (derivedName (CommandPath (Some path) c))) as Hcr.
      { by rewrite created_calls, Hc1, created_pageCalls. }
      rewrite Ht', Ht, app_assoc, Hdom', Hdom, created_app, list_to_set_app_L, Hcr.
      split; [done|]. split; [set_solver|].
      split; [by apply prefix_app|].
      intros ->. destruct (Hnil' eq_refl) as [-> Hc2].
      split; [done|]. by rewrite map_app, flat_map_app, Hc1, Hc2.
    + simpl. split; [done|]. split; [constructor; auto using Forall2_helpOnly_refl|].
      exists evs. split; [done|]. split; [done|]. split; [by apply prefix_app_r|done].
    + simpl. split; [done|]. split; [constructor; auto using Forall2_helpOnly_refl|].
      exists evs. split; [done|]. split; [done|]. split; [by apply prefix_app_r|done].
    + simpl. split; [done|]. split; [constructor; auto using Forall2_helpOnly_refl|].
      exists evs. split; [done|]. split; [done|]. split; [by apply prefix_app_r|done].
  - destruct (IH w) as (Hd' & Hh' & evs' & Ht' & Hdom' & Hpre' & Hnil').
    destruct (generate_list path rest w) as [[rest' w''] o']. simpl in *.
    split; [done|]. split; [constructor; auto using helpOnly_refl|].
    exists evs'. split; [done|]. split; [done|]. split; [done|].
    intros ->. destruct (Hnil' eq_refl) as [-> Hc2]. done.
Qed.

(** The walker's guarantees, by induction on the tree. *)
Lemma generate_spec c : walk_spec c.
Proof.
  induction c as [u s l e a h d r g i lf pf cs IH] using Command_tree_ind.
  set (c := mkCommand u s l e a h d r g i lf pf cs).
  intros parent subdir basename w.
  rewrite generate_eq, pageFiles_eq, generate_loop_sorted. unfold childFiles.
  change (commands c) with cs.
  assert (Forall walk_spec (sortByName cs)) as IH' by (by apply sortOn_Forall).
  destruct (loop_spec_walk (CommandPath parent c) (sortByName cs) IH' w)
    as (Hd & Hh & evs & Ht & Hdom & Hpre & Hnil).
  destruct (generate_list (CommandPath parent c) (sortByName cs) w) as [[cs1 w1] o].
  simpl in Hd, Hh, Ht, Hdom, Hnil.
  destruct (Permutation_Forall2 (sortOn_perm Name cs) Hh) as (ds & Hperm & Hds).
  destruct o.
  - destruct (generate_page_spec parent (with_commands c cs1) subdir basename w1)
      as (Hd' & Hc' & own & Ht' & Hown & Hdom' & Hpre' & Hnil').
    split; [congruence|]. split.
    { destruct Hc' as [-> | [-> | ->]];
        [by eapply helpOnly_walk|by eapply helpOnly_page|by eapply helpOnly_panic]. }
    exists (evs ++ own).
    destruct (Hnil eq_refl) as [Hcs1 Hc1]. clear Hnil. subst cs1.
    assert (created evs = listFiles (CommandPath parent c) (sortByName cs)) as Hcr.
    { by rewrite created_calls, Hc1, created_pageCalls. }
    rewrite Ht', Ht, app_assoc, Hdom', Hdom, created_app, list_to_set_app_L, Hcr.
    split; [done|]. split; [set_solver|]. split; [by apply prefix_app|].
    intros Hn. destruct (Hnil' Hn) as [-> Hc2].
    split; [apply (visited_rendered c)|].
    by rewrite map_app, flat_map_app, Hc1, Hc2.
  - simpl. split; [done|]. split; [by eapply helpOnly_walk|].
    exists evs. split; [done|]. split; [done|]. split; [by apply prefix_app_r|done].
  - simpl. split; [done|]. split; [by eapply helpOnly_walk|].
    exists evs. split; [done|]. split; [done|]. split; [by apply prefix_app_r|done].
  - simpl. split; [done|]. split; [by eapply helpOnly_walk|].
    exists evs. split; [done|]. split; [done|]. split; [by apply prefix_app_r|done].
Qed.

Lemma loop_spec_all path cs : loop_spec path cs.
Proof. apply loop_spec_walk, Forall_forall. intros c _. apply generate_spec. Qed.

(** The guarantees of the loop of [generate] over the children [cs]. *)
Lemma generate_loop_spec path cs w :
  dirs (generate_loop generate path cs w).1.2 = dirs w
  ∧ Forall2 helpOnly (sortByName cs) (generate_loop generate path cs w).1.1
  ∧ ∃ evs,
      trace (generate_loop generate path cs w).1.2 = trace w ++ evs
      ∧ dom (files (generate_loop generate path cs w).1.2)
        = dom (files w) ∪ list_to_set (created evs)
      ∧ created evs `prefix_of` childFiles path cs
      ∧ ((generate_loop generate path cs w).2 = Nil →
         (generate_loop generate path cs w).1.1 = visitedChildren (sortByName cs)
         ∧ map call evs = flat_map pageCalls (childFiles path cs)).
Proof. rewrite generate_loop_sorted. apply loop_spec_all. Qed.

End Walker.

(** ** The set of emitted pages *)

(** C1, as amended: a run that completes creates, once each and in this
    order, the pages of the commands the walker reaches: below every
    command whose page is written, the pages of its documentable children
    (and so on below them), then the page of the command itself; the root
    always has its page.  The files of the output directory are the old
    ones and these.  A documentable command below a command that is not
    documentable (other than the root) is not reached, and commands whose
    derived names coincide are written to the same file. *)
Theorem emitted_pages `{Ext : Externals}
    (parent : option string) (cmd : Command) (subdir basename : string) (w : World) :
  (generate parent cmd subdir basename w).2 = Nil →
  created (trace (generate parent cmd subdir basename w).1.2)
  = created (trace w) ++ pageFiles parent cmd subdir basename
  ∧ dom (files (generate parent cmd subdir basename w).1.2)
    = dom (files w) ∪ list_to_set (pageFiles parent cmd subdir basename).
Proof.
  intros Hnil.
  destruct (generate_spec cmd parent subdir basename w)
    as (_ & _ & evs & Ht & Hdom & _ & Hcalls).
  destruct (Hcalls Hnil) as [_ Hc].
  assert (created evs = pageFiles parent cmd subdir basename) as Hcr.
  { by rewrite created_calls, Hc, created_pageCalls. }
  by rewrite Ht, Hdom, created_app, Hcr.
Qed.

Lemma emitted_pages_witness :
  created (trace (generate (Ext := Scenario.registry) None Scenario.root ""
                    "FORMATS_GUIDE" Scenario.prepared).1.2)
  = created (trace Scenario.prepared)
    ++ pageFiles None Scenario.root "" "FORMATS_GUIDE"
  ∧ dom (files (generate (Ext := Scenario.registry) None Scenario.root ""
                  "FORMATS_GUIDE" Scenario.prepared).1.2)
    = dom (files Scenario.prepared)
      ∪ list_to_set (pageFiles None Scenario.root "" "FORMATS_GUIDE").
Proof.
  apply (emitted_pages (Ext := Scenario.registry) None Scenario.root ""
           "FORMATS_GUIDE" Scenario.prepared).
  vm_compute. reflexivity.
Defined.

Example pages_of_the_scenario :
  pageFiles None Scenario.root "" "FORMATS_GUIDE"
  = ["docs/formats/json.md"; "docs/formats/markdown-table.md";
     "docs/formats/markdown.md"; "docs/formats/pretty.md"; "docs/FORMATS_GUIDE.md"].
Proof. vm_compute. reflexivity. Qed.

(** C1, as stated, fails: in the tree [nested] the formatter [toml] is a
    documentable node, the run completes, and the only page is the guide
    of the root, which is not documentable. *)
Lemma documentable_node_without_page :
  (generate (Ext := Scenario.registry) None Scenario.nested ""
     "FORMATS_GUIDE" Scenario.prepared).2 = Nil
  ∧ documentableFiles Scenario.nested = ["docs/formats/extra-toml.md"]
  ∧ isDocumentable Scenario.nested = false
  ∧ elements (dom (files (generate (Ext := Scenario.registry) None Scenario.nested ""
                            "FORMATS_GUIDE" Scenario.prepared).1.2))
    = ["docs/FORMATS_GUIDE.md"]
  ∧ list_to_set (documentableFiles Scenario.nested)
    ≠ dom (files (generate (Ext := Scenario.registry) None Scenario.nested ""
                    "FORMATS_GUIDE" Scenario.prepared).1.2).
Proof.
  split; [vm_compute; reflexivity|]. split; [vm_compute; reflexivity|].
  split; [vm_compute; reflexivity|]. split; [vm_compute; reflexivity|].
  intros Heq.
  assert (Hin : "docs/FORMATS_GUIDE.md"
                ∈ dom (files (generate (Ext := Scenario.registry) None Scenario.nested ""
                                "FORMATS_GUIDE" Scenario.prepared).1.2)).
  { apply elem_of_elements.
    assert (elements (dom (files (generate (Ext := Scenario.registry) None
                                    Scenario.nested "" "FORMATS_GUIDE"
                                    Scenario.prepared).1.2))
            = ["docs/FORMATS_GUIDE.md"]) as -> by (vm_compute; reflexivity).
    by left. }
  rewrite <- Heq in Hin.
  assert (documentableFiles Scenario.nested = ["docs/formats/extra-toml.md"]) as Hdoc
    by (vm_compute; reflexivity).
  rewrite Hdoc in Hin. apply elem_of_list_to_set, list_elem_of_singleton in Hin.
  discriminate Hin.
Qed.

(** ** Directories *)

Lemma generate_page_Nil_dir `{Ext : Externals} parent cmd subdir basename w :
  (generate_page parent cmd subdir basename w).2 = Nil →
  filepath.Dir (pageFile subdir basename) ∈ dirs w.
Proof.
  unfold generate_page. fold (pageFile subdir basename).
  destruct (os.Create _ w) as [w1|e] eqn:HC; [|done].
  by apply Create_Ok in HC as (_ & _ & ?).
Qed.

(** The error of [os.Create] where the directory of the page is missing:
    [ENOTDIR] when the path runs through a regular file, [ENOENT]
    otherwise. *)
Lemma generate_page_missing_dir `{Ext : Externals} parent cmd subdir basename w :
  filepath.Dir (pageFile subdir basename) ∉ dirs w →
  pageFile subdir basename ∉ dirs w →
  generate_page parent cmd subdir basename w
  = (cmd, w,
     Returned ("open " +:+ pageFile subdir basename
               +:+ (if existsb (λ d, bool_decide (d ∈ dom (files w)))
                         (os.ancestors (pageFile subdir basename))
                    then ": not a directory"
                    else ": no such file or directory"))).
Proof.
  intros Hdir Hfile. unfold generate_page. fold (pageFile subdir basename).
  unfold os.Create. rewrite !bool_decide_eq_false_2 by done.
  by destruct (existsb _ _).
Qed.

Lemma generate_loop_dirs `{Ext : Externals} path cs w :
  dirs (generate_loop generate path cs w).1.2 = dirs w.
Proof.
  rewrite generate_loop_sorted.
  by destruct (loop_spec_all path (sortByName cs) w) as (Hd & _).
Qed.

(** C2, as amended: the walker creates no directory.  It opens the page
    with a plain [os.Create]; when the directory of the page is missing the
    call of [generate] cannot succeed: once the children are done, creating
    the file fails, with "not a directory" when the path of the page runs
    through a regular file and with "no such file or directory" otherwise,
    nothing more is written, and this error is returned. *)
Theorem no_directory_is_created `{Ext : Externals}
    (parent : option string) (cmd : Command) (subdir basename : string) (w : World) :
  dirs (generate parent cmd subdir basename w).1.2 = dirs w
  ∧ (filepath.Dir (pageFile subdir basename) ∉ dirs w →
     (generate parent cmd subdir basename w).2 ≠ Nil
     ∧ (pageFile subdir basename ∉ dirs w →
        (generate_loop generate (CommandPath parent cmd) (commands cmd) w).2 = Nil →
        (generate parent cmd subdir basename w).2
        = Returned
            ("open " +:+ pageFile subdir basename
             +:+ (if existsb
                       (λ d, bool_decide
                               (d ∈ dom (files (generate_loop generate
                                                  (CommandPath parent cmd)
                                                  (commands cmd) w).1.2)))
                       (os.ancestors (pageFile subdir basename))
                  then ": not a directory"
                  else ": no such file or directory"))
        ∧ (generate parent cmd subdir basename w).1.2
          = (generate_loop generate (CommandPath parent cmd) (commands cmd) w).1.2)).
Proof.
  destruct (generate_spec cmd parent subdir basename w) as (Hd & _).
  split; [done|]. intros Hdir.
  rewrite generate_eq.
  pose proof (generate_loop_dirs (CommandPath parent cmd) (commands cmd) w) as Hd1.
  destruct (generate_loop generate _ (commands cmd) w) as [[cs1 w1] o]. simpl in Hd1.
  rewrite <- Hd1 in Hdir. split.
  - destruct o; [|done..]. intros Hnil. by apply generate_page_Nil_dir in Hnil.
  - intros Hfile. rewrite <- Hd1 in Hfile. simpl. intros ->.
    by rewrite generate_page_missing_dir.
Qed.

(** C2, as stated, fails: where [docs/formats] is missing it is not
    created; the run ends with the error of [os.Create] and without any
    file. *)
Lemma missing_directory_stays_missing :
  (main (Ext := Scenario.registry) (Scenario.single Scenario.json) Scenario.unprepared).2
  = mkExit 1 ["open docs/formats/json.md: no such file or directory"]
  ∧ filepath.Dir (pageFile formatdir "json") = "docs/formats"
  ∧ elements (dirs (main (Ext := Scenario.registry) (Scenario.single Scenario.json)
                      Scenario.unprepared).1.2)
    = elements (dirs Scenario.unprepared)
  ∧ bool_decide ("docs/formats" ∈ dirs Scenario.unprepared) = false
  ∧ map_to_list (files (main (Ext := Scenario.registry) (Scenario.single Scenario.json)
                          Scenario.unprepared).1.2) = [].
Proof. repeat split; vm_compute; reflexivity. Qed.

Lemma no_directory_is_created_witness :
  dirs (generate (Ext := Scenario.registry) (Some "terraform-docs") Scenario.json
          formatdir "json" blocked).1.2
  = dirs blocked
  ∧ (generate (Ext := Scenario.registry) (Some "terraform-docs") Scenario.json
       formatdir "json" blocked).2
    = Returned ("open " +:+ pageFile formatdir "json" +:+ ": not a directory").
Proof.
  destruct (no_directory_is_created (Ext := Scenario.registry) (Some "terraform-docs")
              Scenario.json formatdir "json" blocked) as [Hd Hmiss].
  split; [exact Hd|].
  assert (Hdir : filepath.Dir (pageFile formatdir "json") ∉ dirs blocked).
  { intros H. vm_compute in H. discriminate H. }
  assert (Hfile : pageFile formatdir "json" ∉ dirs blocked).
  { intros H. vm_compute in H. discriminate H. }
  destruct (Hmiss Hdir) as [_ Hret].
  destruct (Hret Hfile) as [Ho _]; [reflexivity|exact Ho].
Defined.

(** The two errors of a missing directory: below [docs] without
    [formats] the page cannot be created because there is no such
    directory, and where [docs/formats] is a regular file because it is
    not a directory. *)
Example missing_directory_errors :
  (generate (Ext := Scenario.registry) (Some "terraform-docs") Scenario.json
     formatdir "json" Scenario.unprepared).2
  = Returned "open docs/formats/json.md: no such file or directory"
  ∧ (generate (Ext := Scenario.registry) (Some "terraform-docs") Scenario.json
       formatdir "json" blocked).2
    = Returned "open docs/formats/json.md: not a directory".
Proof. split; vm_compute; reflexivity. Qed.

(** ** The command tree after the run *)

(** C3, as amended: whatever the run does, every node keeps its name,
    descriptions, example, annotations, availability attributes and
    inherited flags.  The generator changes the tree through the cobra
    calls it makes on the commands it walks, and in no other way:
    [Commands()] sorts the children by name in place,
    [InitDefaultHelpCmd()] adds the default help command to a command with
    children (or adds the one it has again), and [InitDefaultHelpFlag()]
    adds the flag [help] to the own flags.  After a run that completes the
    tree is [visited cmd]: every command the walker reached has the help
    flag and, when it has children, the help command, and its children
    stand in the order of their names. *)
Theorem tree_changes_by_cobra_only `{Ext : Externals}
    (parent : option string) (cmd : Command) (subdir basename : string) (w : World) :
  helpOnly cmd (generate parent cmd subdir basename w).1.1
  ∧ ((generate parent cmd subdir basename w).2 = Nil →
     (generate parent cmd subdir basename w).1.1 = visited cmd
     ∧ StronglySorted (λ x y, String.leb (Name x) (Name y) = true)
         (commands (generate parent cmd subdir basename w).1.1)).
Proof.
  destruct (generate_spec cmd parent subdir basename w)
    as (_ & Hh & evs & _ & _ & _ & Hnil).
  split; [done|]. intros Hn. destruct (Hnil Hn) as [Hv _].
  split; [done|]. rewrite Hv, visited_eq. apply sortByName_sorted.
Qed.

Lemma tree_changes_by_cobra_only_witness :
  helpOnly Scenario.root
    (generate (Ext := Scenario.registry) None Scenario.root "" "FORMATS_GUIDE"
       Scenario.prepared).1.1
  ∧ (generate (Ext := Scenario.registry) None Scenario.root "" "FORMATS_GUIDE"
       Scenario.prepared).1.1 = visited Scenario.root
  ∧ StronglySorted (λ x y, String.leb (Name x) (Name y) = true)
      (commands (generate (Ext := Scenario.registry) None Scenario.root ""
                   "FORMATS_GUIDE" Scenario.prepared).1.1).
Proof.
  destruct (tree_changes_by_cobra_only (Ext := Scenario.registry) None Scenario.root ""
              "FORMATS_GUIDE" Scenario.prepared) as [Hh Hv].
  split; [exact Hh|]. apply Hv. vm_compute. reflexivity.
Defined.

(** C3, as stated, fails: after a completed run over a root with the
    formatter [toml], the root has a second child, the command [help], which
    stands before [toml], and both the root and [toml] have the flag
    [help]. *)
Lemma tree_is_mutated :
  (main (Ext := Scenario.registry) (Scenario.single Scenario.toml) Scenario.prepared).2
  = mkExit 0 []
  ∧ map Name (commands (Scenario.single Scenario.toml)) = ["toml"]
  ∧ map Name (commands (main (Ext := Scenario.registry) (Scenario.single Scenario.toml)
                          Scenario.prepared).1.1)
    = ["help"; "toml"]
  ∧ LocalFlags (Scenario.single Scenario.toml) = []
  ∧ map flag_Name (LocalFlags (main (Ext := Scenario.registry)
                                 (Scenario.single Scenario.toml) Scenario.prepared).1.1)
    = ["help"]
  ∧ map (λ c, map flag_Name (LocalFlags c))
      (commands (main (Ext := Scenario.registry) (Scenario.single Scenario.toml)
                   Scenario.prepared).1.1)
    = [[]; ["help"]].
Proof. repeat split; vm_compute; reflexivity. Qed.

(** The children of a root whose formatters were added out of the order
    of their names come back sorted. *)
Example tree_is_sorted :
  map Name (commands unsorted) = ["pretty"; "json"]
  ∧ map Name (commands (main (Ext := Scenario.registry) unsorted Scenario.prepared).1.1)
    = ["help"; "json"; "pretty"].
Proof. split; vm_compute; reflexivity. Qed.

(** ** The order of the pages *)

(** C10: the calls of [generate] on a command are those of the loop over
    its children followed by those on its own page.  When the loop
    completes, every page of a documentable child, and of the documentable
    commands below it, has been created and written by then, in the order
    of [childFiles]; a call that returns [nil] then creates and writes the
    own page.  When the loop fails, the call ends with the loop's outcome
    and makes no call on its own page: unless the file was there before or
    is also the page of a command below, it does not exist. *)
Theorem children_before_parent `{Ext : Externals}
    (parent : option string) (cmd : Command) (subdir basename : string) (w : World) :
  ∃ below own,
    trace (generate_loop generate (CommandPath parent cmd) (commands cmd) w).1.2
    = trace w ++ below
    ∧ trace (generate parent cmd subdir basename w).1.2 = trace w ++ below ++ own
    ∧ created below `prefix_of` childFiles (CommandPath parent cmd) (commands cmd)
    ∧ Forall (λ e, target e = pageFile subdir basename) own
    ∧ ((generate_loop generate (CommandPath parent cmd) (commands cmd) w).2 = Nil →
       map call below
       = flat_map pageCalls (childFiles (CommandPath parent cmd) (commands cmd)))
    ∧ ((generate parent cmd subdir basename w).2 = Nil →
       (generate_loop generate (CommandPath parent cmd) (commands cmd) w).2 = Nil
       ∧ map call own = pageCalls (pageFile subdir basename))
    ∧ ((generate_loop generate (CommandPath parent cmd) (commands cmd) w).2 ≠ Nil →
       own = []
       ∧ (generate parent cmd subdir basename w).2
         = (generate_loop generate (CommandPath parent cmd) (commands cmd) w).2
       ∧ (pageFile subdir basename ∉ dom (files w) →
          pageFile subdir basename ∉ childFiles (CommandPath parent cmd) (commands cmd) →
          pageFile subdir basename ∉ dom (files (generate parent cmd subdir basename w).1.2))).
Proof.
  rewrite generate_eq.
  destruct (generate_loop_spec (CommandPath parent cmd) (commands cmd) w)
    as (_ & _ & below & Ht & Hdom & Hpre & Hnil).
  destruct (generate_loop generate _ (commands cmd) w) as [[cs1 w1] o].
  simpl in Ht, Hdom, Hnil. simpl.
  assert (Hfresh : pageFile subdir basename ∉ dom (files w) →
                   pageFile subdir basename ∉ childFiles (CommandPath parent cmd) (commands cmd) →
                   pageFile subdir basename ∉ dom (files w1)).
  { intros Hw Hc. rewrite Hdom. destruct Hpre as [k Hk].
    rewrite Hk in Hc. set_solver. }
  destruct o.
  - destruct (generate_page_spec parent (with_commands cmd cs1) subdir basename w1)
      as (_ & _ & own & Ht' & Hown & _ & _ & Hnil').
    exists below, own. rewrite Ht', Ht, app_assoc.
    split; [done|]. split; [done|]. split; [done|]. split; [done|].
    split; [intros _; by destruct (Hnil eq_refl)|].
    split; [intros Hn; by destruct (Hnil' Hn)|done].
  - exists below, []. rewrite app_nil_r.
    split; [done|]. split; [done|]. split; [done|]. split; [constructor|].
    split; [done|]. split; [done|]. intros _. by repeat split.
  - exists below, []. rewrite app_nil_r.
    split; [done|]. split; [done|]. split; [done|]. split; [constructor|].
    split; [done|]. split; [done|]. intros _. by repeat split.
  - exists below, []. rewrite app_nil_r.
    split; [done|]. split; [done|]. split; [done|]. split; [constructor|].
    split; [done|]. split; [done|]. intros _. by repeat split.
Qed.

Lemma children_before_parent_witness :
  (generate (Ext := Scenario.registry) None (Scenario.single Scenario.json) ""
     "FORMATS_GUIDE" Scenario.unprepared).2
  = (generate_loop (generate (Ext := Scenario.registry))
       (CommandPath None (Scenario.single Scenario.json))
       (commands (Scenario.single Scenario.json)) Scenario.unprepared).2
  ∧ pageFile "" "FORMATS_GUIDE"
    ∉ dom (files (generate (Ext := Scenario.registry) None (Scenario.single Scenario.json)
                    "" "FORMATS_GUIDE" Scenario.unprepared).1.2).
Proof.
  destruct (children_before_parent (Ext := Scenario.registry) None
              (Scenario.single Scenario.json) "" "FORMATS_GUIDE" Scenario.unprepared)
    as (below & own & _ & _ & _ & _ & _ & _ & Hfail).
  destruct Hfail as (_ & Ho & Hfresh); [vm_compute; discriminate|].
  split; [exact Ho|]. apply Hfresh.
  - simpl. rewrite dom_empty_L. apply not_elem_of_empty.
  - assert (childFiles (CommandPath None (Scenario.single Scenario.json))
              (commands (Scenario.single Scenario.json)) = ["docs/formats/json.md"])
      as -> by (vm_compute; reflexivity).
    assert (pageFile "" "FORMATS_GUIDE" = "docs/FORMATS_GUIDE.md") as ->
      by (vm_compute; reflexivity).
    intros Hin. apply list_elem_of_singleton in Hin. discriminate Hin.
Defined.

(** ** The attribution line *)

Example Format_date : Format (mkTime 2021 March 7) = "7-Mar-2021".
Proof. reflexivity. Qed.

Example Format_early_year : Format (mkTime 987 December 31) = "31-Dec-0987".
Proof. reflexivity. Qed.

Lemma unlines_ends ls : ls ≠ [] → ∃ x, unlines ls = x +:+ NL.
Proof.
  induction ls as [|l ls IH]; [done|]. intros _. destruct ls as [|l' ls].
  - exists l. simpl. by rewrite sapp_nil_r.
  - destruct IH as [x Hx]; [done|]. exists (l +:+ NL +:+ x).
    change (unlines (l :: l' :: ls)) with (l +:+ NL +:+ unlines (l' :: ls)).
    by rewrite Hx, !sapp_assoc.
Qed.

Lemma concatAll_ends ls :
  Forall (λ l, ∃ x, l = x +:+ NL) ls →
  concatAll ls = "" ∨ ∃ x, concatAll ls = x +:+ NL.
Proof.
  induction 1 as [|l ls [x ->] _ IH]; [by left|]. right. simpl.
  destruct IH as [-> | [y ->]].
  - exists x. by rewrite sapp_nil_r.
  - exists (x +:+ NL +:+ y). by rewrite !sapp_assoc.
Qed.

Lemma seeAlsoBullet_ends indent cname short :
  ∃ x, seeAlsoBullet indent cname short = x +:+ NL.
Proof.
  unfold seeAlsoBullet. eexists. rewrite <- !sapp_assoc. reflexivity.
Qed.

Lemma seeAlsoEntry_ends path c : ∃ x, seeAlsoEntry path c = x +:+ NL.
Proof.
  unfold seeAlsoEntry.
  destruct (seeAlsoBullet_ends "" (CommandPath (Some path) c) (Short c)) as [x ->].
  match goal with |- context [concatAll ?l] => destruct (concatAll_ends l) as [-> | [y ->]] end.
  - apply Forall_forall. intros l [g [-> _]]%list_elem_of_fmap.
    apply seeAlsoBullet_ends.
  - exists x. by rewrite sapp_nil_r.
  - exists (x +:+ NL +:+ y). by rewrite !sapp_assoc.
Qed.

Lemma seeAlsoText_ends path cs :
  seeAlsoText path cs = "" ∨ ∃ x, seeAlsoText path cs = x +:+ NL.
Proof.
  apply concatAll_ends, Forall_forall. intros l [c [-> _]]%list_elem_of_fmap.
  apply seeAlsoEntry_ends.
Qed.

(** ** The SEE ALSO index *)

(** Appending [".md"] before or after the program name is removed makes
    no difference: the link of a bullet is the file name of the page. *)
Lemma link_derivedName cname :
  strings.ReplaceAll (strings.ReplaceAll cname " " "-" +:+ ".md") "terraform-docs-" ""
  = derivedName cname +:+ ".md".
Proof.
  rewrite derivedName_unfold. generalize (strings.ReplaceAll cname " " "-"). intros h.
  change (strings.ReplaceAll (h +:+ ".md") "terraform-docs-" "")
    with (strings.replace_from "terraform-docs-" "" 0 (h +:+ String "." "md")).
  apply replace_from_app_suffix; [reflexivity|reflexivity|lia].
Qed.

Lemma seeAlsoGrandchild_eq cpath buf g :
  seeAlsoGrandchild cpath buf g
  = if isDocumentable g
    then buf +:+ seeAlsoBullet "  " (CommandPath (Some cpath) g) (Short g)
    else buf.
Proof.
  unfold seeAlsoGrandchild. rewrite guard_documentable.
  destruct (isDocumentable g); [|done]. cbv zeta. by rewrite link_derivedName.
Qed.

Lemma fold_seeAlsoGrandchild cpath gs buf :
  fold_left (seeAlsoGrandchild cpath) gs buf
  = buf +:+ concatAll (map (λ g, seeAlsoBullet "  " (CommandPath (Some cpath) g) (Short g))
                           (List.filter isDocumentable gs)).
Proof.
  revert buf. induction gs as [|g gs IH]; intros buf; simpl.
  - by rewrite sapp_nil_r.
  - rewrite IH, seeAlsoGrandchild_eq. destruct (isDocumentable g); [|done].
    simpl. by rewrite sapp_assoc.
Qed.

Lemma seeAlsoChild_eq path buf c :
  seeAlsoChild path buf c
  = if isDocumentable c then buf +:+ seeAlsoEntry path c else buf.
Proof.
  unfold seeAlsoChild. rewrite guard_documentable.
  destruct (isDocumentable c); [|done]. cbv zeta.
  rewrite fold_seeAlsoGrandchild, link_derivedName. unfold seeAlsoEntry.
  by rewrite sapp_assoc.
Qed.

Lemma fold_seeAlsoChild path cs buf :
  fold_left (seeAlsoChild path) cs buf = buf +:+ seeAlsoText path cs.
Proof.
  unfold seeAlsoText. revert buf. induction cs as [|c cs IH]; intros buf; simpl.
  - by rewrite sapp_nil_r.
  - rewrite IH, seeAlsoChild_eq. destruct (isDocumentable c); [|done].
    simpl. by rewrite sapp_assoc.
Qed.

Lemma printSeeAlso_eq buf path cs :
  printSeeAlso buf path cs
  = (buf +:+ ("### SEE ALSO" +:+ NL +:+ NL) +:+ seeAlsoText path cs +:+ NL, Nil).
Proof.
  unfold printSeeAlso. by rewrite fold_seeAlsoChild, !sapp_assoc.
Qed.

(** ** The end of a page *)

Section PageEnd.
Context `{Ext : Externals}.

Lemma printExample_Nil buf name :
  (printExample buf name).2 = Nil →
  ∃ printer tfmodule output,
    Factory (strings.ReplaceAll name "terraform-docs " "") exampleSettings = Ok printer
    ∧ LoadWithOptions exampleOptions = Ok tfmodule
    ∧ Print printer tfmodule exampleSettings = Ok output.
Proof.
  rewrite printExample_outcome.
  destruct (Factory _ _) as [printer|]; [|done].
  destruct (LoadWithOptions _) as [tfmodule|]; [|done].
  destruct (Print _ _ _) as [output|] eqn:HP; [|done].
  intros _. by exists printer, tfmodule, output.
Qed.

(** Both terminal sections end with an empty line. *)
Lemma section_ends_blank front name (leaf : bool) cs :
  (if leaf then printExample front name
   else printSeeAlso front name cs).2 = Nil →
  ∃ body,
    (if leaf then printExample front name
     else printSeeAlso front name cs).1 = body +:+ NL +:+ NL.
Proof.
  destruct leaf.
  - intros (printer & tfmodule & output & HF & HL & HP)%printExample_Nil.
    rewrite (printExample_Ok _ _ _ _ _ HF HL HP). simpl.
    destruct (unlines_ends (map indented (lines output))) as [x ->].
    { unfold lines. pose proof (SplitByte_nonempty output LF).
      by destruct (strings.SplitByte output LF). }
    eexists. rewrite <- !sapp_assoc. reflexivity.
  - intros _. rewrite printSeeAlso_eq. simpl.
    destruct (seeAlsoText_ends name cs) as [-> | [x ->]].
    + exists (front +:+ "### SEE ALSO" +:+ NL). by rewrite !sapp_assoc.
    + eexists. rewrite <- !sapp_assoc. reflexivity.
Qed.

(** A written page: a body that ends with an empty line, then the
    attribution line unless it is disabled. *)
Lemma page_end parent cmd filename w :
  (generateMarkdown parent cmd filename w).2 = Nil →
  ∃ body,
    trace (generateMarkdown parent cmd filename w).1.2
    = trace w ++ [EWrite filename
                    (body +:+ NL +:+ NL
                     +:+ (if DisableAutoGenTag cmd then ""
                          else attribution (Now (ticks w))))]
    ∧ files (generateMarkdown parent cmd filename w).1.2
      = <[filename := default "" (files w !! filename)
                      +:+ (body +:+ NL +:+ NL
                           +:+ (if DisableAutoGenTag cmd then ""
                                else attribution (Now (ticks w))))]> (files w).
Proof.
  intros Hnil.
  destruct (generateMarkdown_written _ _ _ _ Hnil) as (page & w1 & Hpage & _ & Htrace & Hfiles).
  destruct (pageBuffer_shape parent (initialised cmd) w) as [front Hshape].
  cbv zeta in Hshape. rewrite Hpage in Hshape.
  destruct (initialised_attrs cmd) as (_ & _ & Htag & _).
  rewrite Htag in Hshape.
  pose proof (section_ends_blank front (CommandPath parent (initialised cmd))
                (List.length (commands (initialised cmd)) =? 0)
                (sortByName (commands (initialised cmd)))) as Hend.
  destruct (if List.length (commands (initialised cmd)) =? 0 then _ else _) as [buf o].
  simpl in Hshape, Hend. destruct o; [|by destruct (DisableAutoGenTag cmd)..].
  destruct (Hend eq_refl) as [body ->]. exists body.
  rewrite Htrace, Hfiles.
  destruct (DisableAutoGenTag cmd); simpl in Hshape; injection Hshape as -> _.
  - by rewrite sapp_nil_r.
  - unfold attribution. by rewrite !sapp_assoc.
Qed.

End PageEnd.

(** C9, as amended: a page that is written ends, after an empty line,
    with the line [###### Auto generated by spf13/cobra on <date>], the
    date of the clock as day, abbreviated month and four-digit year joined
    by hyphens, unless the attribution is disabled for the command; then
    the page ends with the empty line and no such line is appended. *)
Theorem attribution_line `{Ext : Externals}
    (parent : option string) (cmd : Command) (filename : string) (w : World) :
  (generateMarkdown parent cmd filename w).2 = Nil →
  ∃ body,
    trace (generateMarkdown parent cmd filename w).1.2
    = trace w ++ [EWrite filename
                    (body +:+ NL +:+ NL
                     +:+ (if DisableAutoGenTag cmd then ""
                          else "###### Auto generated by spf13/cobra on "
                               +:+ (Itoa (day (Now (ticks w))) +:+ "-"
                                    +:+ monthAbbrev (month (Now (ticks w))) +:+ "-"
                                    +:+ year4 (year (Now (ticks w))))
                               +:+ NL))].
Proof.
  intros Hnil. destruct (page_end parent cmd filename w Hnil) as (body & Ht & _).
  by exists body.
Qed.

Lemma attribution_line_witness :
  ∃ body,
    trace (generateMarkdown (Ext := Scenario.registry) (Some "terraform-docs")
             Scenario.json "docs/formats/json.md" Scenario.prepared).1.2
    = trace Scenario.prepared
      ++ [EWrite "docs/formats/json.md"
            (body +:+ NL +:+ NL
             +:+ (if DisableAutoGenTag Scenario.json then ""
                  else "###### Auto generated by spf13/cobra on "
                       +:+ (Itoa 7 +:+ "-" +:+ monthAbbrev March +:+ "-" +:+ year4 2021)
                       +:+ NL))].
Proof.
  apply (attribution_line (Ext := Scenario.registry) (Some "terraform-docs")
           Scenario.json "docs/formats/json.md" Scenario.prepared).
  vm_compute. reflexivity.
Defined.

(** C9, as stated, fails: the last line of a generated page names cobra,
    it does not start with [###### Auto generated on]. *)
Lemma attribution_names_cobra :
  ∃ page,
    files (main (Ext := Scenario.registry) (Scenario.single Scenario.json)
             Scenario.prepared).1.2 !! "docs/formats/json.md" = Some page
    ∧ trailingLine page = Some "###### Auto generated by spf13/cobra on 7-Mar-2021"
    ∧ strings.HasPrefix "###### Auto generated by spf13/cobra on 7-Mar-2021"
        "###### Auto generated on " = false.
Proof.
  eexists. split; [vm_compute; reflexivity|]. split; vm_compute; reflexivity.
Qed.

(** ** The scenario of the formatter [pretty] *)

(** C7, as amended: the page of a leaf command named [pretty] below the
    root [terraform-docs] has an Example section whose shell invocation
    line is [terraform-docs pretty --no-color ./examples/]: the flag
    [--no-color] follows the command path and the path of the example
    module ends the line.  The body of the section is the text the
    formatter registered as [pretty] prints for the example module, with
    the color setting switched off. *)
Theorem pretty_example `{Ext : Externals}
    (cmd : Command) (filename : string) (w : World)
    (printer : Printer) (tfmodule : TFModule) (output : string) :
  Name cmd = "pretty" →
  commands cmd = [] →
  Factory "pretty" exampleSettings = Ok printer →
  LoadWithOptions exampleOptions = Ok tfmodule →
  Print printer tfmodule exampleSettings = Ok output →
  (generateMarkdown (Some "terraform-docs") cmd filename w).2 = Nil →
  ∃ front back,
    trace (generateMarkdown (Some "terraform-docs") cmd filename w).1.2
    = trace w ++ [EWrite filename
                    (front +:+ exampleIntro "terraform-docs pretty"
                     +:+ unlines (map indented (lines output)) +:+ NL +:+ back)]
    ∧ shellLine (exampleIntro "terraform-docs pretty")
      = Some "terraform-docs pretty --no-color ./examples/"
    ∧ ShowColor exampleSettings = false
    ∧ Path exampleOptions = "./examples".
Proof.
  intros Hname Hleaf HF HL HP Hnil.
  assert (Hpath : CommandPath (Some "terraform-docs") cmd = "terraform-docs pretty").
  { unfold CommandPath. by rewrite Hname. }
  destruct (leaf_page (Some "terraform-docs") cmd filename w printer tfmodule output)
    as (front & back & Htrace); try done.
  { by rewrite Hpath. }
  exists front, back. rewrite Htrace, Hpath. by repeat split.
Qed.

Lemma pretty_example_witness :
  ∃ front back,
    trace (generateMarkdown (Ext := Scenario.registry) (Some "terraform-docs")
             Scenario.pretty "docs/formats/pretty.md" Scenario.prepared).1.2
    = trace Scenario.prepared
      ++ [EWrite "docs/formats/pretty.md"
            (front +:+ exampleIntro "terraform-docs pretty"
             +:+ unlines (map indented
                            (lines ("pretty of ./examples" +:+ NL +:+ NL
                                    +:+ "  inputs" +:+ NL)))
             +:+ NL +:+ back)]
    ∧ shellLine (exampleIntro "terraform-docs pretty")
      = Some "terraform-docs pretty --no-color ./examples/"
    ∧ ShowColor (exampleSettings (Ext := Scenario.registry)) = false
    ∧ Path (exampleOptions (Ext := Scenario.registry)) = "./examples".
Proof.
  apply (pretty_example (Ext := Scenario.registry) Scenario.pretty
           "docs/formats/pretty.md" Scenario.prepared "pretty" "./examples");
    vm_compute; reflexivity.
Defined.

(** C7, as stated, fails: the shell line of the page of [pretty] does not
    end with [--no-color]; the path of the example module comes last. *)
Lemma pretty_shell_line_ends_with_the_path :
  ∃ page,
    files (main (Ext := Scenario.registry) (Scenario.single Scenario.pretty)
             Scenario.prepared).1.2 !! "docs/formats/pretty.md" = Some page
    ∧ shellLine page = Some "terraform-docs pretty --no-color ./examples/"
    ∧ strings.HasSuffix "terraform-docs pretty --no-color ./examples/" "--no-color" = false.
Proof.
  eexists. split; [vm_compute; reflexivity|]. split; vm_compute; reflexivity.
Qed.

(** ** Documentable commands after the walk *)

Lemma IsAvailableCommand_eq c :
  IsAvailableCommand c
  = if negb (streq (Deprecated c) "") || Hidden c then false
    else if IsHelpCommand c then false
    else Runnable c || existsb IsAvailableCommand (commands c).
Proof. by destruct c. Qed.

Lemma IsAdditionalHelpTopicCommand_eq c :
  IsAdditionalHelpTopicCommand c
  = if Runnable c || negb (streq (Deprecated c) "") || Hidden c then false
    else forallb IsAdditionalHelpTopicCommand (commands c).
Proof. by destruct c. Qed.

(** The help command of a parent is never documentable. *)
Lemma help_unavailable c : IsHelpCommand c = true → IsAvailableCommand c = false.
Proof.
  intros Hh. rewrite IsAvailableCommand_eq, Hh.
  by destruct (negb (streq (Deprecated c) "") || Hidden c).
Qed.

Lemma help_not_documentable c : IsHelpCommand c = true → isDocumentable c = false.
Proof. intros Hh. unfold isDocumentable. by rewrite help_unavailable. Qed.

Lemma removeHelpCommand_spec cs :
  (∀ h, (removeHelpCommand cs).2 = Some h → IsHelpCommand h = true ∧ h ∈ cs)
  ∧ (∀ x, x ∈ (removeHelpCommand cs).1 → x ∈ cs)
  ∧ (∀ x, x ∈ cs → x ∈ (removeHelpCommand cs).1 ∨ (removeHelpCommand cs).2 = Some x)
  ∧ (∀ P : Command → bool, (∀ x, IsHelpCommand x = true → P x = false) →
       List.filter P (removeHelpCommand cs).1 = List.filter P cs).
Proof.
  induction cs as [|c cs (IH1 & IH2 & IH3 & IH4)]; simpl.
  { repeat split; try done. intros x Hx. by left. }
  destruct (IsHelpCommand c) eqn:Hc; simpl.
  - split; [intros h [= <-]; split; [done|by left]|].
    split; [intros x Hx; by right|].
    split; [intros x [->|Hx]%elem_of_cons; [by right|by left]|].
    intros P HP. by rewrite (HP c Hc).
  - destruct (removeHelpCommand cs) as [others oh]. simpl in *.
    split; [intros h Hh; destruct (IH1 h Hh); split; [done|by right]|].
    split; [intros x [->|Hx]%elem_of_cons; [by left|right; auto]|].
    split.
    + intros x [->|Hx]%elem_of_cons; [left; by left|].
      destruct (IH3 x Hx); [left; by right|by right].
    + intros P HP. by rewrite (IH4 P HP).
Qed.

Lemma helpLast_help c ds h : last (helpLast c ds) = Some h → IsHelpCommand h = true.
Proof.
  unfold helpLast. pose proof (removeHelpCommand_spec ds) as (H1 & _).
  destruct (removeHelpCommand ds) as [others [h0|]]; simpl in *;
    rewrite last_snoc; intros [= <-]; [by apply H1|done].
Qed.

(** Putting the help command last keeps the children, and the selection
    of a predicate that is false on help commands. *)
Lemma helpLast_elem c ds x : x ∈ ds → x ∈ helpLast c ds.
Proof.
  unfold helpLast. pose proof (removeHelpCommand_spec ds) as (_ & _ & H3 & _).
  intros Hx. destruct (H3 x Hx) as [Hin|Heq];
    destruct (removeHelpCommand ds) as [others oh]; simpl in *.
  - apply elem_of_app. by left.
  - subst oh. apply elem_of_app. right. by left.
Qed.

Lemma helpLast_filter (P : Command → bool) c ds :
  (∀ x, IsHelpCommand x = true → P x = false) →
  List.filter P (helpLast c ds) = List.filter P ds.
Proof.
  intros HP. unfold helpLast.
  pose proof (removeHelpCommand_spec ds) as (H1 & _ & _ & H4).
  specialize (H4 P HP).
  destruct (removeHelpCommand ds) as [others oh]. simpl in *.
  rewrite List.filter_app, H4. simpl.
  assert (P (default (defaultHelpCommand c) oh) = false) as ->.
  { apply HP. destruct oh as [h|]; [by apply H1|done]. }
  by rewrite app_nil_r.
Qed.

Lemma commands_InitDefaultHelpCmd c :
  commands (InitDefaultHelpCmd c)
  = match commands c with [] => [] | cs => helpLast c cs end.
Proof. unfold InitDefaultHelpCmd. by destruct (commands c) eqn:E. Qed.

Lemma commands_initialised_filter (P : Command → bool) c :
  (∀ x, IsHelpCommand x = true → P x = false) →
  List.filter P (commands (initialised c)) = List.filter P (commands c).
Proof.
  intros HP. destruct (initialised_attrs c) as (_ & _ & _ & -> & _).
  rewrite commands_InitDefaultHelpCmd.
  destruct (commands c) as [|d ds]; [done|]. by apply helpLast_filter.
Qed.

Lemma helpOnly_inv c c' :
  helpOnly c c' →
  Use c' = Use c ∧ Short c' = Short c ∧ Annotations c' = Annotations c
  ∧ Hidden c' = Hidden c ∧ Deprecated c' = Deprecated c ∧ HasRun c' = HasRun c
  ∧ IsHelpCommand c' = IsHelpCommand c
  ∧ ∃ ds, Forall2 helpOnly (commands c) ds
          ∧ (commands c' ≡ₚ ds ∨ commands c' ≡ₚ ds ++ [defaultHelpCommand c]).
Proof. inversion 1; subst. repeat split; try done. by exists ds. Qed.

Lemma existsb_perm {A : Type} (P : A → bool) l l' :
  l ≡ₚ l' → existsb P l = existsb P l'.
Proof.
  induction 1 as [|x l l' _ IH|x y l|l l' l'' _ IH1 _ IH2]; simpl.
  - done.
  - by rewrite IH.
  - by destruct (P x), (P y).
  - by rewrite IH1.
Qed.

Lemma existsb_filter {A : Type} (P : A → bool) l :
  existsb P l = match List.filter P l with [] => false | _ => true end.
Proof. induction l as [|x l IH]; [done|]. simpl. by destruct (P x). Qed.

Lemma forallb_false_elem {A : Type} (P : A → bool) l :
  forallb P l = false ↔ ∃ x, x ∈ l ∧ P x = false.
Proof.
  induction l as [|x l IH]; simpl.
  - split; [done|]. by intros (x & ?%elem_of_nil & _).
  - rewrite andb_false_iff, IH. split.
    + intros [Hx | (y & Hy & HP)]; [exists x|exists y]; split; auto; by constructor.
    + intros (y & [-> | Hy]%elem_of_cons & HP); [by left|right; eauto].
Qed.

(** A change up to default help keeps a command available, keeps it from
    being a help topic, and so keeps it documentable. *)
Lemma helpOnly_available c :
  ∀ c', helpOnly c c' → IsAvailableCommand c' = IsAvailableCommand c.
Proof.
  induction c as [u s l e a h d r g i lf pf cs IH] using Command_tree_ind.
  intros c' (Hu & Hs & Ha & Hh & Hd & Hr & Hi & ds & Hds & Hcs)%helpOnly_inv.
  rewrite !IsAvailableCommand_eq, Hh, Hd, Hi. unfold Runnable. rewrite Hr.
  simpl in *. destruct (negb (streq d "") || h); [done|]. destruct i; [done|].
  f_equal.
  assert (existsb IsAvailableCommand ds = existsb IsAvailableCommand cs) as Hex.
  { clear Hcs. induction Hds as [|x x' xs xs' Hx _ IHxs]; [done|].
    inversion IH; subst. simpl. f_equal; auto. }
  destruct Hcs as [Hcs | Hcs]; rewrite (existsb_perm _ _ _ Hcs); [done|].
  rewrite existsb_app, Hex. simpl. by rewrite !orb_false_r.
Qed.

Lemma helpOnly_not_helptopic c :
  ∀ c', helpOnly c c' →
        IsAdditionalHelpTopicCommand c = false → IsAdditionalHelpTopicCommand c' = false.
Proof.
  induction c as [u s l e a h d r g i lf pf cs IH] using Command_tree_ind.
  intros c' (Hu & Hs & Ha & Hh & Hd & Hr & Hi & ds & Hds & Hcs)%helpOnly_inv.
  rewrite !IsAdditionalHelpTopicCommand_eq, Hh, Hd. unfold Runnable. rewrite Hr.
  simpl in *. destruct (r || negb (streq d "") || h); [done|].
  intros (x & Hx & HPx)%forallb_false_elem. apply forallb_false_elem.
  assert (∃ x', x' ∈ ds ∧ IsAdditionalHelpTopicCommand x' = false) as (x' & Hx' & HPx').
  { clear Hcs. induction Hds as [|y y' ys ys' Hy _ IHys]; [by apply elem_of_nil in Hx|].
    inversion IH as [|? ? IHy IHrest]; subst.
    apply elem_of_cons in Hx as [-> | Hx].
    - exists y'. split; [by left|]. by apply IHy.
    - destruct (IHys IHrest Hx) as (x' & ? & ?). exists x'. split; [by right|done]. }
  exists x'. split; [|done].
  destruct Hcs as [-> | ->]; [done|]. apply elem_of_app. by left.
Qed.

Lemma helpOnly_documentable c c' :
  helpOnly c c' → isDocumentable c = true → isDocumentable c' = true.
Proof.
  intros Hh. unfold isDocumentable, annotation.
  rewrite (helpOnly_available c c' Hh).
  pose proof (helpOnly_not_helptopic c c' Hh) as Htopic.
  apply helpOnly_inv in Hh as (_ & _ & -> & _).
  intros [[-> Ht%negb_true_iff]%andb_true_iff ->]%andb_true_iff.
  by rewrite (Htopic Ht).
Qed.

Lemma helpOnly_visited c : helpOnly c (visited c).
Proof.
  induction c as [u s l e a h d r g i lf pf cs IH] using Command_tree_ind.
  rewrite visited_eq. apply helpOnly_Commands.
  apply (helpOnly_initialised _ _ (visitedChildren cs)).
  - simpl. unfold visitedChildren.
    induction IH as [|x xs Hx _ IHxs]; simpl; constructor; [|done].
    destruct (isDocumentable x); [done|apply helpOnly_refl].
  - simpl. unfold visitedChildren, sortByName. apply Permutation_map, sortOn_perm.
Qed.

Lemma filter_visitedChildren cs :
  List.filter isDocumentable (visitedChildren cs)
  = map visited (List.filter isDocumentable cs).
Proof.
  unfold visitedChildren. induction cs as [|c cs IH]; [done|]. simpl.
  destruct (isDocumentable c) eqn:Hc.
  - rewrite (helpOnly_documentable c (visited c) (helpOnly_visited c) Hc). simpl.
    by rewrite IH.
  - by rewrite Hc.
Qed.

Lemma CommandPath_visited parent c : CommandPath parent (visited c) = CommandPath parent c.
Proof.
  destruct (helpOnly_inv _ _ (helpOnly_visited c)) as (Hu & _).
  unfold CommandPath, Name. by rewrite Hu.
Qed.

Lemma Short_visited c : Short (visited c) = Short c.
Proof. by destruct (helpOnly_inv _ _ (helpOnly_visited c)) as (_ & ? & _). Qed.

(** The SEE ALSO entries do not see the walk: rendered from the children
    as the walker left them they are those of the children as supplied. *)
Lemma Name_visited c : Name (visited c) = Name c.
Proof. unfold Name. by rewrite Use_visited. Qed.

(** The documentable children of a command the walker has rendered, in
    the order of their names: those it had, visited. *)
Lemma filter_walked cmd cs :
  List.filter isDocumentable
    (sortByName (commands (initialised (with_commands cmd (visitedChildren cs)))))
  = map visited (List.filter isDocumentable (sortByName cs)).
Proof.
  unfold sortByName. rewrite sortOn_filter.
  rewrite commands_initialised_filter by apply help_not_documentable.
  cbn [commands with_commands]. rewrite filter_visitedChildren.
  rewrite <- (sortOn_map Name Name) by apply Name_visited.
  by rewrite sortOn_filter.
Qed.

(** The SEE ALSO entries do not see the walk: rendered from the children
    as the walker left them they are those of the children as supplied. *)
Lemma seeAlsoEntry_visited path c : seeAlsoEntry path (visited c) = seeAlsoEntry path c.
Proof.
  unfold seeAlsoEntry. cbv zeta. rewrite CommandPath_visited, Short_visited.
  f_equal. f_equal. rewrite visited_eq. unfold Commands. cbn [commands with_commands].
  rewrite sortByName_idem, filter_walked, sortByName_idem, map_map.
  apply map_ext. intros g. by rewrite CommandPath_visited, Short_visited.
Qed.

Lemma seeAlsoText_walked path cmd cs :
  seeAlsoText path
    (sortByName (commands (initialised (with_commands cmd (visitedChildren cs)))))
  = seeAlsoText path (sortByName cs).
Proof.
  unfold seeAlsoText. rewrite filter_walked, map_map. f_equal.
  apply map_ext. intros c. apply seeAlsoEntry_visited.
Qed.

(** ** The index and the pages *)

Lemma own_in_pageFiles parent cmd subdir basename :
  pageFile subdir basename ∈ pageFiles parent cmd subdir basename.
Proof. rewrite pageFiles_eq. apply elem_of_app. right. by left. Qed.

Lemma listFiles_filter path cs :
  listFiles path cs
  = concat (map (λ c, pageFiles (Some path) c formatdir
                        (derivedName (CommandPath (Some path) c)))
                (List.filter isDocumentable cs)).
Proof.
  induction cs as [|c cs IH]; [done|].
  change (listFiles path (c :: cs))
    with ((if isDocumentable c
           then pageFiles (Some path) c formatdir (derivedName (CommandPath (Some path) c))
           else []) ++ listFiles path cs).
  simpl List.filter. destruct (isDocumentable c); simpl; by rewrite IH.
Qed.

Lemma childFiles_filter path cs :
  childFiles path cs
  = concat (map (λ c, pageFiles (Some path) c formatdir
                        (derivedName (CommandPath (Some path) c)))
                (List.filter isDocumentable (sortByName cs))).
Proof. apply listFiles_filter. Qed.

Lemma childFiles_elem path cs c f :
  c ∈ List.filter isDocumentable cs →
  f ∈ pageFiles (Some path) c formatdir (derivedName (CommandPath (Some path) c)) →
  f ∈ childFiles path cs.
Proof.
  intros Hc Hf. rewrite childFiles_filter. apply list_elem_of_In, in_concat.
  eexists. split; [|apply list_elem_of_In; exact Hf].
  apply in_map_iff. exists c. split; [done|].
  apply list_elem_of_In, filter_In in Hc as [Hin Hdoc].
  apply filter_In. split; [|done].
  apply list_elem_of_In. apply sortOn_elem. by apply list_elem_of_In.
Qed.

Lemma generate_page_written `{Ext : Externals} parent cmd subdir basename w :
  (generate_page parent cmd subdir basename w).2 = Nil →
  ∃ page w2 w3,
    pageBuffer parent (initialised cmd) w2 = (page, w3, Nil)
    ∧ trace (generate_page parent cmd subdir basename w).1.2
      = trace w2 ++ [EWrite (pageFile subdir basename) page].
Proof.
  unfold generate_page. fold (pageFile subdir basename).
  destruct (os.Create _ w) as [w1|e]; [|done].
  rewrite Write_empty. cbv iota beta. intros Hnil.
  destruct (generateMarkdown_written _ _ _ _ Hnil) as (page & w3 & Hpage & _ & Ht & _).
  eauto.
Qed.

Lemma hidden_not_documentable c : Hidden c = true → isDocumentable c = false.
Proof.
  intros Hh. unfold isDocumentable. rewrite IsAvailableCommand_eq, Hh.
  by rewrite orb_true_r.
Qed.

Lemma filter_sorted_elem (P : Command → bool) cs c :
  c ∈ List.filter P (sortByName cs) ↔ c ∈ List.filter P cs.
Proof.
  rewrite !list_elem_of_In, !filter_In, <- !list_elem_of_In.
  unfold sortByName. by rewrite sortOn_elem.
Qed.

(** C8, as amended: the loops of the walker and of the SEE ALSO index
    skip the same commands, those that are not documentable, and all of
    them enumerate the children with [Commands()], which sorts them by
    name.  So the page of a command with children that [generate] has
    written ends with a SEE ALSO section that has, in the order of the
    names of the children (not in the order in which they were declared),
    one bullet for each documentable child and below it one nested bullet
    for each documentable child of that child, and none for other (or
    hidden) commands; each bullet links to the derived name of the command
    followed by [.md], and the run has written the page of that command
    under this file name in the directory of the formatter pages.  The
    pages the run creates below the command are those of exactly the
    children that have a bullet, in the order of the bullets. *)
Theorem see_also_matches_pages `{Ext : Externals}
    (parent : option string) (cmd : Command) (subdir basename : string) (w : World) :
  commands cmd ≠ [] →
  (generate parent cmd subdir basename w).2 = Nil →
  (∃ front back,
     last (trace (generate parent cmd subdir basename w).1.2)
     = Some (EWrite (pageFile subdir basename)
               (front +:+ ("### SEE ALSO" +:+ NL +:+ NL)
                +:+ seeAlsoText (CommandPath parent cmd) (sortByName (commands cmd))
                +:+ NL +:+ back)))
  ∧ Forall (λ c,
      pageFile formatdir (derivedName (CommandPath (Some (CommandPath parent cmd)) c))
        ∈ dom (files (generate parent cmd subdir basename w).1.2)
      ∧ Forall (λ g,
          pageFile formatdir
            (derivedName
               (CommandPath (Some (CommandPath (Some (CommandPath parent cmd)) c)) g))
            ∈ dom (files (generate parent cmd subdir basename w).1.2))
          (List.filter isDocumentable (sortByName (commands c))))
      (List.filter isDocumentable (sortByName (commands cmd)))
  ∧ created (trace (generate parent cmd subdir basename w).1.2)
    = created (trace w)
      ++ concat (map (λ c, pageFiles (Some (CommandPath parent cmd)) c formatdir
                             (derivedName (CommandPath (Some (CommandPath parent cmd)) c)))
                     (List.filter isDocumentable (sortByName (commands cmd))))
      ++ [pageFile subdir basename]
  ∧ (∀ c, Hidden c = true → isDocumentable c = false)
  ∧ (∀ path buf c, isDocumentable c = false →
       seeAlsoChild path buf c = buf ∧ seeAlsoGrandchild path buf c = buf).
Proof.
  intros Hcs Hnil.
  destruct (generate_spec cmd parent subdir basename w)
    as (_ & _ & evs & Ht & Hdom & _ & Hcalls).
  destruct (Hcalls Hnil) as [_ Hc].
  assert (created evs = pageFiles parent cmd subdir basename) as Hcr.
  { by rewrite created_calls, Hc, created_pageCalls. }
  split; [|split; [|split; [|split]]].
  - revert Hnil. rewrite generate_eq.
    destruct (generate_loop_spec (CommandPath parent cmd) (commands cmd) w)
      as (_ & _ & below & _ & _ & _ & Hloop).
    destruct (generate_loop generate _ (commands cmd) w) as [[cs1 w1] o].
    simpl in Hloop. destruct o; [|done..].
    pose proof (proj1 (Hloop eq_refl)) as Hcs1. clear Hloop. subst cs1.
    intros (page & w2 & w3 & Hpage & Htr)%generate_page_written.
    set (x := with_commands cmd (visitedChildren (sortByName (commands cmd)))) in *.
    destruct (pageBuffer_shape parent (initialised x) w2) as [front Hshape].
    cbv zeta in Hshape. rewrite Hpage in Hshape.
    assert ((List.length (commands (initialised x)) =? 0) = false) as Hlen.
    { destruct (initialised_attrs x) as (_ & _ & _ & -> & _).
      rewrite commands_InitDefaultHelpCmd. unfold x. cbn [commands with_commands].
      unfold visitedChildren.
      destruct (sortByName (commands cmd)) as [|c cs] eqn:Hsorted.
      { apply (f_equal (@List.length Command)) in Hsorted.
        unfold sortByName in Hsorted. rewrite sortOn_length in Hsorted.
        by destruct (commands cmd). }
      simpl map. cbv iota.
      unfold helpLast. destruct (removeHelpCommand _) as [others oh].
      rewrite length_app. simpl. apply Nat.eqb_neq. lia. }
    rewrite Hlen, printSeeAlso_eq, CommandPath_initialised in Hshape.
    unfold x in Hshape. rewrite seeAlsoText_walked, sortByName_idem in Hshape.
    change (CommandPath parent (with_commands cmd _)) with (CommandPath parent cmd) in Hshape.
    simpl in Hshape. rewrite Htr, last_snoc.
    exists front. destruct (negb _); injection Hshape as -> _.
    + eexists. by rewrite !sapp_assoc.
    + exists "". by rewrite ?sapp_assoc, sapp_nil_r.
  - rewrite Hdom, Hcr, pageFiles_eq.
    apply Forall_forall. intros c Hin. apply (proj1 (filter_sorted_elem _ _ _)) in Hin. split.
    + apply elem_of_union. right. apply elem_of_list_to_set, elem_of_app. left.
      eapply childFiles_elem; [done|]. apply own_in_pageFiles.
    + apply Forall_forall. intros g Hg. apply (proj1 (filter_sorted_elem _ _ _)) in Hg.
      apply elem_of_union. right. apply elem_of_list_to_set, elem_of_app. left.
      eapply childFiles_elem; [done|]. rewrite pageFiles_eq.
      apply elem_of_app. left. eapply childFiles_elem; [done|]. apply own_in_pageFiles.
  - by rewrite Ht, created_app, Hcr, pageFiles_eq, childFiles_filter.
  - apply hidden_not_documentable.
  - intros path buf c Hc'. by rewrite seeAlsoChild_eq, seeAlsoGrandchild_eq, Hc'.
Qed.

Lemma see_also_matches_pages_witness :
  (∃ front back,
     last (trace (generate (Ext := Scenario.registry) None Scenario.root ""
                    "FORMATS_GUIDE" Scenario.prepared).1.2)
     = Some (EWrite (pageFile "" "FORMATS_GUIDE")
               (front +:+ ("### SEE ALSO" +:+ NL +:+ NL)
                +:+ seeAlsoText (CommandPath None Scenario.root)
                    (sortByName (commands Scenario.root))
                +:+ NL +:+ back)))
  ∧ created (trace (generate (Ext := Scenario.registry) None Scenario.root ""
                      "FORMATS_GUIDE" Scenario.prepared).1.2)
    = created (trace Scenario.prepared)
      ++ concat (map (λ c, pageFiles (Some (CommandPath None Scenario.root)) c formatdir
                             (derivedName
                                (CommandPath (Some (CommandPath None Scenario.root)) c)))
                     (List.filter isDocumentable (sortByName (commands Scenario.root))))
      ++ [pageFile "" "FORMATS_GUIDE"].
Proof.
  destruct (see_also_matches_pages (Ext := Scenario.registry) None Scenario.root ""
              "FORMATS_GUIDE" Scenario.prepared) as (Hpage & _ & Hcreated & _).
  - simpl. discriminate.
  - vm_compute. reflexivity.
  - exact (conj Hpage Hcreated).
Defined.

(** The formatters of [unsorted] were added as [pretty], then [json]: the
    run writes the page of [json] first, and the guide lists [json]
    first; the index in the declared order is not in the guide. *)
Lemma see_also_is_not_in_declared_order :
  map Name (commands unsorted) = ["pretty"; "json"]
  ∧ (generate (Ext := Scenario.registry) None unsorted "" "FORMATS_GUIDE"
       Scenario.prepared).2 = Nil
  ∧ (∃ page,
       last (trace (generate (Ext := Scenario.registry) None unsorted ""
                      "FORMATS_GUIDE" Scenario.prepared).1.2)
       = Some (EWrite "docs/FORMATS_GUIDE.md" page)
       ∧ List.filter (λ l, strings.HasPrefix l "* [") (lines page)
         = ["* [terraform-docs json](/docs/formats/json.md)" +:+ HT
              +:+ " - Generate JSON of inputs and outputs";
            "* [terraform-docs pretty](/docs/formats/pretty.md)" +:+ HT
              +:+ " - Generate colorized pretty of inputs and outputs"]
       ∧ Contains page (seeAlsoText "terraform-docs" (commands unsorted)) = false
       ∧ Contains page (seeAlsoText "terraform-docs" (sortByName (commands unsorted)))
         = true)
  ∧ created (trace (generate (Ext := Scenario.registry) None unsorted ""
                      "FORMATS_GUIDE" Scenario.prepared).1.2)
    = ["docs/formats/json.md"; "docs/formats/pretty.md"; "docs/FORMATS_GUIDE.md"].
Proof.
  split; [by vm_compute|]. split; [by vm_compute|]. split; [|by vm_compute].
  eexists. split; [vm_compute; reflexivity|]. by vm_compute.
Qed.

Example see_also_of_the_scenario :
  seeAlsoText "terraform-docs" (commands Scenario.root)
  = "* [terraform-docs json](/docs/formats/json.md)" +:+ HT
    +:+ " - Generate JSON of inputs and outputs" +:+ NL
    +:+ "* [terraform-docs markdown](/docs/formats/markdown.md)" +:+ HT
    +:+ " - Generate Markdown of inputs and outputs" +:+ NL
    +:+ "  * [terraform-docs markdown table](/docs/formats/markdown-table.md)" +:+ HT
    +:+ " - Generate Markdown tables of inputs and outputs" +:+ NL
    +:+ "* [terraform-docs pretty](/docs/formats/pretty.md)" +:+ HT
    +:+ " - Generate colorized pretty of inputs and outputs" +:+ NL.
Proof. vm_compute. reflexivity. Qed.

(** * Further properties of the generator *)

(** ** File names and formatter names *)

Lemma absent_replace_from ch old new k s :
  absent ch new = true → absent ch s = true →
  absent ch (strings.replace_from old new k s) = true.
Proof.
  intros Hnew. revert k. induction s as [|c s IH]; intros k Hs; [done|].
  simpl in Hs. apply andb_true_iff in Hs as [Hc Hs].
  destruct k as [|k]; [|by apply IH].
  rewrite replace_from_cons_0. destruct (strings.HasPrefix _ _).
  - rewrite absent_app, Hnew. by apply IH.
  - simpl. rewrite Hc. by apply IH.
Qed.

Lemma replace_space_cons c s :
  strings.replace_from " " "-" 0 (String c s)
  = (if Ascii.eqb c SPACE then "-" else String c "")
    +:+ strings.replace_from " " "-" 0 s.
Proof.
  rewrite replace_from_cons_0. unfold strings.HasPrefix.
  change " " with (String SPACE ""). rewrite str_prefix_cons, str_prefix_nil.
  destruct (ascii_dec SPACE c) as [<-|Hne]; [done|].
  destruct (Ascii.eqb_spec c SPACE) as [->|_]; [done|done].
Qed.

Lemma absent_replace_space s :
  absent SPACE (strings.replace_from " " "-" 0 s) = true.
Proof.
  induction s as [|c s IH]; [done|]. rewrite replace_space_cons, absent_app, IH.
  destruct (Ascii.eqb c SPACE) eqn:Hc; [done|]. simpl. by rewrite Hc.
Qed.

Lemma replace_space_app a b :
  strings.replace_from " " "-" 0 (a +:+ b)
  = strings.replace_from " " "-" 0 a +:+ strings.replace_from " " "-" 0 b.
Proof.
  induction a as [|c a IH]; [done|].
  by rewrite sapp_cons, !replace_space_cons, IH, sapp_assoc.
Qed.

Lemma dropS_app s t : dropS (String.length s) (s +:+ t) = t.
Proof. induction s as [|c s IH]; [by destruct t|]. by rewrite sapp_cons. Qed.

(** Removing a pattern from a text that starts with it and has it nowhere
    else leaves the rest. *)
Lemma replace_from_leading old rest :
  old ≠ "" → Contains rest old = false →
  strings.replace_from old "" 0 (old +:+ rest) = rest.
Proof.
  intros Hold Hrest. destruct old as [|c o]; [done|].
  rewrite sapp_cons, replace_from_cons_0. unfold strings.HasPrefix.
  rewrite <- sapp_cons, str_prefix_app, sapp_nil_l, replace_from_skip.
  replace (String.length (String c o) - 1) with (String.length o) by (simpl; lia).
  rewrite dropS_app. by apply replace_from_absent.
Qed.

Lemma absent_derivedName ch cname :
  absent ch "-" = true → absent ch cname = true → absent ch (derivedName cname) = true.
Proof.
  intros Hh Hs. rewrite derivedName_unfold. apply absent_replace_from; [done|].
  by apply absent_replace_from.
Qed.

(** X1: a derived file name has no space in it, whatever the command path,
    and it has a slash only when the command path has one. *)
Theorem derivedName_no_space (cname : string) :
  absent SPACE (derivedName cname) = true
  ∧ (absent SLASH cname = true → absent SLASH (derivedName cname) = true).
Proof.
  split.
  - rewrite derivedName_unfold. apply absent_replace_from; [done|].
    apply absent_replace_space.
  - by apply absent_derivedName.
Qed.

Lemma derivedName_no_space_witness :
  absent SPACE (derivedName "terraform-docs markdown table") = true
  ∧ absent SLASH (derivedName "terraform-docs markdown table") = true.
Proof.
  destruct (derivedName_no_space "terraform-docs markdown table") as [Hsp Hsl].
  split; [exact Hsp|]. apply Hsl. vm_compute. reflexivity.
Defined.

(** X2: for a command below the root [terraform-docs] the page is named
    after the formatter: when the program name does not occur again, the
    formatter looked up for the example is the command path below the
    root, and the derived file name is this formatter name with its spaces
    replaced by hyphens. *)
Theorem page_named_after_formatter (rest : string) :
  Contains rest "terraform-docs " = false →
  Contains (strings.ReplaceAll rest " " "-") "terraform-docs-" = false →
  strings.ReplaceAll ("terraform-docs " +:+ rest) "terraform-docs " "" = rest
  ∧ derivedName ("terraform-docs " +:+ rest) = strings.ReplaceAll rest " " "-".
Proof.
  intros Hrest Hhyph. split.
  - by apply replace_from_leading.
  - rewrite derivedName_unfold.
    change (strings.ReplaceAll ("terraform-docs " +:+ rest) " " "-")
      with (strings.replace_from " " "-" 0 ("terraform-docs " +:+ rest)).
    rewrite replace_space_app.
    change (strings.replace_from " " "-" 0 "terraform-docs ") with "terraform-docs-".
    by apply replace_from_leading.
Qed.

Lemma page_named_after_formatter_witness :
  strings.ReplaceAll ("terraform-docs " +:+ "markdown table") "terraform-docs " ""
  = "markdown table"
  ∧ derivedName ("terraform-docs " +:+ "markdown table")
    = strings.ReplaceAll "markdown table" " " "-".
Proof.
  apply (page_named_after_formatter "markdown table"); vm_compute; reflexivity.
Defined.

(** ** Where the pages are *)

Lemma SplitByte_single s sep : absent sep s = true → strings.SplitByte s sep = [s].
Proof.
  induction s as [|c s IH]; [done|]. simpl absent.
  intros [Hc Hs]%andb_true_iff. apply negb_true_iff in Hc.
  by rewrite SplitByte_cons, Hc, IH.
Qed.

Lemma clean_step_plain rooted stack e :
  e ≠ "" → e ≠ "." → e ≠ ".." → filepath.clean_step rooted stack e = e :: stack.
Proof.
  intros H1 H2 H3. unfold filepath.clean_step.
  apply streq_false in H1, H2, H3. by rewrite H1, H2, H3.
Qed.

Lemma length_ne (s t : string) : String.length s ≠ String.length t → s ≠ t.
Proof. by intros Hl ->. Qed.

(** The file of a formatter page whose name has no slash. *)
Lemma pageFile_formats b :
  absent SLASH b = true → pageFile formatdir b = "docs/formats/" +:+ b +:+ ".md".
Proof.
  intros Hb. unfold pageFile, filepath.Join.
  change (streq ("." +:+ basedir) "") with false. cbv iota.
  set (e := b +:+ ".md").
  assert (He : absent SLASH e = true) by (unfold e; by rewrite absent_app, Hb).
  assert (Hlen : 3 ≤ String.length e) by (unfold e; rewrite slength_app; simpl; lia).
  change (strings.Join ["." +:+ basedir; formatdir; e] "/")
    with (String "." (String "/" (String "d" (String "o" (String "c" (String "s"
            (String "/" (String "/" (String "f" (String "o" (String "r" (String "m"
            (String "a" (String "t" (String "s" (String "/" e)))))))))))))))).
  unfold filepath.Clean.
  change (Ascii.eqb "." SLASH) with false. cbv zeta.
  rewrite !SplitByte_cons. simpl Ascii.eqb. cbv iota.
  rewrite (SplitByte_single e SLASH He). cbv iota.
  change [String "." ""; String "d" (String "o" (String "c" (String "s" "")));
          ""; String "f" (String "o" (String "r" (String "m" (String "a"
                (String "t" (String "s" "")))))); e]
    with (["."; "docs"; ""; "formats"] ++ [e]).
  rewrite fold_left_app.
  change (fold_left (filepath.clean_step false) ["."; "docs"; ""; "formats"] [])
    with ["formats"; "docs"].
  simpl fold_left. rewrite clean_step_plain; [|apply length_ne; simpl; lia..].
  simpl rev. simpl strings.Join. cbv iota.
  by rewrite (proj2 (streq_false _ "")).
Qed.

(** X3: the page of a command whose path has no slash is the file
    [docs/formats/<derived name>.md], and the link both SEE ALSO loops
    write for a documentable command is a slash followed by exactly this
    file, so the links of an index resolve, from the root of the
    repository, to the pages the walker writes. *)
Theorem links_point_at_pages (path buf : string) (c : Command) :
  isDocumentable c = true →
  absent SLASH (CommandPath (Some path) c) = true →
  pageFile formatdir (derivedName (CommandPath (Some path) c))
  = "docs/formats/" +:+ derivedName (CommandPath (Some path) c) +:+ ".md"
  ∧ seeAlsoGrandchild path buf c
    = buf +:+ "  * [" +:+ CommandPath (Some path) c +:+ "](/"
      +:+ pageFile formatdir (derivedName (CommandPath (Some path) c))
      +:+ ")" +:+ HT +:+ " - " +:+ Short c +:+ NL
  ∧ ∃ nested,
      seeAlsoChild path buf c
      = buf +:+ "* [" +:+ CommandPath (Some path) c +:+ "](/"
        +:+ pageFile formatdir (derivedName (CommandPath (Some path) c))
        +:+ ")" +:+ HT +:+ " - " +:+ Short c +:+ NL +:+ nested.
Proof.
  intros Hdoc Hslash.
  assert (Hfile := pageFile_formats _ (absent_derivedName SLASH _ eq_refl Hslash)).
  split; [exact Hfile|]. rewrite Hfile. split.
  - rewrite seeAlsoGrandchild_eq, Hdoc. unfold seeAlsoBullet.
    by rewrite !sapp_assoc.
  - rewrite seeAlsoChild_eq, Hdoc. unfold seeAlsoEntry, seeAlsoBullet. cbv zeta.
    eexists. rewrite !sapp_assoc. reflexivity.
Qed.

Lemma links_point_at_pages_witness :
  pageFile formatdir (derivedName (CommandPath (Some "terraform-docs") Scenario.json))
  = "docs/formats/" +:+ derivedName (CommandPath (Some "terraform-docs") Scenario.json)
    +:+ ".md"
  ∧ seeAlsoGrandchild "terraform-docs" "" Scenario.json
    = "" +:+ "  * [" +:+ CommandPath (Some "terraform-docs") Scenario.json +:+ "](/"
      +:+ pageFile formatdir (derivedName (CommandPath (Some "terraform-docs") Scenario.json))
      +:+ ")" +:+ HT +:+ " - " +:+ Short Scenario.json +:+ NL
  ∧ ∃ nested,
      seeAlsoChild "terraform-docs" "" Scenario.json
      = "" +:+ "* [" +:+ CommandPath (Some "terraform-docs") Scenario.json +:+ "](/"
        +:+ pageFile formatdir
              (derivedName (CommandPath (Some "terraform-docs") Scenario.json))
        +:+ ")" +:+ HT +:+ " - " +:+ Short Scenario.json +:+ NL +:+ nested.
Proof.
  apply (links_point_at_pages "terraform-docs" "" Scenario.json);
    vm_compute; reflexivity.
Defined.

(** ** The sections of a page *)

Section Sections.
Context `{Ext : Externals}.

Lemma printOptions_eq buf cmd name :
  printOptions buf cmd name
  = (buf
     +:+ (if HasAvailableFlags (LocalFlags cmd)
          then optionsSection "### Options" (LocalFlags cmd) else "")
     +:+ (if HasAvailableFlags (ParentFlags cmd)
          then optionsSection "### Options inherited from parent commands"
                 (ParentFlags cmd)
          else ""), Nil).
Proof.
  unfold printOptions, optionsSection.
  destruct (HasAvailableFlags (LocalFlags cmd)), (HasAvailableFlags (ParentFlags cmd));
    by rewrite ?sapp_assoc, ?sapp_nil_r.
Qed.

(** The part of a page before the options: the head, the usage line of a
    runnable command, the examples of a command that has some. *)
Lemma pageBuffer_exact parent cmd w :
  pageBuffer parent cmd w
  = (let front :=
       pageHead parent cmd
       +:+ (if Runnable cmd then fenced (UseLine parent cmd) else "")
       +:+ (if 0 <? String.length (ExampleText cmd)
            then ("### Examples" +:+ NL +:+ NL) +:+ fenced (ExampleText cmd) else "")
       +:+ (if HasAvailableFlags (LocalFlags cmd)
            then optionsSection "### Options" (LocalFlags cmd) else "")
       +:+ (if HasAvailableFlags (ParentFlags cmd)
            then optionsSection "### Options inherited from parent commands"
                   (ParentFlags cmd)
            else "") in
     let section :=
       if List.length (commands cmd) =? 0
       then printExample front (CommandPath parent cmd)
       else printSeeAlso front (CommandPath parent cmd) (sortByName (commands cmd)) in
     match section.2 with
     | Nil =>
         if negb (DisableAutoGenTag cmd)
         then (section.1 +:+ attribution (Now (ticks w)), tick w, Nil)
         else (section.1, w, Nil)
     | o => (section.1, w, o)
     end).
Proof.
  unfold pageBuffer. rewrite printOptions_eq. cbv zeta.
  match goal with
  | |- (let '(_, _) := if _ then printExample ?b _ else _ in _) = _ =>
      assert (b = pageHead parent cmd
                  +:+ (if Runnable cmd then fenced (UseLine parent cmd) else "")
                  +:+ (if 0 <? String.length (ExampleText cmd)
                       then ("### Examples" +:+ NL +:+ NL) +:+ fenced (ExampleText cmd)
                       else "")
                  +:+ (if HasAvailableFlags (LocalFlags cmd)
                       then optionsSection "### Options" (LocalFlags cmd) else "")
                  +:+ (if HasAvailableFlags (ParentFlags cmd)
                       then optionsSection "### Options inherited from parent commands"
                              (ParentFlags cmd)
                       else "")) as ->
  end.
  { unfold pageHead. destruct (Runnable cmd), (0 <? String.length (ExampleText cmd));
      by rewrite ?sapp_assoc, ?sapp_nil_r. }
  unfold Commands. cbn [commands with_commands].
  unfold sortByName at 1. rewrite sortOn_length. fold (sortByName (commands cmd)).
  destruct (if List.length (commands cmd) =? 0 then _ else _) as [buf o].
  by destruct o.
Qed.

Lemma initialised_texts c :
  Long (initialised c) = Long c ∧ ExampleText (initialised c) = ExampleText c
  ∧ HasRun (initialised c) = HasRun c.
Proof.
  unfold initialised, withHelpFlag, InitDefaultHelpCmd.
  destruct (commands c); by destruct (existsb _ _).
Qed.

Lemma pageHead_initialised parent c :
  pageHead parent (initialised c) = pageHead parent c.
Proof.
  unfold pageHead. rewrite CommandPath_initialised.
  destruct (initialised_attrs c) as (_ & -> & _).
  by destruct (initialised_texts c) as (-> & _).
Qed.

Lemma printExample_extends buf name : ∃ x, (printExample buf name).1 = buf +:+ x.
Proof.
  unfold printExample.
  destruct (Factory _ _) as [printer|e]; [|eexists; simpl; by rewrite !sapp_assoc].
  destruct (LoadWithOptions _) as [m|e]; [|eexists; simpl; by rewrite !sapp_assoc].
  destruct (Print _ _ _) as [output|e]; [|eexists; simpl; by rewrite !sapp_assoc].
  eexists. simpl. rewrite fold_writeSegment. by rewrite !sapp_assoc.
Qed.

(** Whatever a page goes on with, it is appended to the part before the
    terminal section. *)
Lemma pageBuffer_extends parent cmd w :
  ∃ rest,
    (pageBuffer parent cmd w).1.1
    = pageHead parent cmd
      +:+ (if Runnable cmd then fenced (UseLine parent cmd) else "")
      +:+ (if 0 <? String.length (ExampleText cmd)
           then ("### Examples" +:+ NL +:+ NL) +:+ fenced (ExampleText cmd) else "")
      +:+ (if HasAvailableFlags (LocalFlags cmd)
           then optionsSection "### Options" (LocalFlags cmd) else "")
      +:+ (if HasAvailableFlags (ParentFlags cmd)
           then optionsSection "### Options inherited from parent commands"
                  (ParentFlags cmd)
           else "")
      +:+ rest.
Proof.
  rewrite pageBuffer_exact. cbv zeta.
  match goal with |- context [printExample ?b ?n] => set (front := b) end.
  assert (∃ x, (if List.length (commands cmd) =? 0
                then printExample front (CommandPath parent cmd)
                else printSeeAlso front (CommandPath parent cmd) (sortByName (commands cmd))).1
               = front +:+ x) as [x Hx].
  { destruct (List.length (commands cmd) =? 0); [apply printExample_extends|].
    rewrite printSeeAlso_eq. eexists. simpl. reflexivity. }
  destruct (if List.length (commands cmd) =? 0 then _ else _) as [buf o].
  simpl in Hx. subst buf. unfold front.
  destruct o; [destruct (negb _)|..]; simpl; eexists; by rewrite ?sapp_assoc.
Qed.

End Sections.

Section Pages.
Context `{Ext : Externals}.

Lemma LocalFlags_initialised c :
  LocalFlags (initialised c)
  = if existsb (λ f, streq (flag_Name f) "help") (LocalFlags c ++ ParentFlags c)
    then LocalFlags c
    else LocalFlags c ++ [defaultHelpFlag c].
Proof.
  unfold initialised, withHelpFlag.
  destruct (InitDefaultHelpCmd_attrs c) as (Hu & _ & _ & Hl & Hp).
  rewrite Hl, Hp.
  destruct (existsb _ _); [done|]. simpl. f_equal.
  unfold defaultHelpFlag, Name. by rewrite Hu.
Qed.

Lemma initialised_has_children c :
  commands c ≠ [] → (List.length (commands (initialised c)) =? 0) = false.
Proof.
  intros Hcs. destruct (initialised_attrs c) as (_ & _ & _ & -> & _).
  rewrite commands_InitDefaultHelpCmd.
  destruct (commands c) as [|d ds]; [done|].
  unfold helpLast. destruct (removeHelpCommand _) as [others oh].
  rewrite length_app. simpl. apply Nat.eqb_neq. lia.
Qed.

(** The page [generateMarkdown] writes is the buffer of the initialised
    command. *)
Lemma written_page parent cmd filename w :
  (generateMarkdown parent cmd filename w).2 = Nil →
  trace (generateMarkdown parent cmd filename w).1.2
  = trace w ++ [EWrite filename (pageBuffer parent (initialised cmd) w).1.1]
  ∧ (pageBuffer parent (initialised cmd) w).2 = Nil.
Proof.
  intros (page & w1 & Hpage & _ & Ht & _)%generateMarkdown_written.
  by rewrite Hpage.
Qed.

End Pages.

(** X4: every page starts with the title (the full command path) and the
    short description, followed by the synopsis, which is the long
    description, or the short description again when the command has no
    long description. *)
Theorem page_starts_with_synopsis `{Ext : Externals}
    (parent : option string) (cmd : Command) (filename : string) (w : World) :
  (generateMarkdown parent cmd filename w).2 = Nil →
  ∃ rest,
    trace (generateMarkdown parent cmd filename w).1.2
    = trace w ++ [EWrite filename
                    (("## " +:+ CommandPath parent cmd +:+ NL +:+ NL)
                     +:+ (Short cmd +:+ NL +:+ NL)
                     +:+ ("### Synopsis" +:+ NL +:+ NL)
                     +:+ ((if String.length (Long cmd) =? 0 then Short cmd else Long cmd)
                          +:+ NL +:+ NL)
                     +:+ rest)].
Proof.
  intros [Ht _]%written_page.
  destruct (pageBuffer_extends parent (initialised cmd) w) as [rest Hrest].
  rewrite Ht, Hrest, pageHead_initialised. unfold pageHead.
  eexists. rewrite !sapp_assoc. reflexivity.
Qed.

Lemma page_starts_with_synopsis_witness :
  ∃ rest,
    trace (generateMarkdown (Ext := Scenario.registry) (Some "terraform-docs")
             Scenario.json "docs/formats/json.md" Scenario.prepared).1.2
    = trace Scenario.prepared
      ++ [EWrite "docs/formats/json.md"
            (("## " +:+ CommandPath (Some "terraform-docs") Scenario.json +:+ NL +:+ NL)
             +:+ (Short Scenario.json +:+ NL +:+ NL)
             +:+ ("### Synopsis" +:+ NL +:+ NL)
             +:+ ((if String.length (Long Scenario.json) =? 0
                   then Short Scenario.json else Long Scenario.json)
                  +:+ NL +:+ NL)
             +:+ rest)].
Proof.
  apply (page_starts_with_synopsis (Ext := Scenario.registry) (Some "terraform-docs")
           Scenario.json "docs/formats/json.md" Scenario.prepared).
  vm_compute. reflexivity.
Defined.

(** X5: a command without a flag named [help], among its own and its
    inherited flags, gets the default help flag before its page is
    rendered, so a page that is written always has an Options section,
    right after the head, the usage line and the examples, and this
    section is what pflag prints ([FlagUsages]) for the flag set that
    holds the own flags and the help flag.  (In which order pflag lists
    the flags of the set is pflag's matter; where the shorthand [h] is
    taken already, cobra panics and no page is written.) *)
Theorem help_flag_gives_options `{Ext : Externals}
    (parent : option string) (cmd : Command) (filename : string) (w : World) :
  existsb (λ f, streq (flag_Name f) "help") (LocalFlags cmd ++ ParentFlags cmd) = false →
  (generateMarkdown parent cmd filename w).2 = Nil →
  ∃ after,
    trace (generateMarkdown parent cmd filename w).1.2
    = trace w ++ [EWrite filename
                    (pageHead parent cmd
                     +:+ (if Runnable cmd
                          then fenced (UseLine parent (initialised cmd)) else "")
                     +:+ (if 0 <? String.length (ExampleText cmd)
                          then ("### Examples" +:+ NL +:+ NL) +:+ fenced (ExampleText cmd)
                          else "")
                     +:+ ("### Options" +:+ NL +:+ NL +:+ "```" +:+ NL)
                     +:+ FlagUsages (LocalFlags cmd ++ [defaultHelpFlag cmd])
                     +:+ ("```" +:+ NL +:+ NL)
                     +:+ after)].
Proof.
  intros Hhelp [Ht _]%written_page.
  destruct (pageBuffer_extends parent (initialised cmd) w) as [rest Hrest].
  rewrite Ht, Hrest, pageHead_initialised, LocalFlags_initialised, Hhelp.
  destruct (initialised_texts cmd) as (_ & -> & Hrun). unfold Runnable. rewrite Hrun.
  assert (HasAvailableFlags (LocalFlags cmd ++ [defaultHelpFlag cmd]) = true) as ->.
  { unfold HasAvailableFlags. rewrite existsb_app. simpl. by rewrite !orb_true_r. }
  unfold optionsSection. eexists. rewrite !sapp_assoc. reflexivity.
Qed.

Lemma help_flag_gives_options_witness :
  ∃ after,
    trace (generateMarkdown (Ext := Scenario.registry) (Some "terraform-docs")
             Scenario.json "docs/formats/json.md" Scenario.prepared).1.2
    = trace Scenario.prepared
      ++ [EWrite "docs/formats/json.md"
            (pageHead (Some "terraform-docs") Scenario.json
             +:+ (if Runnable Scenario.json
                  then fenced (@UseLine Scenario.registry (Some "terraform-docs") (initialised Scenario.json))
                  else "")
             +:+ (if 0 <? String.length (ExampleText Scenario.json)
                  then ("### Examples" +:+ NL +:+ NL) +:+ fenced (ExampleText Scenario.json)
                  else "")
             +:+ ("### Options" +:+ NL +:+ NL +:+ "```" +:+ NL)
             +:+ @FlagUsages Scenario.registry (LocalFlags Scenario.json ++ [defaultHelpFlag Scenario.json])
             +:+ ("```" +:+ NL +:+ NL)
             +:+ after)].
Proof.
  apply (help_flag_gives_options (Ext := Scenario.registry) (Some "terraform-docs")
           Scenario.json "docs/formats/json.md" Scenario.prepared);
    vm_compute; reflexivity.
Defined.

Lemma HasPrefix_app s t p :
  strings.HasPrefix s p = true → strings.HasPrefix (s +:+ t) p = true.
Proof.
  unfold strings.HasPrefix. revert s. induction p as [|a p IH]; intros s.
  - intros _. apply str_prefix_nil.
  - destruct s as [|b s]; [done|]. rewrite sapp_cons, !str_prefix_cons.
    destruct (ascii_dec a b); [apply IH|done].
Qed.

(** X6: the Options sections are left out only when no flag is shown: for a
    command whose own and inherited flags are all hidden, one of them named
    [help], the final section (Example or SEE ALSO) follows the head, the
    usage line and the examples directly. *)
Theorem hidden_flags_give_no_options `{Ext : Externals}
    (parent : option string) (cmd : Command) (filename : string) (w : World) :
  HasAvailableFlags (LocalFlags cmd) = false →
  HasAvailableFlags (ParentFlags cmd) = false →
  existsb (λ f, streq (flag_Name f) "help") (LocalFlags cmd ++ ParentFlags cmd) = true →
  (generateMarkdown parent cmd filename w).2 = Nil →
  ∃ final,
    trace (generateMarkdown parent cmd filename w).1.2
    = trace w ++ [EWrite filename
                    (pageHead parent cmd
                     +:+ (if Runnable cmd
                          then fenced (UseLine parent (initialised cmd)) else "")
                     +:+ (if 0 <? String.length (ExampleText cmd)
                          then ("### Examples" +:+ NL +:+ NL) +:+ fenced (ExampleText cmd)
                          else "")
                     +:+ final)]
    ∧ (strings.HasPrefix final ("### Example" +:+ NL +:+ NL) = true
       ∨ strings.HasPrefix final ("### SEE ALSO" +:+ NL +:+ NL) = true).
Proof.
  intros Hl Hp Hhelp [Ht Hnil]%written_page.
  rewrite Ht. rewrite pageBuffer_exact in Hnil |- *.
  rewrite pageHead_initialised, LocalFlags_initialised, Hhelp, Hl in Hnil |- *.
  destruct (initialised_attrs cmd) as (_ & _ & _ & _ & HP).
  destruct (initialised_texts cmd) as (_ & HE & Hrun).
  unfold Runnable in *. rewrite HP, Hp, HE, Hrun in Hnil |- *.
  cbv zeta in Hnil |- *. rewrite !sapp_nil_r in Hnil |- *.
  set (front := pageHead parent cmd +:+ _ +:+ _) in Hnil |- *.
  destruct (List.length (commands (initialised cmd)) =? 0).
  - destruct (printExample front (CommandPath parent (initialised cmd))) as [s o] eqn:Hex.
    cbn [fst snd] in Hnil |- *. destruct o; [|discriminate Hnil..].
    assert ((printExample front (CommandPath parent (initialised cmd))).2 = Nil) as Ho
      by (by rewrite Hex).
    destruct (printExample_Nil _ _ Ho) as (printer & tfmodule & output & HF & HL & HPr).
    rewrite (printExample_Ok _ _ _ _ _ HF HL HPr) in Hex. injection Hex as <-.
    exists ((exampleIntro (CommandPath parent (initialised cmd))
             +:+ unlines (map indented (lines output)) +:+ NL)
            +:+ (if negb (DisableAutoGenTag (initialised cmd))
                 then attribution (Now (ticks w)) else "")).
    split.
    + destruct (negb _); cbn [fst snd]; unfold front;
        rewrite ?sapp_nil_r, ?sapp_assoc; reflexivity.
    + left. do 2 apply HasPrefix_app. apply exampleIntro_heading.
  - rewrite printSeeAlso_eq. cbn [fst snd].
    exists ((("### SEE ALSO" +:+ NL +:+ NL)
             +:+ seeAlsoText (CommandPath parent (initialised cmd))
                   (sortByName (commands (initialised cmd))) +:+ NL)
            +:+ (if negb (DisableAutoGenTag (initialised cmd))
                 then attribution (Now (ticks w)) else "")).
    split.
    + destruct (negb _); cbn [fst snd]; unfold front;
        rewrite ?sapp_nil_r, ?sapp_assoc; reflexivity.
    + right. apply HasPrefix_app. apply str_prefix_app.
Qed.

Lemma hidden_flags_give_no_options_witness :
  ∃ final,
    trace (generateMarkdown (Ext := Scenario.registry) (Some "terraform-docs")
             quiet "docs/formats/json.md" Scenario.prepared).1.2
    = trace Scenario.prepared
      ++ [EWrite "docs/formats/json.md"
            (pageHead (Some "terraform-docs") quiet
             +:+ (if Runnable quiet
                  then fenced (@UseLine Scenario.registry (Some "terraform-docs")
                                 (initialised quiet))
                  else "")
             +:+ (if 0 <? String.length (ExampleText quiet)
                  then ("### Examples" +:+ NL +:+ NL) +:+ fenced (ExampleText quiet)
                  else "")
             +:+ final)]
    ∧ (strings.HasPrefix final ("### Example" +:+ NL +:+ NL) = true
       ∨ strings.HasPrefix final ("### SEE ALSO" +:+ NL +:+ NL) = true).
Proof.
  apply (hidden_flags_give_no_options (Ext := Scenario.registry) (Some "terraform-docs")
           quiet "docs/formats/json.md" Scenario.prepared);
    vm_compute; reflexivity.
Defined.



(** Without the flag [--host/-h] the guide of the scenario is written,
    also when no example module loads. *)
Example index_page_of_the_scenario :
  (generateMarkdown (Ext := Scenario.brokenModule) None Scenario.root
     "docs/FORMATS_GUIDE.md" Scenario.prepared).2 = Nil.
Proof. vm_compute. reflexivity. Qed.

(** X8: a command with subcommands of which none is documentable gets a
    SEE ALSO section without entries, not an Example section: the heading
    is followed by one empty line and the attribution. *)
Theorem index_without_documentable_children `{Ext : Externals}
    (parent : option string) (cmd : Command) (filename : string) (w : World) :
  commands cmd ≠ [] →
  List.filter isDocumentable (commands cmd) = [] →
  (generateMarkdown parent cmd filename w).2 = Nil →
  ∃ front,
    trace (generateMarkdown parent cmd filename w).1.2
    = trace w ++ [EWrite filename
                    (front +:+ ("### SEE ALSO" +:+ NL +:+ NL) +:+ NL
                     +:+ (if DisableAutoGenTag cmd then ""
                          else attribution (Now (ticks w))))].
Proof.
  intros Hcs%initialised_has_children Hnone [Ht _]%written_page.
  rewrite Ht, pageBuffer_exact. cbv zeta. rewrite Hcs.
  match goal with |- context [printSeeAlso ?f _ _] => exists f; generalize f; intros front end.
  rewrite printSeeAlso_eq. cbn [fst snd]. unfold seeAlsoText, sortByName.
  rewrite sortOn_filter, (commands_initialised_filter isDocumentable), Hnone
    by apply help_not_documentable.
  destruct (initialised_attrs cmd) as (_ & _ & -> & _ & _).
  destruct (DisableAutoGenTag cmd); cbn [negb fst snd concatAll map];
    rewrite ?sapp_nil_r, ?sapp_nil_l, ?sapp_assoc; reflexivity.
Qed.

Lemma index_without_documentable_children_witness :
  ∃ front,
    trace (generateMarkdown (Ext := Scenario.registry) None Scenario.nested
             "docs/FORMATS_GUIDE.md" Scenario.prepared).1.2
    = trace Scenario.prepared
      ++ [EWrite "docs/FORMATS_GUIDE.md"
            (front +:+ ("### SEE ALSO" +:+ NL +:+ NL) +:+ NL
             +:+ (if DisableAutoGenTag Scenario.nested then ""
                  else attribution (@Now Scenario.registry (ticks Scenario.prepared))))].
Proof.
  apply (index_without_documentable_children (Ext := Scenario.registry) None
           Scenario.nested "docs/FORMATS_GUIDE.md" Scenario.prepared);
    [discriminate | vm_compute; reflexivity | vm_compute; reflexivity].
Defined.

(** ** The contents of the files *)

Section Files.
Context `{Ext : Externals}.

(** The page depends on the world through the clock only. *)
Lemma pageBuffer_ticks parent cmd w w' :
  ticks w = ticks w' →
  (pageBuffer parent cmd w).1.1 = (pageBuffer parent cmd w').1.1
  ∧ (pageBuffer parent cmd w).2 = (pageBuffer parent cmd w').2.
Proof.
  intros Ht. rewrite !pageBuffer_exact. cbv zeta. rewrite Ht.
  destruct (if List.length (commands cmd) =? 0 then _ else _) as [s o].
  cbn [fst snd]. destruct o; [|done..]. by destruct (negb _).
Qed.

Lemma Write_files name data w f :
  f ≠ name → files (os.Write name data w).1 !! f = files w !! f.
Proof.
  intros Hf. unfold os.Write. destruct (_ <=? _); cbn [fst files];
    by rewrite lookup_insert_ne.
Qed.

Lemma generateMarkdown_files parent cmd name w f :
  f ≠ name → files (generateMarkdown parent cmd name w).1.2 !! f = files w !! f.
Proof.
  intros Hf.
  destruct (InitDefaultHelpFlag_cases (InitDefaultHelpCmd cmd))
    as [Hok | (used & _ & _ & Herr)];
    [|unfold generateMarkdown; by rewrite Herr].
  rewrite (generateMarkdown_eq _ _ _ _ Hok).
  pose proof (pageBuffer_world parent (initialised cmd) w) as Hw.
  destruct (pageBuffer parent (initialised cmd) w) as [[page w1] o].
  cbn [fst snd] in Hw.
  assert (files w1 = files w) as Hfiles by (by destruct Hw as [-> | ->]).
  destruct o; cbn [fst snd]; rewrite <- ?Hfiles; [|done..].
  pose proof (Write_files name page w1 f Hf) as Hwr.
  by destruct (os.Write name page w1) as [w2 [e|]].
Qed.

(** Creating and writing a page touches no other file. *)
Lemma generate_page_files parent cmd subdir basename w f :
  f ≠ pageFile subdir basename →
  files (generate_page parent cmd subdir basename w).1.2 !! f = files w !! f.
Proof.
  intros Hf. unfold generate_page. fold (pageFile subdir basename).
  destruct (os.Create (pageFile subdir basename) w) as [w1|e] eqn:Hc; [|done].
  apply Create_Ok in Hc as [-> _]. rewrite Write_empty.
  rewrite generateMarkdown_files by done. cbn [files].
  by rewrite !lookup_insert_ne.
Qed.

(** A page that is written replaces what its file held. *)
Lemma generate_page_content parent cmd subdir basename w :
  (generate_page parent cmd subdir basename w).2 = Nil →
  files (generate_page parent cmd subdir basename w).1.2 !! pageFile subdir basename
  = Some (pageBuffer parent (initialised cmd) w).1.1.
Proof.
  unfold generate_page. fold (pageFile subdir basename).
  destruct (os.Create (pageFile subdir basename) w) as [w1|e] eqn:Hc; [|done].
  apply Create_Ok in Hc as [-> _]. rewrite Write_empty.
  cbn [files dirs free trace ticks]. rewrite lookup_insert_eq. cbn [default].
  rewrite sapp_nil_r.
  set (w2 := mkWorld _ _ _ _ _).
  intros (page & w3 & Hpage & _ & _ & ->)%generateMarkdown_written.
  rewrite lookup_insert_eq. unfold w2 at 1. cbn [files].
  rewrite lookup_insert_eq. cbn [default]. rewrite sapp_nil_l.
  destruct (pageBuffer_ticks parent (initialised cmd) w w2 eq_refl) as [-> _].
  by rewrite Hpage.
Qed.

Lemma frame_list path cs w f :
  Forall frame_spec cs →
  f ∉ listFiles path cs →
  files (generate_list path cs w).1.2 !! f = files w !! f.
Proof.
  intros Hcs. revert w. induction Hcs as [|c rest Hc _ IH]; intros w; [done|].
  rewrite generate_list_cons. unfold listFiles. simpl map. simpl concat.
  fold (listFiles path rest).
  destruct (isDocumentable c).
  - intros [Hf1 Hf2]%not_elem_of_app.
    specialize (Hc (Some path) formatdir (derivedName (CommandPath (Some path) c)) w f Hf1).
    destruct (generate (Some path) c formatdir _ w) as [[c' w'] o]. cbn [fst snd] in Hc.
    destruct o; [|done..].
    specialize (IH w' Hf2).
    destruct (generate_list path rest w') as [[rest' w''] o'].
    cbn [fst snd] in IH |- *. congruence.
  - intros Hf. specialize (IH w Hf).
    by destruct (generate_list path rest w) as [[rest' w''] o'].
Qed.

Lemma frame_loop path cs w f :
  Forall frame_spec cs →
  f ∉ childFiles path cs →
  files (generate_loop generate path cs w).1.2 !! f = files w !! f.
Proof.
  intros Hcs Hf. rewrite generate_loop_sorted.
  apply frame_list; [by apply sortOn_Forall|done].
Qed.

Lemma generate_frame c : frame_spec c.
Proof.
  induction c as [u s l e a h d r g i lf pf cs IH] using Command_tree_ind.
  set (c := mkCommand u s l e a h d r g i lf pf cs).
  intros parent subdir basename w f. rewrite generate_eq, pageFiles_eq.
  intros [Hf1 Hf2]%not_elem_of_app.
  pose proof (frame_loop (CommandPath parent c) cs w f IH Hf1) as Hloop.
  change (commands c) with cs.
  destruct (generate_loop generate (CommandPath parent c) cs w) as [[cs1 w1] o].
  cbn [fst snd] in Hloop. destruct o; [|done..].
  rewrite generate_page_files; [done|]. set_solver.
Qed.

End Files.

Section Files_of_a_run.
Context `{Ext : Externals}.


Lemma generate_leaf parent cmd subdir basename w :
  commands cmd = [] →
  generate parent cmd subdir basename w = generate_page parent cmd subdir basename w.
Proof.
  intros Hcs. rewrite generate_eq, generate_loop_sorted, Hcs.
  change (generate_list (CommandPath parent cmd) (sortByName []) w) with ([] : list Command, w, Nil).
  cbv iota beta. by rewrite <- Hcs, with_commands_same.
Qed.

Lemma initialised_leaf c : commands c = [] → commands (initialised c) = [].
Proof.
  intros Hcs. destruct (initialised_attrs c) as (_ & _ & _ & -> & _).
  by rewrite InitDefaultHelpCmd_leaf.
Qed.

(** The calls of a page that is written, with their bytes. *)
Lemma generate_page_trace parent cmd subdir basename w :
  (generate_page parent cmd subdir basename w).2 = Nil →
  trace (generate_page parent cmd subdir basename w).1.2
  = trace w ++ [ECreate (pageFile subdir basename);
                EWrite (pageFile subdir basename) "";
                EWrite (pageFile subdir basename)
                  (pageBuffer parent (initialised cmd) w).1.1].
Proof.
  unfold generate_page. fold (pageFile subdir basename).
  destruct (os.Create (pageFile subdir basename) w) as [w1|e] eqn:Hc; [|done].
  apply Create_Ok in Hc as [-> _]. rewrite Write_empty.
  cbn [files dirs free trace ticks].
  set (w2 := mkWorld _ _ _ _ _).
  intros (page & w3 & Hpage & _ & -> & _)%generateMarkdown_written.
  unfold w2 at 1. cbn [trace]. rewrite <- !app_assoc. cbn [app].
  destruct (pageBuffer_ticks parent (initialised cmd) w w2 eq_refl) as [-> _].
  by rewrite Hpage.
Qed.



End Files_of_a_run.

(** X9: whether it completes or fails, a run changes no file other than
    the pages of the commands it walks: every other file of the working
    directory keeps its content, or stays absent. *)
Theorem other_files_untouched `{Ext : Externals}
    (parent : option string) (cmd : Command) (subdir basename : string) (w : World)
    (f : string) :
  f ∉ pageFiles parent cmd subdir basename →
  files (generate parent cmd subdir basename w).1.2 !! f = files w !! f.
Proof. apply generate_frame. Qed.

Lemma other_files_untouched_witness :
  files (generate (Ext := Scenario.registry) None Scenario.root "" "FORMATS_GUIDE"
           Scenario.prepared).1.2 !! "README.md"
  = files Scenario.prepared !! "README.md".
Proof.
  apply (other_files_untouched (Ext := Scenario.registry) None Scenario.root ""
           "FORMATS_GUIDE" Scenario.prepared "README.md").
  intros Hin%list_elem_of_In. vm_compute in Hin. intuition discriminate.
Defined.

(** X10: a page that is written replaces what its file held.  After a call
    that returns [nil] the file of the command holds exactly the page
    written last, which starts with the title of the command: neither the
    old content nor the page of a command below with the same file name is
    left in it. *)
Theorem page_replaces_old_content `{Ext : Externals}
    (parent : option string) (cmd : Command) (subdir basename : string) (w : World) :
  (generate parent cmd subdir basename w).2 = Nil →
  ∃ page,
    files (generate parent cmd subdir basename w).1.2 !! pageFile subdir basename
    = Some page
    ∧ last (trace (generate parent cmd subdir basename w).1.2)
      = Some (EWrite (pageFile subdir basename) page)
    ∧ strings.HasPrefix page ("## " +:+ CommandPath parent cmd +:+ NL +:+ NL) = true.
Proof.
  rewrite generate_eq.
  destruct (generate_loop generate (CommandPath parent cmd) (commands cmd) w)
    as [[cs1 w1] o].
  destruct o; [|done..]. intros Hn.
  exists (pageBuffer parent (initialised (with_commands cmd cs1)) w1).1.1.
  split; [by apply generate_page_content|]. split.
  - rewrite generate_page_trace by done. by rewrite last_app.
  - destruct (pageBuffer_extends parent (initialised (with_commands cmd cs1)) w1)
      as [rest ->].
    rewrite pageHead_initialised. unfold pageHead.
    replace (CommandPath parent (with_commands cmd cs1)) with (CommandPath parent cmd)
      by (by destruct cmd).
    apply HasPrefix_app. apply str_prefix_app.
Qed.

Lemma page_replaces_old_content_witness :
  ∃ page,
    files (generate (Ext := Scenario.registry) None Scenario.root "" "FORMATS_GUIDE"
             Scenario.prepared).1.2 !! pageFile "" "FORMATS_GUIDE"
    = Some page
    ∧ last (trace (generate (Ext := Scenario.registry) None Scenario.root ""
                     "FORMATS_GUIDE" Scenario.prepared).1.2)
      = Some (EWrite (pageFile "" "FORMATS_GUIDE") page)
    ∧ strings.HasPrefix page ("## " +:+ CommandPath None Scenario.root +:+ NL +:+ NL)
      = true.
Proof.
  apply (page_replaces_old_content (Ext := Scenario.registry) None Scenario.root ""
           "FORMATS_GUIDE" Scenario.prepared).
  vm_compute. reflexivity.
Defined.



(** A formatter with the flag [--host/-h]: the file is created and left
    empty, and the call panics. *)
Example clashing_shorthand_leaves_empty_file :
  (generate (Ext := Scenario.registry) (Some "terraform-docs") hosted formatdir "json"
     Scenario.prepared).2
  = Panicked ("unable to redefine 'h' shorthand in " +:+ DQ +:+ "json" +:+ DQ
              +:+ " flagset: it's already used for " +:+ DQ +:+ "host" +:+ DQ
              +:+ " flag")
  ∧ files (generate (Ext := Scenario.registry) (Some "terraform-docs") hosted formatdir
             "json" Scenario.prepared).1.2
    = {[ "docs/formats/json.md" := "" ]}.
Proof. split; vm_compute; reflexivity. Qed.

(** ** Errors *)

Section Errors.
Context `{Ext : Externals}.





End Errors.




(** ** Pages and nodes *)

Lemma nodes_eq parent c :
  nodes parent c
  = (CommandPath parent c, c)
    :: concat (map (nodes (Some (CommandPath parent c))) (commands c)).
Proof. by destruct c. Qed.

Lemma below_loop path cs f :
  Forall below_spec cs →
  In f (childFiles path cs) →
  ∃ pc, In pc (concat (map (nodes (Some path)) cs))
        ∧ isDocumentable pc.2 = true
        ∧ f = pageFile formatdir (derivedName pc.1).
Proof.
  intros Hcs Hin. rewrite childFiles_filter in Hin.
  apply in_concat in Hin as (l & Hl & Hf).
  apply in_map_iff in Hl as (c & <- & Hc).
  apply filter_In in Hc as [Hc Hdoc].
  apply list_elem_of_In in Hc. unfold sortByName in Hc. apply sortOn_elem in Hc.
  rewrite Forall_forall in Hcs. specialize (Hcs c Hc).
  assert (∀ pc, In pc (nodes (Some path) c)
                → In pc (concat (map (nodes (Some path)) cs))) as Hsub.
  { intros pc Hpc. apply in_concat. exists (nodes (Some path) c). split; [|done].
    by apply in_map, list_elem_of_In. }
  rewrite pageFiles_eq in Hf. apply in_app_or in Hf as [Hf | [<- | []]].
  - destruct (Hcs (Some path) f Hf) as (pc & Hpc & Hd & ->).
    exists pc. split; [|done]. apply Hsub. rewrite nodes_eq. by right.
  - exists (CommandPath (Some path) c, c). split; [|done].
    apply Hsub. rewrite nodes_eq. by left.
Qed.

Lemma below_all c : below_spec c.
Proof.
  induction c as [u s l e a h d r g i lf pf cs IH] using Command_tree_ind.
  intros parent f. by apply below_loop.
Qed.

(** X12: the walker writes no page for a command that is not documentable,
    the root apart.  Whether the run completes or fails, every file it
    creates is the page of the root or the page of a documentable node of
    the tree. *)
Theorem created_pages_are_of_formatters `{Ext : Externals}
    (root : Command) (subdir basename : string) (w : World) (f : string) :
  f ∈ created (trace (generate None root subdir basename w).1.2) →
  f ∈ created (trace w)
  ∨ f = pageFile subdir basename
  ∨ f ∈ documentableFiles root.
Proof.
  destruct (generate_spec root None subdir basename w)
    as (_ & _ & evs & -> & _ & Hpre & _).
  rewrite created_app. intros [Hin | Hin]%elem_of_app; [by left|]. right.
  destruct Hpre as [k Hk]. assert (f ∈ pageFiles None root subdir basename) as Hf.
  { rewrite Hk. apply elem_of_app. by left. }
  rewrite pageFiles_eq in Hf. apply elem_of_app in Hf as [Hf | Hf%list_elem_of_singleton];
    [right|by left].
  apply list_elem_of_In in Hf.
  destruct (below_all root None f Hf) as (pc & Hpc & Hd & ->).
  unfold documentableFiles. apply list_elem_of_In, in_map_iff. exists pc.
  split; [done|]. apply filter_In. split; [|done]. rewrite nodes_eq. by right.
Qed.

Lemma created_pages_are_of_formatters_witness :
  "docs/formats/markdown-table.md" ∈ created (trace Scenario.prepared)
  ∨ "docs/formats/markdown-table.md" = pageFile "" "FORMATS_GUIDE"
  ∨ "docs/formats/markdown-table.md" ∈ documentableFiles Scenario.root.
Proof.
  apply (created_pages_are_of_formatters (Ext := Scenario.registry) Scenario.root ""
           "FORMATS_GUIDE" Scenario.prepared "docs/formats/markdown-table.md").
  apply list_elem_of_In. vm_compute. tauto.
Defined.

Lemma generate_page_rendered `{Ext : Externals} parent cmd subdir basename w :
  (generate_page parent cmd subdir basename w).2 = Nil →
  (pageBuffer parent (initialised cmd) w).2 = Nil.
Proof.
  unfold generate_page. fold (pageFile subdir basename).
  destruct (os.Create (pageFile subdir basename) w) as [w1|e] eqn:Hc; [|done].
  apply Create_Ok in Hc as [-> _]. rewrite Write_empty.
  cbn [files dirs free trace ticks].
  set (w2 := mkWorld _ _ _ _ _).
  intros (page & w3 & Hpage & _)%generateMarkdown_written.
  destruct (pageBuffer_ticks parent (initialised cmd) w w2 eq_refl) as [_ ->].
  by rewrite Hpage.
Qed.

(** ** The formatter [toml] *)

(** X13: the command [toml.NewCommand] builds, added to the root
    [terraform-docs], is documented by the walker when its annotations give
    the kind [formatter]: the loop over the children of the root looks up
    the formatter [toml], and writes to [docs/formats/toml.md] the page with
    the title, the short description as synopsis, the usage line, the
    options, the example for [terraform-docs toml ./examples/] and the
    attribution. *)
Theorem toml_page `{Ext : Externals}
    (annotations : gmap string string) (pfs : list Flag) (w : World) :
  annotations !! "kind" = Some "formatter" →
  (generate_loop generate "terraform-docs"
     [inherit pfs (toml.NewCommand annotations)] w).2 = Nil →
  ∃ printer tfmodule output,
    Factory "toml" exampleSettings = Ok printer
    ∧ LoadWithOptions exampleOptions = Ok tfmodule
    ∧ Print printer tfmodule exampleSettings = Ok output
    ∧ files (generate_loop generate "terraform-docs"
               [inherit pfs (toml.NewCommand annotations)] w).1.2
        !! "docs/formats/toml.md"
      = Some (tomlPage pfs (initialised (inherit pfs (toml.NewCommand annotations)))
                output (Now (ticks w))).
Proof.
  intros Hkind. set (cmd := inherit pfs (toml.NewCommand annotations)).
  rewrite generate_loop_sorted. change (sortByName [cmd]) with [cmd].
  rewrite generate_list_cons.
  assert (isDocumentable cmd = true) as ->.
  { unfold isDocumentable, annotation. cbn. by rewrite Hkind. }
  replace (derivedName (CommandPath (Some "terraform-docs") cmd)) with "toml"
    by (vm_compute; reflexivity).
  rewrite (generate_leaf (Some "terraform-docs") cmd) by reflexivity.
  pose proof (generate_page_content (Some "terraform-docs") cmd formatdir "toml" w)
    as Hcontent.
  pose proof (generate_page_rendered (Some "terraform-docs") cmd formatdir "toml" w)
    as Hrendered.
  destruct (generate_page (Some "terraform-docs") cmd formatdir "toml" w)
    as [[c' w'] o].
  cbn [fst snd] in Hcontent, Hrendered. destruct o; [|done..].
  change (generate_list "terraform-docs" [] w') with ([] : list Command, w', Nil).
  cbn [fst snd].
  intros _. specialize (Hcontent eq_refl). specialize (Hrendered eq_refl).
  replace (pageFile formatdir "toml") with "docs/formats/toml.md" in Hcontent
    by (vm_compute; reflexivity).
  rewrite Hcontent. clear Hcontent.
  rewrite pageBuffer_exact in Hrendered |- *. cbv zeta in Hrendered |- *.
  rewrite (initialised_leaf cmd eq_refl) in Hrendered |- *.
  cbn [length Nat.eqb] in Hrendered |- *.
  rewrite CommandPath_initialised, pageHead_initialised, LocalFlags_initialised
    in Hrendered |- *.
  destruct (initialised_attrs cmd) as (_ & _ & HG & _ & HP).
  destruct (initialised_texts cmd) as (_ & HE & Hrun).
  unfold Runnable in *. rewrite HG, HP, HE, Hrun in Hrendered |- *.
  clear HG HP HE Hrun.
  replace (CommandPath (Some "terraform-docs") cmd) with "terraform-docs toml"
    in Hrendered |- * by (vm_compute; reflexivity).
  match type of Hrendered with context [printExample ?f ?n] =>
    set (front := f) in Hrendered |- * end.
  assert ((printExample front "terraform-docs toml").2 = Nil) as Hex.
  { destruct (printExample front "terraform-docs toml") as [s o].
    cbn [fst snd] in Hrendered |- *. by destruct o. }
  clear Hrendered.
  destruct (printExample_Nil _ _ Hex) as (printer & tfmodule & output & HF & HL & HPr).
  exists printer, tfmodule, output.
  replace (strings.ReplaceAll "terraform-docs toml" "terraform-docs " "") with "toml"
    in HF by (vm_compute; reflexivity).
  split; [done|]. split; [done|]. split; [done|].
  rewrite (printExample_Ok front "terraform-docs toml" printer tfmodule output)
    by (done || by replace (strings.ReplaceAll "terraform-docs toml" "terraform-docs " "")
                     with "toml" by (vm_compute; reflexivity)).
  cbn [fst snd]. f_equal.
  unfold front, tomlPage, pageHead, optionsSection, exampleIntro, attribution.
  change (CommandPath (Some "terraform-docs") cmd) with "terraform-docs toml".
  change (Short cmd) with "Generate TOML of inputs and outputs".
  change (Long cmd) with "".
  change (ExampleText cmd) with "".
  change (LocalFlags cmd) with (@nil Flag).
  change (ParentFlags cmd) with pfs.
  change (HasRun cmd) with true.
  change (DisableAutoGenTag cmd) with false.
  change (defaultHelpFlag cmd) with (mkFlag "help" "h" "help for toml" "false" false).
  change (getFlags "terraform-docs toml") with "".
  cbn [negb app String.length Nat.ltb Nat.leb Nat.eqb].
  destruct (existsb _ pfs); destruct (HasAvailableFlags pfs);
    cbn [HasAvailableFlags existsb flag_Hidden negb orb];
    rewrite ?sapp_nil_r, ?sapp_assoc; reflexivity.
Qed.

Lemma toml_page_witness :
  ∃ printer tfmodule output,
    Factory (Externals := Scenario.registry) "toml" (exampleSettings (Ext := Scenario.registry))
    = Ok printer
    ∧ LoadWithOptions (Externals := Scenario.registry)
        (exampleOptions (Ext := Scenario.registry)) = Ok tfmodule
    ∧ Print (Externals := Scenario.registry) printer tfmodule
        (exampleSettings (Ext := Scenario.registry)) = Ok output
    ∧ files (generate_loop (generate (Ext := Scenario.registry)) "terraform-docs"
               [inherit [] (toml.NewCommand {[ "command" := "toml"; "kind" := "formatter" ]})]
               Scenario.prepared).1.2
        !! "docs/formats/toml.md"
      = Some (tomlPage (Ext := Scenario.registry) []
                (initialised
                   (inherit [] (toml.NewCommand
                                  {[ "command" := "toml"; "kind" := "formatter" ]})))
                output (@Now Scenario.registry (ticks Scenario.prepared))).
Proof.
  apply (toml_page (Ext := Scenario.registry)
           {[ "command" := "toml"; "kind" := "formatter" ]} [] Scenario.prepared);
    vm_compute; reflexivity.
Defined.

(** ** The program *)

(** X14: a run of the program that exits with status 0 has logged nothing
    and has written every page of the walk, the guide last:
    [docs/FORMATS_GUIDE.md] holds the page of the root command, whatever
    it held before. *)
Theorem main_writes_the_guide `{Ext : Externals} (NewCommand : Command) (w : World) :
  status (main NewCommand w).2 = 0 →
  logged (main NewCommand w).2 = []
  ∧ (∃ page,
       files (main NewCommand w).1.2 !! "docs/FORMATS_GUIDE.md" = Some page
       ∧ last (trace (main NewCommand w).1.2)
         = Some (EWrite "docs/FORMATS_GUIDE.md" page)
       ∧ strings.HasPrefix page ("## " +:+ Name NewCommand +:+ NL +:+ NL) = true)
  ∧ ∀ f, f ∈ pageFiles None NewCommand "" "FORMATS_GUIDE" →
         f ∈ dom (files (main NewCommand w).1.2).
Proof.
  unfold main.
  pose proof (generate_spec NewCommand None "" "FORMATS_GUIDE" w)
    as (_ & _ & evs & _ & Hdom & _ & Hnil).
  pose proof (generate_eq None NewCommand "" "FORMATS_GUIDE" w) as Heq.
  destruct (generate None NewCommand "" "FORMATS_GUIDE" w) as [[c w'] o].
  cbn [fst snd] in Hdom, Hnil. destruct o; [|discriminate..]. intros _.
  cbn [fst snd logged]. split; [done|].
  destruct (Hnil eq_refl) as [_ Hcalls].
  assert (created evs = pageFiles None NewCommand "" "FORMATS_GUIDE") as Hcr.
  { by rewrite created_calls, Hcalls, created_pageCalls. }
  split; [|intros f Hf; rewrite Hdom, Hcr; set_solver].
  destruct (generate_loop generate (CommandPath None NewCommand) (commands NewCommand) w)
    as [[cs1 w1] o].
  destruct o; [|discriminate..].
  assert ((generate_page None (with_commands NewCommand cs1) "" "FORMATS_GUIDE" w1).2 = Nil)
    as Hn by (by rewrite <- Heq).
  exists (pageBuffer None (initialised (with_commands NewCommand cs1)) w1).1.1.
  change "docs/FORMATS_GUIDE.md" with (pageFile "" "FORMATS_GUIDE").
  replace w' with (generate_page None (with_commands NewCommand cs1) "" "FORMATS_GUIDE" w1).1.2
    by (by rewrite <- Heq).
  split; [by apply generate_page_content|]. split.
  - rewrite generate_page_trace by done. by rewrite last_app.
  - destruct (pageBuffer_extends None (initialised (with_commands NewCommand cs1)) w1)
      as [rest ->].
    rewrite pageHead_initialised. unfold pageHead.
    replace (CommandPath None (with_commands NewCommand cs1)) with (Name NewCommand)
      by (by destruct NewCommand).
    apply HasPrefix_app. apply str_prefix_app.
Qed.

Lemma main_writes_the_guide_witness :
  logged (main (Ext := Scenario.registry) Scenario.root Scenario.prepared).2 = []
  ∧ (∃ page,
       files (main (Ext := Scenario.registry) Scenario.root Scenario.prepared).1.2
         !! "docs/FORMATS_GUIDE.md" = Some page
       ∧ last (trace (main (Ext := Scenario.registry) Scenario.root Scenario.prepared).1.2)
         = Some (EWrite "docs/FORMATS_GUIDE.md" page)
       ∧ strings.HasPrefix page ("## " +:+ Name Scenario.root +:+ NL +:+ NL) = true)
  ∧ ∀ f, f ∈ pageFiles None Scenario.root "" "FORMATS_GUIDE" →
         f ∈ dom (files (main (Ext := Scenario.registry) Scenario.root
                           Scenario.prepared).1.2).
Proof.
  apply (main_writes_the_guide (Ext := Scenario.registry) Scenario.root Scenario.prepared).
  vm_compute. reflexivity.
Defined.

(** ** Two runs side by side *)

Section Reproducible.
Context `{Ext : Externals}.











End Reproducible.



(** Whether a run returns [nil] does depend on the old files: the page of
    [json] has 425 bytes, and with room for 410 a first run cannot write
    it, while a run over an old page of 22 bytes can, because truncating
    the old page gives its bytes back. *)
Example truncation_gives_room :
  (generate (Ext := Scenario.registry) (Some "terraform-docs") Scenario.json formatdir
     "json" crowded).2
  = Returned "write docs/formats/json.md: no space left on device"
  ∧ (generate (Ext := Scenario.registry) (Some "terraform-docs") Scenario.json formatdir
       "json" crowdedStale).2 = Nil.
Proof. split; vm_compute; reflexivity. Qed.
